(** * The MXJob status state machine of pkg/controller.v1/mxnet/status.go

    A shallow embedding of the replica-status aggregator and of the
    condition state machine, followed by the properties of the
    specification that were checked against it.

    Conventions of the embedding:
    - Go's [int] and [int32] are [Z] with the two's-complement wrap-around
      written out ([int64], [int32]);
    - the string-typed enumerations of the API packages
      ([MXJobConditionType], [MXReplicaType], [v1.ConditionStatus],
      [v1.PodPhase]) are [string], as in Go;
    - [map[MXReplicaType]*MXReplicaStatus] is a finite map to pointers; the
      pointed-to objects live in a store ([objects]), so that two keys may
      share one object exactly as in Go;
    - [metav1.Now()] reads a clock: the n-th reading of the run is [now n];
    - the code mutates [*mxjob] in place: the job object, the replica-status
      objects, the clock and the controller's work queue form the state
      that every operation threads. *)

From Stdlib Require Import ZArith String Bool List Lia.
From stdpp Require Import base option list gmap strings.

Local Open Scope string_scope.
Local Open Scope list_scope.

(** ** Machine integers *)

Definition wrap (bits : Z) (x : Z) : Z :=
  ((x + 2 ^ (bits - 1)) mod 2 ^ bits - 2 ^ (bits - 1))%Z.

Definition int32 (x : Z) : Z := wrap 32 x.
Definition int64 (x : Z) : Z := wrap 64 x.

Definition MaxInt32 : Z := 2147483647%Z.

(** ** k8s.io/api/core/v1 and k8s.io/apimachinery: the parts status.go uses *)

(** Modelled from the spec: the declarations of the Kubernetes API packages
    are not part of status.go.  A timestamp is a number; the condition
    status is the string-typed enumeration behind "status=true"; the pod
    phases are Running, Succeeded, Failed and others. *)
Definition Time := Z.

Definition ConditionStatus := string.
Definition ConditionTrue : ConditionStatus := "True".
Definition ConditionFalse : ConditionStatus := "False".
Definition ConditionUnknown : ConditionStatus := "Unknown".

Definition PodPhase := string.
Definition PodPending : PodPhase := "Pending".
Definition PodRunning : PodPhase := "Running".
Definition PodSucceeded : PodPhase := "Succeeded".
Definition PodFailed : PodPhase := "Failed".
Definition PodUnknown : PodPhase := "Unknown".

Record PodStatus := { Phase : PodPhase }.
Record Pod := { Pod_Status : PodStatus }.

(** ** pkg/apis/mxnet/v1: the API types *)

(** Modelled from the spec: the API types are declared in another package.
    The condition type strings are exactly Created, Running, Restarting,
    Succeeded, Failed (section 6); the replica types include Scheduler,
    Worker and Tuner (section 3); a Condition, a ReplicaStatus and a
    JobStatus have the fields of section 3. *)
Definition MXJobConditionType := string.
Definition MXJobCreated : MXJobConditionType := "Created".
Definition MXJobRunning : MXJobConditionType := "Running".
Definition MXJobRestarting : MXJobConditionType := "Restarting".
Definition MXJobSucceeded : MXJobConditionType := "Succeeded".
Definition MXJobFailed : MXJobConditionType := "Failed".

Definition MXReplicaType := string.
Definition MXReplicaTypeScheduler : MXReplicaType := "Scheduler".
Definition MXReplicaTypeServer : MXReplicaType := "Server".
Definition MXReplicaTypeWorker : MXReplicaType := "Worker".
Definition MXReplicaTypeTuner : MXReplicaType := "Tuner".

(** [Type_] is the Go field [Type]. *)
Record MXJobCondition := {
  Type_ : MXJobConditionType;
  Status : ConditionStatus;
  LastUpdateTime : Time;
  LastTransitionTime : Time;
  Reason : string;
  Message : string
}.

(** The three counters are [int32] in Go (the code converts them with
    [int(...)] and increments them with [++]). *)
Record MXReplicaStatus := {
  Active : Z;
  Succeeded : Z;
  Failed : Z
}.

(** A pointer to a replica-status object: an index into [objects]. *)
Definition ptr := nat.

(** [MXReplicaStatuses] maps a replica type to a pointer; [Some None] is a
    key bound to the nil pointer.  A nil map reads like the empty map, and
    its only write (in [initializeMXReplicaStatuses]) comes after the [make]
    that replaces it, so both are [∅] here. *)
Record MXJobStatus := {
  Conditions : list MXJobCondition;
  MXReplicaStatuses : gmap MXReplicaType (option ptr);
  StartTime : option Time;
  CompletionTime : option Time
}.

Record MXReplicaSpec := {
  Replicas : option Z;
  RestartPolicy : string
}.

Record MXJobSpec := {
  ActiveDeadlineSeconds : option Z;
  MXReplicaSpecs : gmap MXReplicaType MXReplicaSpec
}.

(** [JobStatus] is the Go field [Status] of the job. *)
Record MXJob := {
  Namespace : string;
  Name : string;
  Spec : MXJobSpec;
  JobStatus : MXJobStatus
}.

Definition set_Conditions (st : MXJobStatus) (cs : list MXJobCondition) : MXJobStatus :=
  {| Conditions := cs;
     MXReplicaStatuses := MXReplicaStatuses st;
     StartTime := StartTime st;
     CompletionTime := CompletionTime st |}.

Definition set_MXReplicaStatuses (st : MXJobStatus)
    (m : gmap MXReplicaType (option ptr)) : MXJobStatus :=
  {| Conditions := Conditions st;
     MXReplicaStatuses := m;
     StartTime := StartTime st;
     CompletionTime := CompletionTime st |}.

Definition set_StartTime (st : MXJobStatus) (t : option Time) : MXJobStatus :=
  {| Conditions := Conditions st;
     MXReplicaStatuses := MXReplicaStatuses st;
     StartTime := t;
     CompletionTime := CompletionTime st |}.

Definition set_CompletionTime (st : MXJobStatus) (t : option Time) : MXJobStatus :=
  {| Conditions := Conditions st;
     MXReplicaStatuses := MXReplicaStatuses st;
     StartTime := StartTime st;
     CompletionTime := t |}.

Definition set_JobStatus (j : MXJob) (st : MXJobStatus) : MXJob :=
  {| Namespace := Namespace j; Name := Name j; Spec := Spec j; JobStatus := st |}.

Definition set_LastTransitionTime (c : MXJobCondition) (t : Time) : MXJobCondition :=
  {| Type_ := Type_ c; Status := Status c;
     LastUpdateTime := LastUpdateTime c; LastTransitionTime := t;
     Reason := Reason c; Message := Message c |}.

Definition set_Status (c : MXJobCondition) (s : ConditionStatus) : MXJobCondition :=
  {| Type_ := Type_ c; Status := s;
     LastUpdateTime := LastUpdateTime c; LastTransitionTime := LastTransitionTime c;
     Reason := Reason c; Message := Message c |}.

(** ** status.go: the reason constants *)

Definition mxJobCreatedReason := "MXJobCreated".
Definition mxJobSucceededReason := "MXJobSucceeded".
Definition mxJobRunningReason := "MXJobRunning".
Definition mxJobFailedReason := "MXJobFailed".
Definition mxJobRestartingReason := "MXJobRestarting".

(** ** The pure part of status.go *)

(** [getCondition]: the parameter [condType] is not used by the body, which
    returns the last element of the history, or nil. *)
Definition getCondition (status : MXJobStatus) (condType : MXJobConditionType)
    : option MXJobCondition :=
  match length (Conditions status) with
  | O => None
  | S n => Conditions status !! n
  end.

Fixpoint hasCondition_range (conditions : list MXJobCondition)
    (condType : MXJobConditionType) : bool :=
  match conditions with
  | [] => false
  | condition :: rest =>
      if String.eqb (Type_ condition) condType
         && String.eqb (Status condition) ConditionTrue
      then true
      else hasCondition_range rest condType
  end.

Definition hasCondition (status : MXJobStatus) (condType : MXJobConditionType) : bool :=
  hasCondition_range (Conditions status) condType.

Definition isSucceeded (status : MXJobStatus) : bool := hasCondition status MXJobSucceeded.

Definition isFailed (status : MXJobStatus) : bool := hasCondition status MXJobFailed.

(** [filterOutCondition]: the loop appends the kept elements in order; [c]
    is the loop's copy of the element, so the assignment to [c.Status] does
    not touch the input slice. *)
Fixpoint filterOutCondition (conditions : list MXJobCondition)
    (condType : MXJobConditionType) : list MXJobCondition :=
  match conditions with
  | [] => []
  | c :: rest =>
      if String.eqb condType MXJobRestarting && String.eqb (Type_ c) MXJobRunning
      then filterOutCondition rest condType
      else if String.eqb condType MXJobRunning && String.eqb (Type_ c) MXJobRestarting
      then filterOutCondition rest condType
      else if String.eqb (Type_ c) condType
      then filterOutCondition rest condType
      else
        let c' :=
          if (String.eqb condType MXJobFailed || String.eqb condType MXJobSucceeded)
             && String.eqb (Type_ c) MXJobRunning
          then set_Status c ConditionFalse
          else c in
        c' :: filterOutCondition rest condType
  end.

(** [setCondition] mutates [*status]; here it returns the new status.  A
    test [currentCond != nil && ...] is a match on the option. *)
Definition setCondition (status : MXJobStatus) (condition : MXJobCondition) : MXJobStatus :=
  if isFailed status || isSucceeded status then status
  else
    let currentCond := getCondition status (Type_ condition) in
    if match currentCond with
       | Some cur => String.eqb (Status cur) (Status condition)
                     && String.eqb (Reason cur) (Reason condition)
       | None => false
       end
    then status
    else
      let condition :=
        match currentCond with
        | Some cur =>
            if String.eqb (Status cur) (Status condition)
            then set_LastTransitionTime condition (LastTransitionTime cur)
            else condition
        | None => condition
        end in
      let newConditions := filterOutCondition (Conditions status) (Type_ condition) in
      set_Conditions status (newConditions ++ [condition]).

(** ** The state the controller code runs in *)

(** [mxjob] is the object behind the pointer [mxjob *mxv1.MXJob] that every
    function of the file receives; [objects] holds the replica-status
    objects its map points to; [clock] counts the readings of the clock made
    so far; [WorkQueue] records the [AddAfter] requests (key, nanoseconds). *)
Record State := {
  mxjob : MXJob;
  objects : list MXReplicaStatus;
  clock : nat;
  WorkQueue : list (string * Z)
}.

Definition set_mxjob (s : State) (j : MXJob) : State :=
  {| mxjob := j; objects := objects s; clock := clock s; WorkQueue := WorkQueue s |}.

Definition set_objects (s : State) (h : list MXReplicaStatus) : State :=
  {| mxjob := mxjob s; objects := h; clock := clock s; WorkQueue := WorkQueue s |}.

Definition set_clock (s : State) (n : nat) : State :=
  {| mxjob := mxjob s; objects := objects s; clock := n; WorkQueue := WorkQueue s |}.

Definition set_WorkQueue (s : State) (q : list (string * Z)) : State :=
  {| mxjob := mxjob s; objects := objects s; clock := clock s; WorkQueue := q |}.

(** A call either returns a value or panics (nil pointer dereference); the
    state is the memory as the call left it. *)
Inductive Result (A : Type) : Type :=
| Ok (a : A)
| Panicked.
Arguments Ok {A} a.
Arguments Panicked {A}.

Definition M (A : Type) : Type := State -> Result A * State.

Definition ret {A} (a : A) : M A := fun s => (Ok a, s).

Definition bind {A B} (m : M A) (f : A -> M B) : M B :=
  fun s =>
    match m s with
    | (Ok a, s') => f a s'
    | (Panicked, s') => (Panicked, s')
    end.

Definition get : M State := fun s => (Ok s, s).

Definition modify (f : State -> State) : M unit := fun s => (Ok tt, f s).

Notation "'let!' x ':=' m 'in' k" := (bind m (fun x => k))
  (at level 10, x pattern, m at level 100, k at level 200, only parsing).
Notation "'do!' m 'in' k" := (bind m (fun _ => k))
  (at level 10, m at level 100, k at level 200, only parsing).

(** The state a call leaves, and what it returns. *)
Definition exec {A} (m : M A) (s : State) : State := snd (m s).
Definition result {A} (m : M A) (s : State) : Result A := fst (m s).

Definition error := string.

(** [when b m]: an [if] without [else] around a statement. *)
Definition when (b : bool) (m : M unit) : M unit := if b then m else ret tt.

(** Reads and writes of the job's status. *)
Definition getStatus : M MXJobStatus := fun s => (Ok (JobStatus (mxjob s)), s).

Definition setStatus (st : MXJobStatus) : M unit :=
  modify (fun s => set_mxjob s (set_JobStatus (mxjob s) st)).

(** [mxjob.Status.MXReplicaStatuses[rtype].f]: the map lookup yields nil for
    a missing key, and selecting a field through nil panics.  (An index
    outside [objects] would be a dangling pointer, which Go does not have;
    it panics here as well.) *)
Definition derefReplicaStatus (rtype : MXReplicaType) : M (ptr * MXReplicaStatus) :=
  fun s =>
    match MXReplicaStatuses (JobStatus (mxjob s)) !! rtype with
    | Some (Some p) =>
        match objects s !! p with
        | Some rs => (Ok (p, rs), s)
        | None => (Panicked, s)
        end
    | _ => (Panicked, s)
    end.

Definition storeReplicaStatus (p : ptr) (rs : MXReplicaStatus) : M unit :=
  modify (fun s => set_objects s (<[p := rs]> (objects s))).

(** Modelled from the spec: ContainSchedulerSpec is declared in another file
    of the package; the spec's [hasSchedulerRole] is whether the job's
    topology includes the scheduler role, that is, whether the job's
    replica specs have an entry for it. *)
Definition ContainSchedulerSpec (j : MXJob) : bool :=
  bool_decide (is_Some (MXReplicaSpecs (Spec j) !! MXReplicaTypeScheduler)).

Section Controller.

(** The clock: [now n] is what the n-th call of [metav1.Now()] returns. *)
Variable now : nat -> Time.

(** [KeyFunc] is declared in another file of the package and is a parameter
    here: it yields the key of the job ([inl]) or an error ([inr]). *)
Variable KeyFunc : MXJob -> string + error.

Definition metav1_Now : M Time :=
  fun s => (Ok (now (clock s)), set_clock s (S (clock s))).

(** [tc.WorkQueue.AddAfter(key, d)] *)
Definition WorkQueue_AddAfter (key : string) (d : Z) : M unit :=
  modify (fun s => set_WorkQueue s (WorkQueue s ++ [(key, d)])).

(** [time.Second], in nanoseconds. *)
Definition time_Second : Z := 1000000000%Z.

(** [newCondition]: the two fields call [metav1.Now()] each, in the order of
    the composite literal. *)
Definition newCondition (conditionType : MXJobConditionType) (reason message : string)
    : M MXJobCondition :=
  let! t1 := metav1_Now in
  let! t2 := metav1_Now in
  ret {| Type_ := conditionType;
         Status := ConditionTrue;
         LastUpdateTime := t1;
         LastTransitionTime := t2;
         Reason := reason;
         Message := message |}.

(** [updateMXJobConditions] always returns a nil error. *)
Definition updateMXJobConditions (conditionType : MXJobConditionType)
    (reason message : string) : M (option error) :=
  let! condition := newCondition conditionType reason message in
  let! status := getStatus in
  do! setStatus (setCondition status condition) in
  ret None.

(** [initializeMXReplicaStatuses]: a fresh zeroed object, and the key bound
    to it. *)
Definition initializeMXReplicaStatuses (rtype : MXReplicaType) : M unit :=
  let! s := get in
  let p := length (objects s) in
  do! modify (fun s => set_objects s (objects s ++ [{| Active := 0; Succeeded := 0; Failed := 0 |}])) in
  let! status := getStatus in
  setStatus (set_MXReplicaStatuses status (<[rtype := Some p]> (MXReplicaStatuses status))).

(** [updateMXJobReplicaStatuses]: [x.f++] on an [int32] field reached through
    the map's pointer. *)
Definition updateMXJobReplicaStatuses (rtype : MXReplicaType) (pod : Pod) : M unit :=
  let phase := Phase (Pod_Status pod) in
  if String.eqb phase PodRunning then
    let! (p, rs) := derefReplicaStatus rtype in
    storeReplicaStatus p
      {| Active := int32 (Active rs + 1); Succeeded := Succeeded rs; Failed := Failed rs |}
  else if String.eqb phase PodSucceeded then
    let! (p, rs) := derefReplicaStatus rtype in
    storeReplicaStatus p
      {| Active := Active rs; Succeeded := int32 (Succeeded rs + 1); Failed := Failed rs |}
  else if String.eqb phase PodFailed then
    let! (p, rs) := derefReplicaStatus rtype in
    storeReplicaStatus p
      {| Active := Active rs; Succeeded := Succeeded rs; Failed := int32 (Failed rs + 1) |}
  else ret tt.

(** [if mxjob.Status.CompletionTime == nil { now := metav1.Now(); ... = &now }] *)
Definition setCompletionTimeIfNil : M unit :=
  let! status := getStatus in
  match CompletionTime status with
  | None =>
      let! t := metav1_Now in
      let! status := getStatus in
      setStatus (set_CompletionTime status (Some t))
  | Some _ => ret tt
  end.

(** [if mxjob.Status.StartTime == nil { ... }], the block under "set StartTime". *)
Definition setStartTimeIfNil (mxjobKey : string) : M unit :=
  let! status := getStatus in
  match StartTime status with
  | None =>
      let! t := metav1_Now in
      let! status := getStatus in
      do! setStatus (set_StartTime status (Some t)) in
      (* enqueue a sync to check if job past ActiveDeadlineSeconds *)
      let! s := get in
      match ActiveDeadlineSeconds (Spec (mxjob s)) with
      | Some seconds => WorkQueue_AddAfter mxjobKey (int64 (seconds * time_Second))
      | None => ret tt
      end
  | Some _ => ret tt
  end.

(** [updateStatusSingle].  The calls of the logger write to the process log
    only and are left out; [fmt.Sprintf] with one [%s] is a concatenation.
    [if err != nil { return err }] after [updateMXJobConditions] is kept as
    the match on its result.  ([updateMXJobStatus], the remaining function
    of the file, only forwards the job to the API client and is not
    modelled.) *)
Definition updateStatusSingle (rtype : MXReplicaType) (replicas : Z)
    (restart schedulerCompleted : bool) : M (option error) :=
  let! s0 := get in
  match KeyFunc (mxjob s0) with
  | inr err => ret (Some err)
  | inl mxjobKey =>
    (* Expect to have `replicas - succeeded` pods alive. *)
    let! (_, rs) := derefReplicaStatus rtype in
    let expected := int64 (replicas - Succeeded rs) in
    let! (_, rs) := derefReplicaStatus rtype in
    let running := Active rs in
    let! (_, rs) := derefReplicaStatus rtype in
    let failed := Failed rs in
    (* set StartTime. *)
    do! setStartTimeIfNil mxjobKey in
    let! s := get in
    let name := Name (mxjob s) in
    let! err :=
      (if ContainSchedulerSpec (mxjob s) then
         if String.eqb rtype MXReplicaTypeScheduler then
           let! err :=
             (if (0 <? running)%Z then
                updateMXJobConditions MXJobRunning mxJobRunningReason
                  ("MXJob " +:+ name +:+ " is running.")
              else ret None) in
           match err with
           | Some e => ret (Some e)
           | None =>
               if (expected =? 0)%Z then
                 do! setCompletionTimeIfNil in
                 updateMXJobConditions MXJobSucceeded mxJobSucceededReason
                   ("MXJob " +:+ name +:+ " is successfully completed.")
               else ret None
           end
         else ret None
       else
         if String.eqb rtype MXReplicaTypeWorker || String.eqb rtype MXReplicaTypeTuner then
           (* All workers are succeeded or scheduler completed, leave a succeeded condition. *)
           if (expected =? 0)%Z || schedulerCompleted then
             do! setCompletionTimeIfNil in
             updateMXJobConditions MXJobSucceeded mxJobSucceededReason
               ("MXJob " +:+ name +:+ " is successfully completed.")
           else if (0 <? running)%Z then
             (* Some workers are still running, leave a running condition. *)
             updateMXJobConditions MXJobRunning mxJobRunningReason
               ("MXJob " +:+ name +:+ " is running.")
           else ret None
         else ret None) in
    match err with
    | Some e => ret (Some e)
    | None =>
        if (0 <? failed)%Z then
          if restart then
            updateMXJobConditions MXJobRestarting mxJobRestartingReason
              ("MXJob " +:+ name +:+ " is restarting.")
          else
            do! setCompletionTimeIfNil in
            updateMXJobConditions MXJobFailed mxJobFailedReason
              ("MXJob " +:+ name +:+ " is failed.")
        else ret None
    end
  end.

End Controller.

(** ** The decision algorithm as the specification words it (section 4.2)

    The specification describes one call as: the start-time step, then the
    conditions chosen by the topology branch, then those chosen by the
    failure branch, each applied through one primitive.  These definitions
    follow that description; [updateStatusSingle_deriveAndApply] below
    relates them to the code. *)

Inductive Verdict : Type :=
| ApplyRunning
| ApplySucceeded
| ApplyRestarting
| ApplyFailed.

Definition verdictType (v : Verdict) : MXJobConditionType :=
  match v with
  | ApplyRunning => MXJobRunning
  | ApplySucceeded => MXJobSucceeded
  | ApplyRestarting => MXJobRestarting
  | ApplyFailed => MXJobFailed
  end.

Definition verdictReason (v : Verdict) : string :=
  match v with
  | ApplyRunning => mxJobRunningReason
  | ApplySucceeded => mxJobSucceededReason
  | ApplyRestarting => mxJobRestartingReason
  | ApplyFailed => mxJobFailedReason
  end.

Definition verdictMessage (name : string) (v : Verdict) : string :=
  match v with
  | ApplyRunning => "MXJob " +:+ name +:+ " is running."
  | ApplySucceeded => "MXJob " +:+ name +:+ " is successfully completed."
  | ApplyRestarting => "MXJob " +:+ name +:+ " is restarting."
  | ApplyFailed => "MXJob " +:+ name +:+ " is failed."
  end.

(** The verdicts that come with setting the completion time. *)
Definition isTerminalVerdict (v : Verdict) : bool :=
  match v with
  | ApplySucceeded | ApplyFailed => true
  | ApplyRunning | ApplyRestarting => false
  end.

(** Whether the topology branch looks at this replica group at all. *)
Definition topologyMatches (hasSchedulerRole : bool) (replicaType : MXReplicaType) : bool :=
  if hasSchedulerRole then String.eqb replicaType MXReplicaTypeScheduler
  else String.eqb replicaType MXReplicaTypeWorker || String.eqb replicaType MXReplicaTypeTuner.

Definition topologyBranch (hasSchedulerRole : bool) (replicaType : MXReplicaType)
    (expected running : Z) (schedulerAlreadyCompleted : bool) : list Verdict :=
  if hasSchedulerRole then
    if String.eqb replicaType MXReplicaTypeScheduler then
      (if (0 <? running)%Z then [ApplyRunning] else [])
      ++ (if (expected =? 0)%Z then [ApplySucceeded] else [])
    else []
  else
    if String.eqb replicaType MXReplicaTypeWorker || String.eqb replicaType MXReplicaTypeTuner then
      if (expected =? 0)%Z || schedulerAlreadyCompleted then [ApplySucceeded]
      else if (0 <? running)%Z then [ApplyRunning]
      else []
    else [].

Definition failureBranch (failed : Z) (restart : bool) : list Verdict :=
  if (0 <? failed)%Z then
    if restart then [ApplyRestarting] else [ApplyFailed]
  else [].

(** The status is terminal: a live Failed or Succeeded condition exists. *)
Definition terminalIn (conditions : list MXJobCondition) : bool :=
  hasCondition_range conditions MXJobFailed || hasCondition_range conditions MXJobSucceeded.

Definition isTerminal (status : MXJobStatus) : bool := terminalIn (Conditions status).

(** The condition [newCondition] builds from two clock readings. *)
Definition conditionAt (v : Verdict) (name : string) (tUpdate tTransition : Time)
    : MXJobCondition :=
  {| Type_ := verdictType v;
     Status := ConditionTrue;
     LastUpdateTime := tUpdate;
     LastTransitionTime := tTransition;
     Reason := verdictReason v;
     Message := verdictMessage name v |}.

(** A condition history as this controller writes it: the Succeeded and
    Failed reasons only label conditions of the Succeeded and Failed types. *)
Definition reasonsMatch (conditions : list MXJobCondition) : Prop :=
  ∀ c, c ∈ conditions →
    (Reason c = mxJobSucceededReason → Type_ c = MXJobSucceeded) ∧
    (Reason c = mxJobFailedReason → Type_ c = MXJobFailed).

(** Equality of condition histories up to [LastUpdateTime]. *)
Definition eraseUpdateTime (c : MXJobCondition) : MXJobCondition :=
  {| Type_ := Type_ c; Status := Status c;
     LastUpdateTime := 0%Z; LastTransitionTime := LastTransitionTime c;
     Reason := Reason c; Message := Message c |}.

(** Equality of condition histories up to both time stamps. *)
Definition eraseTimes (c : MXJobCondition) : MXJobCondition :=
  {| Type_ := Type_ c; Status := Status c;
     LastUpdateTime := 0%Z; LastTransitionTime := 0%Z;
     Reason := Reason c; Message := Message c |}.

(** The intended lookup of [getCondition], by its doc comment ("returns the
    condition with the provided type") and by section 9 of the
    specification: the most recent condition of the requested type. *)
Fixpoint getConditionByType (conditions : list MXJobCondition)
    (condType : MXJobConditionType) : option MXJobCondition :=
  match conditions with
  | [] => None
  | c :: rest =>
      match getConditionByType rest condType with
      | Some c' => Some c'
      | None => if String.eqb (Type_ c) condType then Some c else None
      end
  end.

Section Decision.

Variable now : nat -> Time.

Definition applyCondition (name : string) (v : Verdict) : M (option error) :=
  do! when (isTerminalVerdict v) (setCompletionTimeIfNil now) in
  updateMXJobConditions now (verdictType v) (verdictReason v) (verdictMessage name v).

Fixpoint applyConditions (name : string) (vs : list Verdict) : M (option error) :=
  match vs with
  | [] => ret None
  | v :: vs => do! applyCondition name v in applyConditions name vs
  end.

Definition deriveAndApply (key : string) (replicaType : MXReplicaType) (groupSize : Z)
    (restart schedulerAlreadyCompleted : bool) : M (option error) :=
  let! (_, rs) := derefReplicaStatus replicaType in
  do! setStartTimeIfNil now key in
  let! s := get in
  applyConditions (Name (mxjob s))
    (topologyBranch (ContainSchedulerSpec (mxjob s)) replicaType
       (int64 (groupSize - Succeeded rs)) (Active rs) schedulerAlreadyCompleted
     ++ failureBranch (Failed rs) restart).

End Decision.

(** ** What one call does to the status, with the clock readings abstracted *)

(** [setCompletionTimeIfNil] on the status, when the verdict is terminal. *)
Definition withCompletion (v : Verdict) (x : Time) (st : MXJobStatus) : MXJobStatus :=
  if isTerminalVerdict v then
    match CompletionTime st with
    | None => set_CompletionTime st (Some x)
    | Some _ => st
    end
  else st.

Definition withStart (x : Time) (st : MXJobStatus) : MXJobStatus :=
  match StartTime st with
  | None => set_StartTime st (Some x)
  | Some _ => st
  end.

(** One verdict applied: [x] is the reading taken for the completion time,
    [u] and [t] those taken by [newCondition]. *)
Definition stepStatus (name : string) (v : Verdict) (x u t : Time) (st : MXJobStatus)
    : MXJobStatus :=
  setCondition (withCompletion v x st) (conditionAt v name u t).

Inductive applies (name : string) : list Verdict → MXJobStatus → MXJobStatus → Prop :=
| applies_nil st : applies name [] st st
| applies_cons v vs x u t st st' :
    applies name vs (stepStatus name v x u t st) st' →
    applies name (v :: vs) st st'.

(** What [filterOutCondition] does to an element it keeps. *)
Definition demoted (T : MXJobConditionType) (c : MXJobCondition) : MXJobCondition :=
  if (String.eqb T MXJobFailed || String.eqb T MXJobSucceeded)
     && String.eqb (Type_ c) MXJobRunning
  then set_Status c ConditionFalse else c.

(** Which elements [filterOutCondition] keeps. *)
Definition kept (T : MXJobConditionType) (c : MXJobCondition) : bool :=
  negb (String.eqb T MXJobRestarting && String.eqb (Type_ c) MXJobRunning)
  && negb (String.eqb T MXJobRunning && String.eqb (Type_ c) MXJobRestarting)
  && negb (String.eqb (Type_ c) T).

(** [setCondition] returns without a change: the history is terminal, or
    its most recent condition has the status and the reason of the new one. *)
Definition skips (l : list MXJobCondition) (c : MXJobCondition) : bool :=
  terminalIn l
  || match last l with
     | Some cur => String.eqb (Status cur) (Status c) && String.eqb (Reason cur) (Reason c)
     | None => false
     end.

(** The condition [setCondition] appends for [c]. *)
Definition stored (l : list MXJobCondition) (c : MXJobCondition) : MXJobCondition :=
  match last l with
  | Some cur =>
      if String.eqb (Status cur) (Status c)
      then set_LastTransitionTime c (LastTransitionTime cur)
      else c
  | None => c
  end.

(** The history [setCondition] leaves. *)
Definition inserted (l : list MXJobCondition) (c : MXJobCondition) : list MXJobCondition :=
  if skips l c then l else filterOutCondition l (Type_ c) ++ [stored l c].

(** The histories a list of verdicts leads through, for some clock readings. *)
Inductive histories (name : string)
    : list Verdict → list MXJobCondition → list MXJobCondition → Prop :=
| histories_nil l : histories name [] l l
| histories_cons v vs u t l l' :
    histories name vs (inserted l (conditionAt v name u t)) l' →
    histories name (v :: vs) l l'.

(** The most recent condition is live and carries reason [r]. *)
Definition lastLive (r : string) (conditions : list MXJobCondition) : bool :=
  match last conditions with
  | Some c => String.eqb (Status c) ConditionTrue && String.eqb (Reason c) r
  | None => false
  end.

(** The verdicts of one call on a job whose group has the counters [rs]. *)
Definition callVerdicts (j : MXJob) (rs : MXReplicaStatus) (rtype : MXReplicaType)
    (replicas : Z) (restart schedulerCompleted : bool) : list Verdict :=
  topologyBranch (ContainSchedulerSpec j) rtype
    (int64 (replicas - Succeeded rs)) (Active rs) schedulerCompleted
  ++ failureBranch (Failed rs) restart.

(** The tests of [updateStatusSingle] under which one call applies a Running
    condition and then a Restarting condition: the topology test of the
    group applies Running and not Succeeded, a pod has failed and restart is
    set. *)
Definition appliesRunningThenRestarting (hasSchedulerRole : bool) (rtype : MXReplicaType)
    (expected running failed : Z) (restart schedulerCompleted : bool) : bool :=
  (if hasSchedulerRole
   then String.eqb rtype MXReplicaTypeScheduler
   else (String.eqb rtype MXReplicaTypeWorker || String.eqb rtype MXReplicaTypeTuner)
        && negb schedulerCompleted)
  && (0 <? running)%Z && negb (expected =? 0)%Z
  && (0 <? failed)%Z && restart.

(** The verdict lists one call can produce. *)
Definition verdictLists : list (list Verdict) :=
  [ [];
    [ApplyRunning]; [ApplySucceeded]; [ApplyRestarting]; [ApplyFailed];
    [ApplyRunning; ApplySucceeded];
    [ApplyRunning; ApplyRestarting]; [ApplyRunning; ApplyFailed];
    [ApplySucceeded; ApplyRestarting]; [ApplySucceeded; ApplyFailed];
    [ApplyRunning; ApplySucceeded; ApplyRestarting];
    [ApplyRunning; ApplySucceeded; ApplyFailed] ].

(** ** Concrete clocks, key functions and states for the examples *)

(** A clock that advances by one at every reading. *)
Definition tick (n : nat) : Time := Z.of_nat n.

(** The key "namespace/name", never an error. *)
Definition namespaceKey (j : MXJob) : string + error :=
  inl (Namespace j +:+ "/" +:+ Name j).

Definition exampleReplicaSpec : MXReplicaSpec :=
  {| Replicas := Some 3%Z; RestartPolicy := "Never" |}.

Definition exampleSpec (withScheduler : bool) : MXJobSpec :=
  {| ActiveDeadlineSeconds := None;
     MXReplicaSpecs :=
       if withScheduler
       then <[MXReplicaTypeScheduler := exampleReplicaSpec]>
              {[MXReplicaTypeWorker := exampleReplicaSpec]}
       else {[MXReplicaTypeWorker := exampleReplicaSpec]} |}.

(** A job "default/job" whose group [rtype] has the counters [rs]; the clock
    has been read [n] times. *)
Definition exampleState (withScheduler : bool) (conditions : list MXJobCondition)
    (start completion : option Time) (rtype : MXReplicaType) (rs : MXReplicaStatus)
    (n : nat) : State :=
  {| mxjob :=
       {| Namespace := "default";
          Name := "job";
          Spec := exampleSpec withScheduler;
          JobStatus :=
            {| Conditions := conditions;
               MXReplicaStatuses := {[rtype := Some 0%nat]};
               StartTime := start;
               CompletionTime := completion |} |};
     objects := [rs];
     clock := n;
     WorkQueue := [] |}.

Definition counters (active succeeded failed : Z) : MXReplicaStatus :=
  {| Active := active; Succeeded := succeeded; Failed := failed |}.

(** A live condition of type [T] with the reason [r], written at time [t]. *)
Definition liveCondition (T : MXJobConditionType) (r : string) (t : Time) : MXJobCondition :=
  {| Type_ := T; Status := ConditionTrue;
     LastUpdateTime := t; LastTransitionTime := t;
     Reason := r; Message := "example" |}.

(** A job whose history already holds a live Succeeded condition; its
    completion time is [completion]. *)
Definition succeededState (completion : option Time) : State :=
  exampleState false [liveCondition MXJobSucceeded mxJobSucceededReason 1%Z]
    (Some 0%Z) completion MXReplicaTypeWorker (counters 0 3 0) 2.

(** A created job whose worker group has two pods running and one failed. *)
Definition runningWithFailure : State :=
  exampleState false [liveCondition MXJobCreated mxJobCreatedReason 0%Z]
    None None MXReplicaTypeWorker (counters 2 0 1) 1.

(** A status whose history is Created, then Running, both live. *)
Definition createdRunning : MXJobStatus :=
  {| Conditions := [liveCondition MXJobCreated mxJobCreatedReason 0%Z;
                    liveCondition MXJobRunning mxJobRunningReason 1%Z];
     MXReplicaStatuses := ∅;
     StartTime := Some 0%Z;
     CompletionTime := None |}.

(** The test [filterOutCondition] makes for Running and for Restarting. *)
Definition neitherRunningNorRestarting (d : MXJobCondition) : bool :=
  negb (String.eqb (Type_ d) MXJobRunning) && negb (String.eqb (Type_ d) MXJobRestarting).

(** A status whose history is Created, then Restarting, both live. *)
Definition createdRestarting : MXJobStatus :=
  {| Conditions := [liveCondition MXJobCreated mxJobCreatedReason 0%Z;
                    liveCondition MXJobRestarting mxJobRestartingReason 1%Z];
     MXReplicaStatuses := ∅;
     StartTime := Some 0%Z;
     CompletionTime := None |}.

(** What [filterOutCondition] does to a kept entry when the inserted type is
    Failed or Succeeded. *)
Definition flipRunning (d : MXJobCondition) : MXJobCondition :=
  if String.eqb (Type_ d) MXJobRunning then set_Status d ConditionFalse else d.

Definition notOfType (T : MXJobConditionType) (d : MXJobCondition) : bool :=
  negb (String.eqb (Type_ d) T).

(** [setCondition] with the lookup its comments describe: the same body,
    [currentCond] being the most recent condition of the requested type. *)
Definition setConditionByType (status : MXJobStatus) (condition : MXJobCondition)
    : MXJobStatus :=
  if isFailed status || isSucceeded status then status
  else
    let currentCond := getConditionByType (Conditions status) (Type_ condition) in
    if match currentCond with
       | Some cur => String.eqb (Status cur) (Status condition)
                     && String.eqb (Reason cur) (Reason condition)
       | None => false
       end
    then status
    else
      let condition :=
        match currentCond with
        | Some cur =>
            if String.eqb (Status cur) (Status condition)
            then set_LastTransitionTime condition (LastTransitionTime cur)
            else condition
        | None => condition
        end in
      let newConditions := filterOutCondition (Conditions status) (Type_ condition) in
      set_Conditions status (newConditions ++ [condition]).

(** A status whose history is Running (written at 1), then Created (written
    at 7), both live: what a second Created, applied when the job is seen
    again, leaves behind a Running condition. *)
Definition runningThenCreated : MXJobStatus :=
  {| Conditions := [liveCondition MXJobRunning mxJobRunningReason 1%Z;
                    liveCondition MXJobCreated mxJobCreatedReason 7%Z];
     MXReplicaStatuses := ∅;
     StartTime := Some 0%Z;
     CompletionTime := None |}.

(** A status whose history is one live Created condition, written at 1. *)
Definition createdOnly : MXJobStatus :=
  {| Conditions := [liveCondition MXJobCreated mxJobCreatedReason 1%Z];
     MXReplicaStatuses := ∅;
     StartTime := Some 0%Z;
     CompletionTime := None |}.

(** The specification's [observe]: the counter of the phase, incremented by
    one. *)
Definition observe (phase : PodPhase) (rs : MXReplicaStatus) : MXReplicaStatus :=
  if String.eqb phase PodRunning then
    {| Active := Active rs + 1; Succeeded := Succeeded rs; Failed := Failed rs |}
  else if String.eqb phase PodSucceeded then
    {| Active := Active rs; Succeeded := Succeeded rs + 1; Failed := Failed rs |}
  else if String.eqb phase PodFailed then
    {| Active := Active rs; Succeeded := Succeeded rs; Failed := Failed rs + 1 |}
  else rs.

Definition MinInt32 : Z := (-2147483648)%Z.

(** The counter is an [int32] that one more increment does not overflow. *)
Definition incrementable (x : Z) : Prop := (MinInt32 ≤ x < MaxInt32)%Z.

Definition podInPhase (phase : PodPhase) : Pod := {| Pod_Status := {| Phase := phase |} |}.

(** A job that has counters for its worker group only. *)
Definition workersOnly : State :=
  exampleState false [liveCondition MXJobCreated mxJobCreatedReason 0%Z]
    None None MXReplicaTypeWorker (counters 1 0 0) 1.

(** A job with a scheduler role whose worker group has one failed pod. *)
Definition schedulerJobFailedWorker : State :=
  exampleState true [] None None MXReplicaTypeWorker (counters 0 0 1) 0.

(** A fresh scheduler-less job whose three workers have all succeeded
    (scenario D of the specification). *)
Definition allWorkersSucceeded : State :=
  exampleState false [] None None MXReplicaTypeWorker (counters 0 3 0) 0.

(** A fresh scheduler-less job of three workers: three pods have succeeded
    and one more pod of the group has failed. *)
Definition workerFailedAllSucceeded : State :=
  exampleState false [] None None MXReplicaTypeWorker (counters 0 3 1) 0.

(** The same counters under a history whose Created condition carries the
    reason of Succeeded. *)
Definition mislabelledCreated : State :=
  exampleState false [liveCondition MXJobCreated mxJobSucceededReason 0%Z]
    (Some 0%Z) None MXReplicaTypeWorker (counters 0 3 1) 1.

(** A worker group whose Active counter is the largest [int32]. *)
Definition workersAtMaxInt32 : State :=
  exampleState false [] None None MXReplicaTypeWorker (counters MaxInt32 0 0) 0.

(** A job whose Worker and Server entries point to one object. *)
Definition sharedCounters : State :=
  {| mxjob :=
       {| Namespace := "default";
          Name := "job";
          Spec := exampleSpec false;
          JobStatus :=
            {| Conditions := [];
               MXReplicaStatuses :=
                 <[MXReplicaTypeServer := Some 0%nat]> {[MXReplicaTypeWorker := Some 0%nat]};
               StartTime := None;
               CompletionTime := None |} |};
     objects := [counters 0 0 0];
     clock := 0;
     WorkQueue := [] |}.

(** A fresh scheduler-less job with two workers running and one failed. *)
Definition workerFailedWhileRunning : State :=
  exampleState false [] None None MXReplicaTypeWorker (counters 2 0 1) 0.

(** ** The aggregator over the pods of a group *)

(** [updateMXJobReplicaStatuses] called once for each pod, in order. *)
Fixpoint observePods (rtype : MXReplicaType) (pods : list Pod) : M unit :=
  match pods with
  | [] => ret tt
  | pod :: rest =>
      do! updateMXJobReplicaStatuses rtype pod in
      observePods rtype rest
  end.

(** The number of pods in phase [phase]. *)
Fixpoint countPhase (phase : PodPhase) (pods : list Pod) : Z :=
  match pods with
  | [] => 0%Z
  | pod :: rest =>
      ((if String.eqb (Phase (Pod_Status pod)) phase then 1 else 0)
       + countPhase phase rest)%Z
  end.

(** The counters [rs] with the pods of [pods] added, phase by phase. *)
Definition addCounts (rs : MXReplicaStatus) (pods : list Pod) : MXReplicaStatus :=
  {| Active := Active rs + countPhase PodRunning pods;
     Succeeded := Succeeded rs + countPhase PodSucceeded pods;
     Failed := Failed rs + countPhase PodFailed pods |}.

(** The counters stay [int32] values while the pods are added. *)
Definition countsFit (rs : MXReplicaStatus) (pods : list Pod) : Prop :=
  (MinInt32 ≤ Active rs ∧ Active rs + countPhase PodRunning pods ≤ MaxInt32
   ∧ MinInt32 ≤ Succeeded rs ∧ Succeeded rs + countPhase PodSucceeded pods ≤ MaxInt32
   ∧ MinInt32 ≤ Failed rs ∧ Failed rs + countPhase PodFailed pods ≤ MaxInt32)%Z.

(** The replica status object [initializeMXReplicaStatuses] allocates. *)
Definition zeroCounters : MXReplicaStatus := counters 0 0 0.

(** A job without counters, as it is first seen. *)
Definition freshJob : State :=
  {| mxjob :=
       {| Namespace := "default";
          Name := "job";
          Spec := exampleSpec false;
          JobStatus :=
            {| Conditions := [liveCondition MXJobCreated mxJobCreatedReason 0%Z];
               MXReplicaStatuses := ∅;
               StartTime := None;
               CompletionTime := None |} |};
     objects := [];
     clock := 1;
     WorkQueue := [] |}.

(** Three pods: two running, one failed; and the same pods in another order. *)
Definition threePods : list Pod :=
  [podInPhase PodRunning; podInPhase PodFailed; podInPhase PodRunning].

Definition threePodsReordered : list Pod :=
  [podInPhase PodFailed; podInPhase PodRunning; podInPhase PodRunning].

(** ** Shapes of condition histories *)

(** The pairs of condition type and reason that this package writes. *)
Definition typeReasons : list (MXJobConditionType * string) :=
  [ (MXJobCreated, mxJobCreatedReason);
    (MXJobRunning, mxJobRunningReason);
    (MXJobRestarting, mxJobRestartingReason);
    (MXJobSucceeded, mxJobSucceededReason);
    (MXJobFailed, mxJobFailedReason) ].

Definition labelled (c : MXJobCondition) : Prop := (Type_ c, Reason c) ∈ typeReasons.

(** One entry per condition type; not both a Running and a Restarting
    entry; every entry labelled with the reason of its type; not both live
    Succeeded and live Failed. *)
Definition historyInvariant (l : list MXJobCondition) : Prop :=
  NoDup (Type_ <$> l)
  ∧ ¬ (MXJobRunning ∈ Type_ <$> l ∧ MXJobRestarting ∈ Type_ <$> l)
  ∧ (∀ c, c ∈ l → labelled c)
  ∧ hasCondition_range l MXJobSucceeded && hasCondition_range l MXJobFailed = false.

(** The tests of [updateStatusSingle] that lead to a Succeeded or to a Failed
    condition. *)
Definition selectsTerminal (hasSchedulerRole : bool) (rtype : MXReplicaType)
    (expected failed : Z) (restart schedulerCompleted : bool) : bool :=
  (if hasSchedulerRole
   then String.eqb rtype MXReplicaTypeScheduler && (expected =? 0)%Z
   else (String.eqb rtype MXReplicaTypeWorker || String.eqb rtype MXReplicaTypeTuner)
        && ((expected =? 0)%Z || schedulerCompleted))
  || ((0 <? failed)%Z && negb restart).

(** A history with two Running entries, the older one already false. *)
Definition duplicatedRunning : MXJobStatus :=
  {| Conditions := [set_Status (liveCondition MXJobRunning mxJobRunningReason 1%Z) ConditionFalse;
                    liveCondition MXJobCreated mxJobCreatedReason 2%Z;
                    liveCondition MXJobRunning mxJobRunningReason 3%Z];
     MXReplicaStatuses := ∅;
     StartTime := Some 0%Z;
     CompletionTime := None |}.

(** A job with a scheduler role whose scheduler pod has succeeded. *)
Definition schedulerSucceeded : State :=
  exampleState true [liveCondition MXJobCreated mxJobCreatedReason 0%Z;
                     liveCondition MXJobRunning mxJobRunningReason 1%Z]
    (Some 0%Z) None MXReplicaTypeScheduler (counters 0 1 0) 2.

(** Three pods of a group, all succeeded. *)
Definition succeededPods : list Pod :=
  [podInPhase PodSucceeded; podInPhase PodSucceeded; podInPhase PodSucceeded].

Section Outcome.

Variable now : nat -> Time.
Variable KeyFunc : MXJob -> string + error.

(** The three ways a call ends. *)
Inductive CallOutcome (rtype : MXReplicaType) (replicas : Z)
    (restart schedulerCompleted : bool) (s : State) : Prop :=
| KeyFailed err :
    KeyFunc (mxjob s) = inr err →
    updateStatusSingle now KeyFunc rtype replicas restart schedulerCompleted s
      = (Ok (Some err), s) →
    CallOutcome rtype replicas restart schedulerCompleted s
| NilReplicaStatus key :
    KeyFunc (mxjob s) = inl key →
    derefReplicaStatus rtype s = (Panicked, s) →
    updateStatusSingle now KeyFunc rtype replicas restart schedulerCompleted s
      = (Panicked, s) →
    CallOutcome rtype replicas restart schedulerCompleted s
| Derived key p rs x st' :
    KeyFunc (mxjob s) = inl key →
    derefReplicaStatus rtype s = (Ok (p, rs), s) →
    applies (Name (mxjob s))
      (callVerdicts (mxjob s) rs rtype replicas restart schedulerCompleted)
      (withStart x (JobStatus (mxjob s))) st' →
    result (updateStatusSingle now KeyFunc rtype replicas restart schedulerCompleted) s
      = Ok None →
    mxjob (exec (updateStatusSingle now KeyFunc rtype replicas restart schedulerCompleted) s)
      = set_JobStatus (mxjob s) st' →
    objects (exec (updateStatusSingle now KeyFunc rtype replicas restart schedulerCompleted) s)
      = objects s →
    CallOutcome rtype replicas restart schedulerCompleted s.

End Outcome.

(** * Properties *)

Section Properties.

Variable now : nat -> Time.
Variable KeyFunc : MXJob -> string + error.

(** ** Strings *)

Lemma eqb_true (a b : string) : String.eqb a b = true ↔ a = b.
Proof. apply String.eqb_eq. Qed.

Lemma eqb_false (a b : string) : String.eqb a b = false ↔ a ≠ b.
Proof. apply String.eqb_neq. Qed.

(** ** [hasCondition], [getCondition] *)

Lemma getCondition_last st T : getCondition st T = last (Conditions st).
Proof.
  unfold getCondition. rewrite last_lookup.
  destruct (Conditions st) as [|c l]; reflexivity.
Qed.

Lemma hasCondition_range_true l T :
  hasCondition_range l T = true ↔
  ∃ c, c ∈ l ∧ Type_ c = T ∧ Status c = ConditionTrue.
Proof.
  induction l as [|c l IH]; simpl.
  - split; [discriminate|]. intros (c & Hc & _). inversion Hc.
  - destruct (String.eqb (Type_ c) T && String.eqb (Status c) ConditionTrue) eqn:E.
    + apply andb_true_iff in E as [E1 E2].
      apply eqb_true in E1. apply eqb_true in E2.
      split; [|reflexivity]. intros _. exists c. split; [left|]. auto.
    + rewrite IH. split.
      * intros (c' & Hc' & H1 & H2). exists c'. split; [right; exact Hc'|auto].
      * intros (c' & Hc' & H1 & H2). apply elem_of_cons in Hc' as [->|Hc'].
        -- apply andb_false_iff in E as [E|E]; apply eqb_false in E; contradiction.
        -- exists c'. auto.
Qed.

Lemma hasCondition_range_app l1 l2 T :
  hasCondition_range (l1 ++ l2) T = hasCondition_range l1 T || hasCondition_range l2 T.
Proof.
  induction l1 as [|c l1 IH]; simpl; [reflexivity|].
  destruct (String.eqb (Type_ c) T && String.eqb (Status c) ConditionTrue); [reflexivity|apply IH].
Qed.

(** ** [filterOutCondition] *)

Lemma filterOutCondition_app l1 l2 T :
  filterOutCondition (l1 ++ l2) T = filterOutCondition l1 T ++ filterOutCondition l2 T.
Proof.
  induction l1 as [|c l1 IH]; simpl; [reflexivity|].
  repeat match goal with |- context [if ?b then _ else _] =>
    lazymatch b with
    | context [filterOutCondition] => fail
    | _ => destruct b eqn:?
    end end; simpl; rewrite ?IH; reflexivity.
Qed.

Lemma filterOutCondition_spec l T :
  filterOutCondition l T = map (demoted T) (List.filter (kept T) l).
Proof.
  induction l as [|c l IH]; simpl; [reflexivity|].
  unfold kept, demoted.
  destruct (String.eqb T MXJobRestarting && String.eqb (Type_ c) MXJobRunning); simpl;
    [exact IH|].
  destruct (String.eqb T MXJobRunning && String.eqb (Type_ c) MXJobRestarting); simpl;
    [exact IH|].
  destruct (String.eqb (Type_ c) T); simpl; [exact IH|].
  rewrite IH. reflexivity.
Qed.

Lemma demoted_Type T c : Type_ (demoted T c) = Type_ c.
Proof. unfold demoted. destruct (_ && _); reflexivity. Qed.

Lemma demoted_live T c : Status (demoted T c) = ConditionTrue → demoted T c = c.
Proof. unfold demoted. destruct (_ && _); [discriminate|reflexivity]. Qed.

Lemma filterOutCondition_elem l T c' :
  c' ∈ filterOutCondition l T ↔ ∃ c, c ∈ l ∧ kept T c = true ∧ c' = demoted T c.
Proof.
  rewrite filterOutCondition_spec, !list_elem_of_In, in_map_iff.
  split.
  - intros (c & <- & Hc). apply filter_In in Hc as [Hc Hk].
    exists c. rewrite list_elem_of_In. auto.
  - intros (c & Hc & Hk & ->). exists c. split; [reflexivity|].
    apply filter_In. rewrite <- list_elem_of_In. auto.
Qed.

(** Filtering never brings a live condition into being. *)
Lemma filterOutCondition_hasCondition l T X :
  hasCondition_range (filterOutCondition l T) X = true →
  hasCondition_range l X = true.
Proof.
  rewrite !hasCondition_range_true. intros (c' & Hc' & HT & HS).
  apply filterOutCondition_elem in Hc' as (c & Hc & _ & ->).
  pose proof (demoted_live _ _ HS) as E. rewrite E in HT, HS. exists c. auto.
Qed.

(** After filtering for Running or for Restarting neither type is left. *)
Lemma filterOutCondition_exclusive l T c :
  T = MXJobRunning ∨ T = MXJobRestarting →
  c ∈ filterOutCondition l T →
  Type_ c ≠ MXJobRunning ∧ Type_ c ≠ MXJobRestarting.
Proof.
  intros HT Hc. apply filterOutCondition_elem in Hc as (c0 & _ & Hk & ->).
  rewrite demoted_Type. unfold kept in Hk.
  apply andb_true_iff in Hk as [Hk H3]. apply andb_true_iff in Hk as [H1 H2].
  apply negb_true_iff in H1, H2, H3. apply eqb_false in H3.
  destruct HT as [-> | ->]; simpl in H1, H2.
  - apply eqb_false in H2. auto.
  - apply eqb_false in H1. auto.
Qed.

(** A history without Running and Restarting entries passes unchanged. *)
Lemma filterOutCondition_id l T :
  T = MXJobRunning ∨ T = MXJobRestarting →
  (∀ c, c ∈ l → Type_ c ≠ MXJobRunning ∧ Type_ c ≠ MXJobRestarting) →
  filterOutCondition l T = l.
Proof.
  intros HT. induction l as [|c l IH]; intros Hl; [reflexivity|].
  assert (Hc : Type_ c ≠ MXJobRunning ∧ Type_ c ≠ MXJobRestarting)
    by (apply Hl; left).
  destruct Hc as [Hc1 Hc2]. apply eqb_false in Hc1, Hc2.
  simpl. rewrite Hc1, Hc2, !andb_false_r.
  assert (String.eqb (Type_ c) T = false) as ->
    by (destruct HT as [-> | ->]; assumption).
  rewrite IH by (intros c' Hc'; apply Hl; right; exact Hc').
  reflexivity.
Qed.

(** ** [setCondition] *)

Lemma setCondition_eq st c :
  setCondition st c = set_Conditions st (inserted (Conditions st) c).
Proof.
  unfold setCondition, inserted, skips, stored. rewrite getCondition_last.
  change (isFailed st || isSucceeded st) with (terminalIn (Conditions st)).
  destruct (terminalIn (Conditions st)); [destruct st; reflexivity|]. simpl.
  destruct (last (Conditions st)) as [cur|]; [|reflexivity].
  destruct (String.eqb (Status cur) (Status c)), (String.eqb (Reason cur) (Reason c));
    try reflexivity; destruct st; reflexivity.
Qed.

Lemma setCondition_Conditions st c :
  Conditions (setCondition st c) = inserted (Conditions st) c.
Proof. rewrite setCondition_eq. reflexivity. Qed.

Lemma setCondition_frame st c :
  MXReplicaStatuses (setCondition st c) = MXReplicaStatuses st
  ∧ StartTime (setCondition st c) = StartTime st
  ∧ CompletionTime (setCondition st c) = CompletionTime st.
Proof. rewrite setCondition_eq. auto. Qed.

Lemma inserted_terminal l c : terminalIn l = true → inserted l c = l.
Proof. intros H. unfold inserted, skips. rewrite H. reflexivity. Qed.

Lemma setCondition_terminal st c : isTerminal st = true → setCondition st c = st.
Proof.
  intros H. rewrite setCondition_eq, inserted_terminal by exact H.
  destruct st; reflexivity.
Qed.

Lemma stored_fields l c :
  Type_ (stored l c) = Type_ c ∧ Status (stored l c) = Status c
  ∧ Reason (stored l c) = Reason c ∧ Message (stored l c) = Message c
  ∧ LastUpdateTime (stored l c) = LastUpdateTime c.
Proof.
  unfold stored. destruct (last l) as [cur|]; [|auto].
  destruct (String.eqb (Status cur) (Status c)); auto.
Qed.

Lemma skips_conditionAt l v name u t :
  skips l (conditionAt v name u t) = terminalIn l || lastLive (verdictReason v) l.
Proof. reflexivity. Qed.

Lemma lastLive_snoc r l c :
  lastLive r (l ++ [c]) = String.eqb (Status c) ConditionTrue && String.eqb (Reason c) r.
Proof. unfold lastLive. rewrite last_snoc. reflexivity. Qed.

Lemma lastLive_reason r r' l : lastLive r l = true → r ≠ r' → lastLive r' l = false.
Proof.
  unfold lastLive. destruct (last l) as [c|]; [|discriminate].
  intros H Hne. apply andb_true_iff in H as [_ H]. apply eqb_true in H.
  apply andb_false_iff. right. apply eqb_false. congruence.
Qed.

(** In a non-terminal history written by this controller the most recent
    condition never carries the reason of a terminal verdict. *)
Lemma reasonsMatch_lastLive l v :
  reasonsMatch l → terminalIn l = false →
  isTerminalVerdict v = true →
  lastLive (verdictReason v) l = false.
Proof.
  intros Hwf Hnt Hv. unfold lastLive.
  destruct (last l) as [c|] eqn:El; [|reflexivity].
  destruct (String.eqb (Status c) ConditionTrue && String.eqb (Reason c) (verdictReason v))
    eqn:E; [|reflexivity].
  apply andb_true_iff in E as [E1 E2]. apply eqb_true in E1, E2.
  assert (Hin : c ∈ l).
  { apply list_elem_of_lookup. exists (pred (length l)).
    rewrite <- last_lookup. exact El. }
  destruct (Hwf c Hin) as [HS HF].
  apply orb_false_iff in Hnt as [HnF HnS].
  destruct v; try discriminate Hv.
  - assert (hasCondition_range l MXJobSucceeded = true); [|congruence].
    apply hasCondition_range_true. exists c. auto.
  - assert (hasCondition_range l MXJobFailed = true); [|congruence].
    apply hasCondition_range_true. exists c. auto.
Qed.

(** *** One verdict on a history *)

Lemma inserted_conditionAt l v name u t :
  terminalIn l = false → lastLive (verdictReason v) l = false →
  inserted l (conditionAt v name u t)
  = filterOutCondition l (verdictType v) ++ [stored l (conditionAt v name u t)].
Proof.
  intros H1 H2. unfold inserted. rewrite skips_conditionAt, H1, H2. reflexivity.
Qed.

Lemma terminalIn_filterOutCondition l T :
  terminalIn l = false → terminalIn (filterOutCondition l T) = false.
Proof.
  unfold terminalIn. intros H. apply orb_false_iff in H as [H1 H2].
  apply orb_false_iff. split; apply not_true_is_false; intros E;
    apply filterOutCondition_hasCondition in E; congruence.
Qed.

(** A verdict on a non-terminal history leaves its reason on the most
    recent condition, live. *)
Lemma inserted_lastLive l v name u t :
  terminalIn l = false →
  lastLive (verdictReason v) (inserted l (conditionAt v name u t)) = true.
Proof.
  intros Hnt. unfold inserted. rewrite skips_conditionAt, Hnt. simpl.
  destruct (lastLive (verdictReason v) l) eqn:E; [exact E|].
  rewrite lastLive_snoc.
  destruct (stored_fields l (conditionAt v name u t)) as (_ & -> & -> & _).
  simpl. rewrite String.eqb_refl. reflexivity.
Qed.

(** Running and Restarting keep a non-terminal history non-terminal. *)
Lemma inserted_nonterminal l v name u t :
  terminalIn l = false → isTerminalVerdict v = false →
  terminalIn (inserted l (conditionAt v name u t)) = false.
Proof.
  intros Hnt Hv. unfold inserted. destruct (skips _ _); [exact Hnt|].
  change (Type_ (conditionAt v name u t)) with (verdictType v).
  pose proof (terminalIn_filterOutCondition l (verdictType v) Hnt) as Hf.
  unfold terminalIn in *. rewrite !hasCondition_range_app.
  apply orb_false_iff in Hf as [-> ->]. simpl.
  destruct (stored_fields l (conditionAt v name u t)) as (-> & _).
  destruct v; try discriminate Hv; reflexivity.
Qed.

(** Succeeded and Failed, once appended, make the history terminal. *)
Lemma inserted_terminalVerdict l v name u t :
  isTerminalVerdict v = true →
  lastLive (verdictReason v) l = false →
  terminalIn (inserted l (conditionAt v name u t)) = true.
Proof.
  intros Hv Hl. destruct (terminalIn l) eqn:Hnt.
  - rewrite inserted_terminal by exact Hnt. exact Hnt.
  - rewrite inserted_conditionAt by assumption.
    unfold terminalIn. rewrite !hasCondition_range_app.
    destruct (stored_fields l (conditionAt v name u t)) as (HT & HS & _).
    simpl. rewrite HT, HS. simpl.
    destruct v; try discriminate Hv; simpl; rewrite ?orb_true_r; reflexivity.
Qed.

(** ** The primitives always return, and what they leave *)

Lemma setCompletionTimeIfNil_returns s :
  setCompletionTimeIfNil now s = (Ok tt, exec (setCompletionTimeIfNil now) s).
Proof.
  unfold exec, setCompletionTimeIfNil, bind, getStatus. simpl.
  destruct (CompletionTime (JobStatus (mxjob s))); reflexivity.
Qed.

Lemma updateMXJobConditions_returns T r m s :
  updateMXJobConditions now T r m s = (Ok None, exec (updateMXJobConditions now T r m) s).
Proof. reflexivity. Qed.

Lemma applyCondition_returns name v s :
  applyCondition now name v s = (Ok None, exec (applyCondition now name v) s).
Proof.
  unfold exec, applyCondition, bind, when.
  destruct (isTerminalVerdict v).
  - rewrite setCompletionTimeIfNil_returns. reflexivity.
  - reflexivity.
Qed.

Lemma applyConditions_returns name vs s :
  applyConditions now name vs s = (Ok None, exec (applyConditions now name vs) s).
Proof.
  revert s. induction vs as [|v vs IH]; intros s; [reflexivity|].
  unfold exec. simpl. unfold bind. rewrite applyCondition_returns.
  rewrite IH. reflexivity.
Qed.

Lemma setStartTimeIfNil_returns key s :
  setStartTimeIfNil now key s = (Ok tt, exec (setStartTimeIfNil now key) s).
Proof.
  unfold exec, setStartTimeIfNil, bind, getStatus. simpl.
  destruct (StartTime (JobStatus (mxjob s))); [reflexivity|].
  simpl. destruct (ActiveDeadlineSeconds (Spec (mxjob s))); reflexivity.
Qed.

Lemma derefReplicaStatus_state rtype s r s' :
  derefReplicaStatus rtype s = (r, s') → s' = s.
Proof.
  unfold derefReplicaStatus.
  destruct (MXReplicaStatuses (JobStatus (mxjob s)) !! rtype) as [[p|]|];
    [destruct (objects s !! p)|..]; intros [= _ <-]; reflexivity.
Qed.

Lemma bind_run {A B} (m : M A) (f : A → M B) s a s' :
  m s = (Ok a, s') → bind m f s = f a s'.
Proof. intros H. unfold bind. rewrite H. reflexivity. Qed.

Lemma bind_panic {A B} (m : M A) (f : A → M B) s s' :
  m s = (Panicked, s') → bind m f s = (Panicked, s').
Proof. intros H. unfold bind. rewrite H. reflexivity. Qed.

Lemma bind_assoc {A B C} (m : M A) (f : A → M B) (g : B → M C) s :
  bind (bind m f) g s = bind m (λ a, bind (f a) g) s.
Proof. unfold bind. destruct (m s) as [[a|] s']; reflexivity. Qed.

(** ** The code carries out the specification's algorithm *)

Ltac run_steps :=
  repeat first
    [ rewrite bind_assoc
    | rewrite (bind_run _ _ _ _ _ (setCompletionTimeIfNil_returns _))
    | rewrite (bind_run _ _ _ _ _ (updateMXJobConditions_returns _ _ _ _))
    | rewrite (bind_run _ _ _ _ _ (setStartTimeIfNil_returns _ _))
    | rewrite (bind_run _ _ _ _ _ (applyCondition_returns _ _ _))
    | rewrite (bind_run _ _ _ _ _ (applyConditions_returns _ _ _))
    | rewrite (bind_run (ret _) _ _ _ _ eq_refl)
    | rewrite (bind_run get _ _ _ _ eq_refl) ].

Lemma updateStatusSingle_deriveAndApply rtype replicas restart sc s key :
  KeyFunc (mxjob s) = inl key →
  updateStatusSingle now KeyFunc rtype replicas restart sc s
  = deriveAndApply now key rtype replicas restart sc s.
Proof.
  intros Hkey.
  unfold updateStatusSingle, deriveAndApply.
  rewrite (bind_run get _ s s s eq_refl). rewrite Hkey.
  destruct (derefReplicaStatus rtype s) as [[[p rs]|] s1] eqn:Hd.
  2:{ rewrite !(bind_panic _ _ _ _ Hd). reflexivity. }
  pose proof (derefReplicaStatus_state _ _ _ _ Hd) as ->.
  rewrite !(bind_run _ _ _ _ _ Hd).
  run_steps.
  set (s2 := exec (setStartTimeIfNil now key) s).
  unfold topologyBranch, failureBranch.
  destruct (ContainSchedulerSpec (mxjob s2));
    [destruct (String.eqb rtype MXReplicaTypeScheduler);
       [destruct (0 <? Active rs)%Z, (int64 (replicas - Succeeded rs) =? 0)%Z|]
    |destruct (String.eqb rtype MXReplicaTypeWorker || String.eqb rtype MXReplicaTypeTuner);
       [destruct ((int64 (replicas - Succeeded rs) =? 0)%Z || sc);
          [|destruct (0 <? Active rs)%Z]|]];
    destruct (0 <? Failed rs)%Z; try destruct restart;
    cbn [app applyConditions]; unfold applyCondition, when; cbn [isTerminalVerdict];
    run_steps; reflexivity.
Qed.

(** ** What a call leaves: the outcome of [updateStatusSingle] *)

Lemma set_JobStatus_id j : set_JobStatus j (JobStatus j) = j.
Proof. destruct j; reflexivity. Qed.

Lemma exec_setStartTimeIfNil key s :
  ∃ x, mxjob (exec (setStartTimeIfNil now key) s)
       = set_JobStatus (mxjob s) (withStart x (JobStatus (mxjob s)))
     ∧ objects (exec (setStartTimeIfNil now key) s) = objects s.
Proof.
  exists (now (clock s)).
  unfold exec, setStartTimeIfNil, withStart, bind, getStatus. simpl.
  destruct (StartTime (JobStatus (mxjob s))); simpl.
  - rewrite set_JobStatus_id. auto.
  - destruct (ActiveDeadlineSeconds (Spec (mxjob s))); simpl; auto.
Qed.

Lemma exec_applyCondition name v s :
  ∃ x u t, mxjob (exec (applyCondition now name v) s)
           = set_JobStatus (mxjob s) (stepStatus name v x u t (JobStatus (mxjob s)))
         ∧ objects (exec (applyCondition now name v) s) = objects s.
Proof.
  unfold exec, applyCondition, stepStatus, withCompletion, when, bind.
  destruct (isTerminalVerdict v).
  - unfold setCompletionTimeIfNil, bind, getStatus. simpl.
    destruct (CompletionTime (JobStatus (mxjob s))) eqn:E; simpl.
    + exists 0%Z, (now (clock s)), (now (S (clock s))). auto.
    + exists (now (clock s)), (now (S (clock s))), (now (S (S (clock s)))). auto.
  - exists 0%Z, (now (clock s)), (now (S (clock s))). simpl. auto.
Qed.

Lemma exec_applyConditions_cons name v vs s :
  exec (applyConditions now name (v :: vs)) s
  = exec (applyConditions now name vs) (exec (applyCondition now name v) s).
Proof.
  unfold exec at 1. simpl.
  rewrite (bind_run _ _ _ _ _ (applyCondition_returns _ _ _)). reflexivity.
Qed.

Lemma exec_applyConditions name vs s :
  ∃ st', applies name vs (JobStatus (mxjob s)) st'
       ∧ mxjob (exec (applyConditions now name vs) s) = set_JobStatus (mxjob s) st'
       ∧ objects (exec (applyConditions now name vs) s) = objects s.
Proof.
  revert s. induction vs as [|v vs IH]; intros s.
  - exists (JobStatus (mxjob s)). split; [constructor|].
    unfold exec. simpl. rewrite set_JobStatus_id. auto.
  - destruct (exec_applyCondition name v s) as (x & u & t & Hj & Ho).
    destruct (IH (exec (applyCondition now name v) s)) as (st' & Ha & Hj' & Ho').
    exists st'. rewrite exec_applyConditions_cons.
    rewrite Hj', Ho', Ho, Hj. split; [|auto].
    econstructor. rewrite Hj in Ha. exact Ha.
Qed.

Lemma updateStatusSingle_outcome rtype replicas restart sc s :
  CallOutcome now KeyFunc rtype replicas restart sc s.
Proof.
  destruct (KeyFunc (mxjob s)) as [key|err] eqn:Hkey.
  2:{ eapply KeyFailed; [exact Hkey|].
      unfold updateStatusSingle. rewrite (bind_run get _ s s s eq_refl), Hkey.
      reflexivity. }
  pose proof (updateStatusSingle_deriveAndApply rtype replicas restart sc s key Hkey) as Hr.
  destruct (derefReplicaStatus rtype s) as [[[p rs]|] s1] eqn:Hd;
    pose proof (derefReplicaStatus_state _ _ _ _ Hd) as ->.
  2:{ eapply NilReplicaStatus; [exact Hkey|exact Hd|].
      rewrite Hr. unfold deriveAndApply. rewrite (bind_panic _ _ _ _ Hd). reflexivity. }
  unfold deriveAndApply in Hr. rewrite (bind_run _ _ _ _ _ Hd) in Hr.
  rewrite (bind_run _ _ _ _ _ (setStartTimeIfNil_returns _ _)) in Hr.
  rewrite (bind_run get _ _ _ _ eq_refl) in Hr.
  rewrite applyConditions_returns in Hr.
  destruct (exec_setStartTimeIfNil key s) as (x & Hj & Ho).
  set (s2 := exec (setStartTimeIfNil now key) s) in *.
  destruct (exec_applyConditions (Name (mxjob s2))
              (callVerdicts (mxjob s2) rs rtype replicas restart sc) s2)
    as (st' & Ha & Hj' & Ho').
  fold (callVerdicts (mxjob s2) rs rtype replicas restart sc) in Hr.
  assert (Hn : Name (mxjob s2) = Name (mxjob s)) by (rewrite Hj; reflexivity).
  assert (Hc : callVerdicts (mxjob s2) rs rtype replicas restart sc
               = callVerdicts (mxjob s) rs rtype replicas restart sc)
    by (rewrite Hj; reflexivity).
  eapply (Derived _ _ _ _ _ _ _ key p rs x st'); [exact Hkey|exact Hd|..].
  - rewrite Hn, Hc in Ha.
    replace (JobStatus (mxjob s2)) with (withStart x (JobStatus (mxjob s))) in Ha
      by (rewrite Hj; reflexivity).
    exact Ha.
  - unfold result. rewrite Hr. reflexivity.
  - unfold exec. rewrite Hr. simpl. rewrite Hj', Hj. reflexivity.
  - unfold exec. rewrite Hr. simpl. rewrite Ho', Ho. reflexivity.
Qed.

(** ** Runs of verdicts on a status *)

Lemma withCompletion_frame v x st :
  Conditions (withCompletion v x st) = Conditions st
  ∧ MXReplicaStatuses (withCompletion v x st) = MXReplicaStatuses st
  ∧ StartTime (withCompletion v x st) = StartTime st.
Proof.
  unfold withCompletion. destruct (isTerminalVerdict v); [|auto].
  destruct (CompletionTime st); auto.
Qed.

Lemma stepStatus_Conditions name v x u t st :
  Conditions (stepStatus name v x u t st)
  = inserted (Conditions st) (conditionAt v name u t).
Proof.
  unfold stepStatus. rewrite setCondition_Conditions.
  destruct (withCompletion_frame v x st) as (-> & _). reflexivity.
Qed.

Lemma stepStatus_frame name v x u t st :
  MXReplicaStatuses (stepStatus name v x u t st) = MXReplicaStatuses st
  ∧ StartTime (stepStatus name v x u t st) = StartTime st
  ∧ CompletionTime (stepStatus name v x u t st) = CompletionTime (withCompletion v x st).
Proof.
  unfold stepStatus.
  destruct (setCondition_frame (withCompletion v x st) (conditionAt v name u t))
    as (-> & -> & ->).
  destruct (withCompletion_frame v x st) as (_ & -> & ->). auto.
Qed.

Lemma applies_frame name vs st st' :
  applies name vs st st' →
  MXReplicaStatuses st' = MXReplicaStatuses st ∧ StartTime st' = StartTime st.
Proof.
  induction 1 as [st|v vs x u t st st' _ IH]; [auto|].
  destruct IH as [-> ->].
  destruct (stepStatus_frame name v x u t st) as (-> & -> & _). auto.
Qed.

Lemma applies_histories name vs st st' :
  applies name vs st st' → histories name vs (Conditions st) (Conditions st').
Proof.
  induction 1 as [st|v vs x u t st st' _ IH]; [constructor|].
  rewrite stepStatus_Conditions in IH. econstructor. exact IH.
Qed.

(** A completion time that is set stays. *)
Lemma applies_CompletionTime_kept name vs st st' ct :
  applies name vs st st' → CompletionTime st = Some ct → CompletionTime st' = Some ct.
Proof.
  induction 1 as [st|v vs x u t st st' _ IH]; [auto|]. intros Hct. apply IH.
  destruct (stepStatus_frame name v x u t st) as (_ & _ & ->).
  unfold withCompletion. rewrite Hct. destruct (isTerminalVerdict v); exact Hct.
Qed.

(** Without a terminal verdict the completion time is not touched. *)
Lemma applies_CompletionTime_same name vs st st' :
  applies name vs st st' → existsb isTerminalVerdict vs = false →
  CompletionTime st' = CompletionTime st.
Proof.
  induction 1 as [st|v vs x u t st st' _ IH]; [auto|]. simpl.
  intros Hvs. apply orb_false_iff in Hvs as [Hv Hvs]. rewrite (IH Hvs).
  destruct (stepStatus_frame name v x u t st) as (_ & _ & ->).
  unfold withCompletion. rewrite Hv. reflexivity.
Qed.

(** With a terminal verdict the completion time is set afterwards. *)
Lemma applies_CompletionTime_set name vs st st' :
  applies name vs st st' → existsb isTerminalVerdict vs = true →
  is_Some (CompletionTime st').
Proof.
  induction 1 as [st|v vs x u t st st' Ha IH]; [discriminate|]. simpl.
  destruct (isTerminalVerdict v) eqn:Hv; simpl; [intros _|exact IH].
  assert (is_Some (CompletionTime (stepStatus name v x u t st))) as [ct Hct].
  { destruct (stepStatus_frame name v x u t st) as (_ & _ & ->).
    unfold withCompletion. rewrite Hv.
    destruct (CompletionTime st) eqn:E; [rewrite E|]; eauto. }
  exists ct. eapply applies_CompletionTime_kept; eauto.
Qed.

(** ** Runs of verdicts on a history *)

(** The terminal lock on histories. *)
Lemma histories_terminal name vs l l' :
  histories name vs l l' → terminalIn l = true → l' = l.
Proof.
  induction 1 as [l|v vs u t l l' _ IH]; [reflexivity|]. intros Ht.
  rewrite inserted_terminal in IH by exact Ht. apply IH, Ht.
Qed.

(** A terminal verdict that is appended locks every history after it. *)
Lemma histories_first_terminal name v vs l l' :
  histories name (v :: vs) l l' →
  isTerminalVerdict v = true → lastLive (verdictReason v) l = false →
  terminalIn l' = true.
Proof.
  intros H Hv Hl. inversion H as [|? ? u t ? ? H']; subst.
  pose proof (inserted_terminalVerdict l v name u t Hv Hl) as Ht.
  rewrite (histories_terminal _ _ _ _ H' Ht). exact Ht.
Qed.

Lemma callVerdicts_lists j rs rtype replicas restart sc :
  callVerdicts j rs rtype replicas restart sc ∈ verdictLists.
Proof.
  unfold callVerdicts, topologyBranch, failureBranch, verdictLists.
  destruct (ContainSchedulerSpec j), (String.eqb rtype MXReplicaTypeScheduler),
    (String.eqb rtype MXReplicaTypeWorker || String.eqb rtype MXReplicaTypeTuner),
    (0 <? Active rs)%Z, ((int64 (replicas - Succeeded rs) =? 0)%Z), sc,
    (0 <? Failed rs)%Z, restart; simpl;
    repeat first [apply list_elem_of_here | apply list_elem_of_further].
Qed.

(** A run with a terminal verdict, from a history written by this
    controller, ends terminal. *)
Lemma histories_reach_terminal name vs l l' :
  vs ∈ verdictLists → reasonsMatch l →
  histories name vs l l' → existsb isTerminalVerdict vs = true →
  terminalIn l' = true.
Proof.
  intros Hvs Hwf H Hex.
  destruct (terminalIn l) eqn:Hnt.
  { rewrite (histories_terminal _ _ _ _ H Hnt). exact Hnt. }
  assert (Hfirst : ∀ v vs' l0,
            histories name (v :: vs') l0 l' → isTerminalVerdict v = true →
            terminalIn l0 = false → reasonsMatch l0 → terminalIn l' = true).
  { intros v vs' l0 H0 Hv Hn0 Hw0. eapply histories_first_terminal; eauto.
    apply reasonsMatch_lastLive; assumption. }
  assert (Hsecond : ∀ v vs',
            histories name (ApplyRunning :: v :: vs') l l' →
            isTerminalVerdict v = true → terminalIn l' = true).
  { intros v vs' H0 Hv. inversion H0 as [|? ? u t ? ? H1]; subst.
    eapply histories_first_terminal; [exact H1|exact Hv|].
    eapply lastLive_reason; [apply inserted_lastLive; exact Hnt|].
    destruct v; try discriminate Hv; discriminate. }
  unfold verdictLists in Hvs.
  repeat (apply elem_of_cons in Hvs as [->|Hvs]);
    try discriminate Hex;
    try (eapply Hfirst; [exact H|reflexivity|exact Hnt|exact Hwf]);
    try (eapply Hsecond; [exact H|reflexivity]).
  inversion Hvs.
Qed.

(** ** Repeating a run *)

(** One verdict applied twice is the verdict applied once. *)
Lemma inserted_again l v name u t u' t' :
  inserted (inserted l (conditionAt v name u t)) (conditionAt v name u' t')
  = inserted l (conditionAt v name u t).
Proof.
  destruct (terminalIn l) eqn:Hnt.
  - rewrite (inserted_terminal l _ Hnt). apply inserted_terminal, Hnt.
  - pose proof (inserted_lastLive l v name u t Hnt) as Hl.
    unfold inserted at 1. rewrite skips_conditionAt, Hl, orb_true_r. reflexivity.
Qed.

(** On a live most recent condition the new one inherits its transition
    time. *)
Lemma stored_lastLive r l v name u t :
  lastLive r l = true →
  ∃ cur, last l = Some cur
       ∧ stored l (conditionAt v name u t) = conditionAt v name u (LastTransitionTime cur).
Proof.
  unfold lastLive, stored. destruct (last l) as [cur|]; [|discriminate].
  intros H. apply andb_true_iff in H as [H _]. exists cur. split; [reflexivity|].
  change (Status (conditionAt v name u t)) with ConditionTrue. rewrite H. reflexivity.
Qed.

(** Running and Restarting replace each other at the end of a history that
    holds neither of them elsewhere. *)
Lemma inserted_swap A w v name u tA u' t' :
  (∀ c, c ∈ A → Type_ c ≠ MXJobRunning ∧ Type_ c ≠ MXJobRestarting) →
  terminalIn (A ++ [conditionAt w name u tA]) = false →
  (w = ApplyRunning ∧ v = ApplyRestarting) ∨ (w = ApplyRestarting ∧ v = ApplyRunning) →
  inserted (A ++ [conditionAt w name u tA]) (conditionAt v name u' t')
  = A ++ [conditionAt v name u' tA].
Proof.
  intros HA Hnt Hwv.
  assert (Hl : lastLive (verdictReason w) (A ++ [conditionAt w name u tA]) = true).
  { rewrite lastLive_snoc. simpl. rewrite String.eqb_refl. reflexivity. }
  rewrite inserted_conditionAt; [|exact Hnt|].
  2:{ eapply lastLive_reason; [exact Hl|].
      destruct Hwv as [[-> ->]|[-> ->]]; discriminate. }
  destruct (stored_lastLive _ _ v name u' t' Hl) as (cur & Hcur & ->).
  rewrite last_snoc in Hcur. injection Hcur as <-.
  rewrite filterOutCondition_app, filterOutCondition_id; [|destruct Hwv as [[-> ->]|[-> ->]]; auto|exact HA].
  assert (E : filterOutCondition [conditionAt w name u tA] (verdictType v) = [])
    by (destruct Hwv as [[-> ->]|[-> ->]]; reflexivity).
  rewrite E, app_nil_r. reflexivity.
Qed.

(** Running then Restarting, twice: the same history up to the update time
    of the Restarting entry. *)
Lemma histories_running_restarting name l l1 l2 :
  histories name [ApplyRunning; ApplyRestarting] l l1 →
  histories name [ApplyRunning; ApplyRestarting] l1 l2 →
  map eraseUpdateTime l2 = map eraseUpdateTime l1.
Proof.
  intros H1 H2.
  destruct (terminalIn l) eqn:Hnt.
  { pose proof (histories_terminal _ _ _ _ H1 Hnt) as ->.
    pose proof (histories_terminal _ _ _ _ H2 Hnt) as ->. reflexivity. }
  inversion H1 as [|? ? u1 t1 ? ? H1a]; subst.
  inversion H1a as [|? ? u2 t2 ? ? H1b]; subst.
  inversion H1b; subst. clear H1 H1a H1b.
  set (la := inserted l (conditionAt ApplyRunning name u1 t1)) in *.
  assert (Hla : terminalIn la = false) by (apply inserted_nonterminal; auto).
  assert (Hlla : lastLive mxJobRunningReason la = true)
    by (apply (inserted_lastLive l ApplyRunning); exact Hnt).
  assert (E1 : ∃ tA, inserted la (conditionAt ApplyRestarting name u2 t2)
                     = filterOutCondition la MXJobRestarting
                       ++ [conditionAt ApplyRestarting name u2 tA]).
  { destruct (stored_lastLive _ _ ApplyRestarting name u2 t2 Hlla) as (cur & _ & E).
    exists (LastTransitionTime cur). rewrite inserted_conditionAt, E; [reflexivity|exact Hla|].
    eapply lastLive_reason; [exact Hlla|discriminate]. }
  destruct E1 as (tA & E1).
  assert (Hl1 : terminalIn (inserted la (conditionAt ApplyRestarting name u2 t2)) = false)
    by (apply inserted_nonterminal; auto).
  rewrite E1 in *. clear E1.
  set (A := filterOutCondition la MXJobRestarting) in *.
  assert (HA : ∀ c, c ∈ A → Type_ c ≠ MXJobRunning ∧ Type_ c ≠ MXJobRestarting).
  { intros c Hc. eapply filterOutCondition_exclusive; [|exact Hc]. auto. }
  inversion H2 as [|? ? u3 t3 ? ? H2a]; subst.
  inversion H2a as [|? ? u4 t4 ? ? H2b]; subst.
  inversion H2b; subst. clear H2 H2a H2b.
  rewrite (inserted_swap A ApplyRestarting ApplyRunning) by auto.
  assert (Hl3 : terminalIn (A ++ [conditionAt ApplyRunning name u3 tA]) = false).
  { rewrite <- (inserted_swap A ApplyRestarting ApplyRunning name u2 tA u3 t3) by auto.
    apply inserted_nonterminal; auto. }
  rewrite (inserted_swap A ApplyRunning ApplyRestarting) by auto.
  rewrite !map_app. reflexivity.
Qed.

(** Repeating the run of one call on the history it left. *)
Lemma histories_twice name vs l l1 l2 :
  vs ∈ verdictLists → reasonsMatch l →
  histories name vs l l1 → histories name vs l1 l2 →
  map eraseUpdateTime l2 = map eraseUpdateTime l1
  ∧ (vs ≠ [ApplyRunning; ApplyRestarting] → l2 = l1).
Proof.
  intros Hvs Hwf H1 H2.
  destruct (existsb isTerminalVerdict vs) eqn:Hex.
  { pose proof (histories_reach_terminal _ _ _ _ Hvs Hwf H1 Hex) as Ht.
    rewrite (histories_terminal _ _ _ _ H2 Ht). auto. }
  assert (Hone : ∀ v, vs = [v] → l2 = l1).
  { intros v ->.
    inversion H1 as [|? ? u1 t1 ? ? H1a]; subst. inversion H1a; subst.
    inversion H2 as [|? ? u2 t2 ? ? H2a]; subst. inversion H2a; subst.
    apply inserted_again. }
  unfold verdictLists in Hvs.
  repeat (apply elem_of_cons in Hvs as [E|Hvs]);
    try (subst vs; discriminate Hex);
    try (rewrite (Hone _ E); split; [reflexivity|intros _; reflexivity]).
  - subst vs. inversion H1; subst. inversion H2; subst. auto.
  - subst vs. split; [|intros Hne; contradiction].
    eapply histories_running_restarting; eauto.
  - inversion Hvs.
Qed.

(** ** The status a call leaves *)

Lemma withStart_frame x st :
  Conditions (withStart x st) = Conditions st
  ∧ MXReplicaStatuses (withStart x st) = MXReplicaStatuses st
  ∧ CompletionTime (withStart x st) = CompletionTime st.
Proof. unfold withStart. destruct (StartTime st); auto. Qed.

Lemma withStart_set x st : is_Some (StartTime (withStart x st)).
Proof. unfold withStart. destruct (StartTime st) eqn:E; [rewrite E|]; eauto. Qed.

Lemma withStart_kept x st t : StartTime st = Some t → withStart x st = st.
Proof. unfold withStart. intros ->. reflexivity. Qed.

Lemma applies_app name vs1 vs2 st st' :
  applies name (vs1 ++ vs2) st st' ↔
  ∃ mid, applies name vs1 st mid ∧ applies name vs2 mid st'.
Proof.
  revert st. induction vs1 as [|v vs1 IH]; intros st; simpl.
  - split.
    + intros H. exists st. split; [constructor|exact H].
    + intros (mid & H1 & H2). inversion H1; subst. exact H2.
  - split.
    + intros H. inversion H as [|? ? x u t ? ? H']; subst.
      apply IH in H' as (mid & H1 & H2). exists mid. split; [|exact H2].
      econstructor. exact H1.
    + intros (mid & H1 & H2). inversion H1 as [|? ? x u t ? ? H']; subst.
      econstructor. apply IH. exists mid. split; [exact H'|exact H2].
Qed.

(** Either the call leaves the state as it is (the key lookup failed, or the
    group has no counters and the call panicked), or it ran the verdicts of
    the group's counters on the status. *)
Lemma updateStatusSingle_status rtype replicas restart sc s :
  exec (updateStatusSingle now KeyFunc rtype replicas restart sc) s = s
  ∨ ∃ p rs x,
      derefReplicaStatus rtype s = (Ok (p, rs), s)
      ∧ applies (Name (mxjob s)) (callVerdicts (mxjob s) rs rtype replicas restart sc)
          (withStart x (JobStatus (mxjob s)))
          (JobStatus (mxjob (exec (updateStatusSingle now KeyFunc rtype replicas restart sc) s)))
      ∧ Spec (mxjob (exec (updateStatusSingle now KeyFunc rtype replicas restart sc) s))
        = Spec (mxjob s)
      ∧ Name (mxjob (exec (updateStatusSingle now KeyFunc rtype replicas restart sc) s))
        = Name (mxjob s)
      ∧ objects (exec (updateStatusSingle now KeyFunc rtype replicas restart sc) s)
        = objects s.
Proof.
  destruct (updateStatusSingle_outcome rtype replicas restart sc s)
    as [err _ E|key _ _ E|key p rs x st' _ Hd Ha _ Hj Ho].
  - left. unfold exec. rewrite E. reflexivity.
  - left. unfold exec. rewrite E. reflexivity.
  - right. exists p, rs, x. rewrite Hj, Ho. simpl. auto.
Qed.

(** * The claims *)

(** C1 (amended).  Terminal lock: in a status that holds a condition of type
    Succeeded or Failed with status true, every call of updateStatusSingle,
    whatever its replica type, count and flags, leaves the conditions list
    unchanged, and leaves completionTime unchanged when it is set;
    setCondition is a no-op on the status before and after the call.  (A
    completionTime that is still nil is not covered by the lock.) *)
Theorem C1_terminal_lock rtype replicas restart sc s :
  (∃ c, c ∈ Conditions (JobStatus (mxjob s))
        ∧ (Type_ c = MXJobSucceeded ∨ Type_ c = MXJobFailed)
        ∧ Status c = ConditionTrue) →
  let s' := exec (updateStatusSingle now KeyFunc rtype replicas restart sc) s in
  Conditions (JobStatus (mxjob s')) = Conditions (JobStatus (mxjob s))
  ∧ (∀ ct, CompletionTime (JobStatus (mxjob s)) = Some ct →
           CompletionTime (JobStatus (mxjob s')) = Some ct)
  ∧ (∀ c, setCondition (JobStatus (mxjob s)) c = JobStatus (mxjob s))
  ∧ (∀ c, setCondition (JobStatus (mxjob s')) c = JobStatus (mxjob s')).
Proof.
  intros (c & Hc & HT & HS) s'.
  assert (Ht : isTerminal (JobStatus (mxjob s)) = true).
  { unfold isTerminal, terminalIn. apply orb_true_iff.
    destruct HT as [HT|HT]; [right|left];
      apply hasCondition_range_true; exists c; auto. }
  assert (Hconds : Conditions (JobStatus (mxjob s')) = Conditions (JobStatus (mxjob s))).
  { subst s'.
    destruct (updateStatusSingle_status rtype replicas restart sc s)
      as [->|(p & rs & x & _ & Ha & _)]; [reflexivity|].
    apply applies_histories in Ha.
    destruct (withStart_frame x (JobStatus (mxjob s))) as (E & _). rewrite E in Ha.
    apply (histories_terminal _ _ _ _ Ha Ht). }
  split; [exact Hconds|]. split; [|split].
  - intros ct Hct. subst s'.
    destruct (updateStatusSingle_status rtype replicas restart sc s)
      as [->|(p & rs & x & _ & Ha & _)]; [exact Hct|].
    eapply applies_CompletionTime_kept; [exact Ha|].
    destruct (withStart_frame x (JobStatus (mxjob s))) as (_ & _ & ->). exact Hct.
  - intros c'. apply setCondition_terminal, Ht.
  - intros c'. apply setCondition_terminal.
    unfold isTerminal. rewrite Hconds. exact Ht.
Qed.

Lemma derefReplicaStatus_congr rtype s s' :
  MXReplicaStatuses (JobStatus (mxjob s')) = MXReplicaStatuses (JobStatus (mxjob s)) →
  objects s' = objects s →
  fst (derefReplicaStatus rtype s') = fst (derefReplicaStatus rtype s).
Proof.
  intros Hm Ho. unfold derefReplicaStatus. rewrite Hm, Ho.
  destruct (MXReplicaStatuses (JobStatus (mxjob s)) !! rtype) as [[p|]|];
    [destruct (objects s !! p)|..]; reflexivity.
Qed.

Lemma callVerdicts_Spec j j' rs rtype replicas restart sc :
  Spec j' = Spec j →
  callVerdicts j' rs rtype replicas restart sc = callVerdicts j rs rtype replicas restart sc.
Proof. unfold callVerdicts, ContainSchedulerSpec. intros ->. reflexivity. Qed.

Lemma callVerdicts_no_restart j rs rtype replicas sc :
  callVerdicts j rs rtype replicas false sc ≠ [ApplyRunning; ApplyRestarting].
Proof.
  unfold callVerdicts, topologyBranch, failureBranch.
  destruct (ContainSchedulerSpec j), (String.eqb rtype MXReplicaTypeScheduler),
    (String.eqb rtype MXReplicaTypeWorker || String.eqb rtype MXReplicaTypeTuner),
    (0 <? Active rs)%Z, ((int64 (replicas - Succeeded rs) =? 0)%Z), sc,
    (0 <? Failed rs)%Z; simpl; discriminate.
Qed.

Lemma MXJobStatus_eq (a b : MXJobStatus) :
  Conditions a = Conditions b → MXReplicaStatuses a = MXReplicaStatuses b →
  StartTime a = StartTime b → CompletionTime a = CompletionTime b → a = b.
Proof. destruct a, b; simpl; intros -> -> -> ->; reflexivity. Qed.

Lemma callVerdicts_appliesRunningThenRestarting j rs rtype replicas restart sc :
  appliesRunningThenRestarting (ContainSchedulerSpec j) rtype
    (int64 (replicas - Succeeded rs)) (Active rs) (Failed rs) restart sc = false →
  callVerdicts j rs rtype replicas restart sc ≠ [ApplyRunning; ApplyRestarting].
Proof.
  unfold callVerdicts, topologyBranch, failureBranch, appliesRunningThenRestarting.
  destruct (ContainSchedulerSpec j), (String.eqb rtype MXReplicaTypeScheduler),
    (String.eqb rtype MXReplicaTypeWorker || String.eqb rtype MXReplicaTypeTuner),
    (0 <? Active rs)%Z, ((int64 (replicas - Succeeded rs) =? 0)%Z), sc,
    (0 <? Failed rs)%Z, restart; simpl; intros H; discriminate.
Qed.

Lemma map_eraseTimes l l' :
  map eraseUpdateTime l = map eraseUpdateTime l' → map eraseTimes l = map eraseTimes l'.
Proof.
  intros E.
  assert (H : ∀ k, map eraseTimes k = map eraseTimes (map eraseUpdateTime k))
    by (intros k; rewrite map_map; reflexivity).
  rewrite (H l), (H l'), E. reflexivity.
Qed.

(** C2 (amended).  Idempotence: on a status whose Succeeded and Failed
    reasons label only conditions of those types, calling updateStatusSingle
    twice in succession with the same replica type, replicas, restart and
    schedulerCompleted leaves a status identical to the one a single call
    leaves, all time stamps included, unless the call applies a Running and
    then a Restarting condition (the key lookup and the counters succeed, the
    topology test of the group applies Running and not Succeeded, a pod has
    failed and restart is set).  In every case the two statuses have the
    same startTime, completionTime and replica statuses, and condition lists
    with the same entries in the same order up to their time stamps (type,
    status, reason and message are equal). *)
Theorem C2_idempotent_except_running_then_restarting rtype replicas restart sc s :
  reasonsMatch (Conditions (JobStatus (mxjob s))) →
  let s1 := exec (updateStatusSingle now KeyFunc rtype replicas restart sc) s in
  let s2 := exec (updateStatusSingle now KeyFunc rtype replicas restart sc) s1 in
  ((∀ key p rs,
      KeyFunc (mxjob s) = inl key →
      derefReplicaStatus rtype s = (Ok (p, rs), s) →
      appliesRunningThenRestarting (ContainSchedulerSpec (mxjob s)) rtype
        (int64 (replicas - Succeeded rs)) (Active rs) (Failed rs) restart sc = false) →
   JobStatus (mxjob s2) = JobStatus (mxjob s1))
  ∧ StartTime (JobStatus (mxjob s2)) = StartTime (JobStatus (mxjob s1))
  ∧ CompletionTime (JobStatus (mxjob s2)) = CompletionTime (JobStatus (mxjob s1))
  ∧ MXReplicaStatuses (JobStatus (mxjob s2)) = MXReplicaStatuses (JobStatus (mxjob s1))
  ∧ map eraseTimes (Conditions (JobStatus (mxjob s2)))
    = map eraseTimes (Conditions (JobStatus (mxjob s1))).
Proof.
  intros Hwf s1 s2.
  match goal with
  | |- ?G => assert (Hsame : JobStatus (mxjob s2) = JobStatus (mxjob s1) → G)
                 by (intros E; rewrite E; auto 6)
  end.
  destruct (updateStatusSingle_outcome rtype replicas restart sc s)
    as [err _ E | key _ _ E | key p rs x st1 Hkey Hd Ha _ Hj Hobj].
  { apply Hsame. subst s2 s1. unfold exec. rewrite E. cbn [snd]. rewrite E. reflexivity. }
  { apply Hsame. subst s2 s1. unfold exec. rewrite E. cbn [snd]. rewrite E. reflexivity. }
  clear Hsame.
  fold s1 in Hj, Hobj.
  assert (Hst1 : JobStatus (mxjob s1) = st1) by (rewrite Hj; reflexivity).
  assert (HSpec : Spec (mxjob s1) = Spec (mxjob s)) by (rewrite Hj; reflexivity).
  assert (HName : Name (mxjob s1) = Name (mxjob s)) by (rewrite Hj; reflexivity).
  rewrite <- Hst1 in Ha. clear Hj Hst1 st1.
  destruct (updateStatusSingle_status rtype replicas restart sc s1)
    as [E|(p' & rs' & x' & Hd' & Ha' & _)].
  { subst s2. rewrite E. auto 6. }
  fold s2 in Ha'.
  set (st := JobStatus (mxjob s)) in *.
  set (st1 := JobStatus (mxjob s1)) in *.
  set (st2 := JobStatus (mxjob s2)) in *.
  destruct (applies_frame _ _ _ _ Ha) as [Hm1 Hs1].
  destruct (withStart_frame x st) as (Hc0 & Hm0 & Hk0).
  (* the second call reads the same counters and derives the same verdicts *)
  assert (Hrs : rs' = rs).
  { pose proof (derefReplicaStatus_congr rtype s s1) as Hf.
    rewrite Hd, Hd' in Hf. simpl in Hf.
    assert (Ok (p', rs') = Ok (p, rs)) as [= _ ->]; [|reflexivity].
    apply Hf; [|exact Hobj]. fold st st1. rewrite Hm1, Hm0. reflexivity. }
  subst rs'. rewrite HName, (callVerdicts_Spec _ _ _ _ _ _ _ HSpec) in Ha'.
  destruct (withStart_set x st) as [t0 Ht0].
  rewrite (withStart_kept x' st1 t0) in Ha' by (rewrite Hs1; exact Ht0).
  set (vs := callVerdicts (mxjob s) rs rtype replicas restart sc) in *.
  destruct (applies_frame _ _ _ _ Ha') as [Hm2 Hs2].
  assert (Hct : CompletionTime st2 = CompletionTime st1).
  { destruct (existsb isTerminalVerdict vs) eqn:Hex.
    - destruct (applies_CompletionTime_set _ _ _ _ Ha Hex) as [ct Hct].
      rewrite Hct. eapply applies_CompletionTime_kept; eauto.
    - eapply applies_CompletionTime_same; eauto. }
  destruct (histories_twice (Name (mxjob s)) vs (Conditions st)
              (Conditions st1) (Conditions st2)) as [Hup Hexact].
  { apply callVerdicts_lists. }
  { exact Hwf. }
  { rewrite <- Hc0. apply applies_histories, Ha. }
  { apply applies_histories, Ha'. }
  split; [|repeat split; try assumption; apply map_eraseTimes, Hup].
  intros Hno. apply MXJobStatus_eq; try assumption.
  apply Hexact. apply callVerdicts_appliesRunningThenRestarting.
  exact (Hno key p rs Hkey Hd).
Qed.

Lemma setCondition_changes st c :
  setCondition st c ≠ st →
  skips (Conditions st) c = false
  ∧ Conditions (setCondition st c)
    = filterOutCondition (Conditions st) (Type_ c) ++ [stored (Conditions st) c].
Proof.
  intros Hne. rewrite setCondition_Conditions. unfold inserted.
  destruct (skips (Conditions st) c) eqn:E; [|auto].
  exfalso. apply Hne. rewrite setCondition_eq. unfold inserted. rewrite E.
  destruct st; reflexivity.
Qed.

Lemma filterOutCondition_running_restarting l T :
  T = MXJobRunning ∨ T = MXJobRestarting →
  filterOutCondition l T = List.filter neitherRunningNorRestarting l.
Proof.
  intros HT. induction l as [|d l IH]; [reflexivity|].
  simpl. unfold neitherRunningNorRestarting. rewrite IH.
  destruct HT as [-> | ->]; simpl;
    destruct (String.eqb (Type_ d) MXJobRunning), (String.eqb (Type_ d) MXJobRestarting);
    reflexivity.
Qed.

(** C3.  Mutual exclusion of Running and Restarting: when setCondition
    inserts a condition of type Restarting or Running (the call changes the
    status), the new history is the old one without its Running and
    Restarting entries, followed by the new condition; so after inserting
    Restarting no entry of type Running remains, and after inserting Running
    no entry of type Restarting remains, in whatever status. *)
Theorem C3_running_restarting_exclusive st c :
  setCondition st c ≠ st →
  Type_ c = MXJobRestarting ∨ Type_ c = MXJobRunning →
  (∃ c', Conditions (setCondition st c)
         = List.filter neitherRunningNorRestarting (Conditions st) ++ [c']
       ∧ Type_ c' = Type_ c ∧ Status c' = Status c)
  ∧ (Type_ c = MXJobRestarting →
     ∀ d, d ∈ Conditions (setCondition st c) → Type_ d ≠ MXJobRunning)
  ∧ (Type_ c = MXJobRunning →
     ∀ d, d ∈ Conditions (setCondition st c) → Type_ d ≠ MXJobRestarting).
Proof.
  intros Hne HT. destruct (setCondition_changes st c Hne) as [_ E].
  destruct (stored_fields (Conditions st) c) as (HsT & HsS & _).
  assert (Hd : ∀ d, d ∈ Conditions (setCondition st c) →
               (Type_ d ≠ MXJobRunning ∧ Type_ d ≠ MXJobRestarting)
               ∨ Type_ d = Type_ c).
  { intros d Hd. rewrite E in Hd. apply elem_of_app in Hd as [Hd|Hd].
    - left. eapply filterOutCondition_exclusive; [|exact Hd]. tauto.
    - right. apply list_elem_of_singleton in Hd. subst d. exact HsT. }
  split; [|split].
  - exists (stored (Conditions st) c). split; [|auto].
    rewrite E, filterOutCondition_running_restarting by tauto. reflexivity.
  - intros HR d Hin. destruct (Hd d Hin) as [[H _]|H]; [exact H|].
    rewrite H, HR. discriminate.
  - intros HR d Hin. destruct (Hd d Hin) as [[_ H]|H]; [exact H|].
    rewrite H, HR. discriminate.
Qed.

Lemma filterOutCondition_terminal l T :
  T = MXJobSucceeded ∨ T = MXJobFailed →
  filterOutCondition l T = map flipRunning (List.filter (notOfType T) l).
Proof.
  intros HT. induction l as [|d l IH]; [reflexivity|].
  simpl. unfold notOfType, flipRunning. rewrite IH.
  destruct HT as [-> | ->]; simpl;
    destruct (String.eqb (Type_ d) _); simpl; reflexivity.
Qed.

(** C10.  Restarting survives terminal insertion: when setCondition inserts
    a condition of type Succeeded or Failed (the call changes the status),
    the new history is the old one without the entries of the inserted
    type, with the status of its Running entries set to false and every
    other entry as it was, followed by the new condition; in particular
    every Restarting and every Created entry is retained unchanged, so one
    that was live is still live. *)
Theorem C10_terminal_insertion_keeps_restarting st c :
  setCondition st c ≠ st →
  Type_ c = MXJobSucceeded ∨ Type_ c = MXJobFailed →
  (∃ c', Conditions (setCondition st c)
         = map flipRunning (List.filter (notOfType (Type_ c)) (Conditions st)) ++ [c']
       ∧ Type_ c' = Type_ c ∧ Status c' = Status c)
  ∧ (∀ d, d ∈ Conditions st →
          Type_ d = MXJobRestarting ∨ Type_ d = MXJobCreated →
          d ∈ Conditions (setCondition st c))
  ∧ (∀ d, d ∈ Conditions st → Type_ d ≠ MXJobRunning → Type_ d ≠ Type_ c →
          d ∈ Conditions (setCondition st c))
  ∧ (∀ d, d ∈ Conditions st → Type_ d = MXJobRunning →
          set_Status d ConditionFalse ∈ Conditions (setCondition st c)).
Proof.
  intros Hne HT. destruct (setCondition_changes st c Hne) as [_ E].
  destruct (stored_fields (Conditions st) c) as (HsT & HsS & _).
  rewrite filterOutCondition_terminal in E by exact HT.
  assert (Hin : ∀ d, d ∈ Conditions st → Type_ d ≠ Type_ c →
                flipRunning d ∈ Conditions (setCondition st c)).
  { intros d Hd Hty. rewrite E. apply elem_of_app. left.
    rewrite list_elem_of_In. apply in_map. apply filter_In.
    rewrite <- list_elem_of_In. split; [exact Hd|].
    unfold notOfType. apply negb_true_iff, eqb_false. exact Hty. }
  assert (Hkeep : ∀ d, d ∈ Conditions st → Type_ d ≠ MXJobRunning → Type_ d ≠ Type_ c →
                  d ∈ Conditions (setCondition st c)).
  { intros d Hd HnR Hty. pose proof (Hin d Hd Hty) as H.
    unfold flipRunning in H. apply eqb_false in HnR. rewrite HnR in H. exact H. }
  split; [|split; [|split]].
  - exists (stored (Conditions st) c). auto.
  - intros d Hd Hty. apply Hkeep; [exact Hd|..];
      destruct Hty as [Hty|Hty]; destruct HT as [HT|HT]; rewrite ?Hty, ?HT; discriminate.
  - exact Hkeep.
  - intros d Hd HR. assert (Hty : Type_ d ≠ Type_ c)
      by (rewrite HR; destruct HT as [HT|HT]; rewrite HT; discriminate).
    pose proof (Hin d Hd Hty) as H.
    unfold flipRunning in H. apply eqb_true in HR. rewrite HR in H. exact H.
Qed.

(** ** The aggregator *)

Lemma int32_incrementable x : incrementable x → int32 (x + 1) = (x + 1)%Z.
Proof.
  unfold incrementable, MinInt32, MaxInt32, int32, wrap. intros H.
  change (2 ^ (32 - 1))%Z with 2147483648%Z. change (2 ^ 32)%Z with 4294967296%Z.
  rewrite Z.mod_small by lia. lia.
Qed.

Lemma derefReplicaStatus_Some rtype s p rs :
  MXReplicaStatuses (JobStatus (mxjob s)) !! rtype = Some (Some p) →
  objects s !! p = Some rs →
  derefReplicaStatus rtype s = (Ok (p, rs), s).
Proof. intros Hm Ho. unfold derefReplicaStatus. rewrite Hm, Ho. reflexivity. Qed.

(** C9 (amended).  Aggregator observation: when the replica status map binds
    the given replica type to an object, and the counters of that object are
    int32 values below the maximum, updateMXJobReplicaStatuses returns
    normally and replaces that object by one whose counter for the pod's
    phase (Active for Running, Succeeded for Succeeded, Failed for Failed)
    is larger by exactly one, the other two counters being unchanged; for
    any other phase the state is unchanged; the job, and every object other
    than the one bound to the given replica type, are never modified. *)
Theorem C9_observe_increments_one_counter rtype pod s p rs :
  MXReplicaStatuses (JobStatus (mxjob s)) !! rtype = Some (Some p) →
  objects s !! p = Some rs →
  incrementable (Active rs) ∧ incrementable (Succeeded rs) ∧ incrementable (Failed rs) →
  let phase := Phase (Pod_Status pod) in
  let s' := exec (updateMXJobReplicaStatuses rtype pod) s in
  result (updateMXJobReplicaStatuses rtype pod) s = Ok tt
  ∧ mxjob s' = mxjob s
  ∧ objects s' !! p = Some (observe phase rs)
  ∧ (∀ q, q ≠ p → objects s' !! q = objects s !! q)
  ∧ (phase = PodRunning →
     observe phase rs = {| Active := Active rs + 1; Succeeded := Succeeded rs;
                           Failed := Failed rs |})
  ∧ (phase = PodSucceeded →
     observe phase rs = {| Active := Active rs; Succeeded := Succeeded rs + 1;
                           Failed := Failed rs |})
  ∧ (phase = PodFailed →
     observe phase rs = {| Active := Active rs; Succeeded := Succeeded rs;
                           Failed := Failed rs + 1 |})
  ∧ (phase ≠ PodRunning → phase ≠ PodSucceeded → phase ≠ PodFailed → s' = s).
Proof.
  intros Hm Ho (HA & HS & HF) phase s'.
  pose proof (derefReplicaStatus_Some rtype s p rs Hm Ho) as Hd.
  assert (Hp : p < length (objects s)) by (eapply lookup_lt_Some; exact Ho).
  assert (Hrun : updateMXJobReplicaStatuses rtype pod s
                 = if String.eqb phase PodRunning || String.eqb phase PodSucceeded
                      || String.eqb phase PodFailed
                   then (Ok tt, set_objects s (<[p := observe phase rs]> (objects s)))
                   else (Ok tt, s)).
  { unfold updateMXJobReplicaStatuses, observe. fold phase.
    destruct (String.eqb phase PodRunning); simpl;
      [rewrite (bind_run _ _ _ _ _ Hd), int32_incrementable by exact HA; reflexivity|].
    destruct (String.eqb phase PodSucceeded); simpl;
      [rewrite (bind_run _ _ _ _ _ Hd), int32_incrementable by exact HS; reflexivity|].
    destruct (String.eqb phase PodFailed); simpl;
      [rewrite (bind_run _ _ _ _ _ Hd), int32_incrementable by exact HF; reflexivity|].
    reflexivity. }
  assert (Hother : String.eqb phase PodRunning || String.eqb phase PodSucceeded
                   || String.eqb phase PodFailed = false → observe phase rs = rs).
  { intros H. apply orb_false_iff in H as [H H3]. apply orb_false_iff in H as [H1 H2].
    unfold observe. rewrite H1, H2, H3. reflexivity. }
  subst s'. unfold exec, result. rewrite Hrun.
  destruct (String.eqb phase PodRunning || String.eqb phase PodSucceeded
            || String.eqb phase PodFailed) eqn:E; simpl.
  - split; [reflexivity|]. split; [reflexivity|].
    split; [apply list_lookup_insert_eq; exact Hp|].
    split; [intros q Hq; apply list_lookup_insert_ne; auto|].
    unfold observe.
    split; [intros ->; reflexivity|].
    split; [intros ->; reflexivity|].
    split; [intros ->; reflexivity|].
    intros H1 H2 H3. apply eqb_false in H1, H2, H3. rewrite H1, H2, H3 in E.
    discriminate E.
  - split; [reflexivity|]. split; [reflexivity|].
    split; [rewrite (Hother eq_refl); exact Ho|].
    split; [reflexivity|].
    apply orb_false_iff in E as [E E3]. apply orb_false_iff in E as [E1 E2].
    apply eqb_false in E1, E2, E3.
    split; [intros H; contradiction|].
    split; [intros H; contradiction|].
    split; [intros H; contradiction|].
    reflexivity.
Qed.

(** ** The lookup of the current condition *)

(** C7.  Transition-time semantics, with the lookup by the requested type
    that the comments of getCondition and setCondition describe: the code
    does not have it.  getCondition returns the most recent condition
    whatever type is asked for.  On the history Running (transition time 1),
    Created (transition time 7), both live, a new Running condition with
    the same reason is a no-op under the lookup by type; the code instead
    drops the old Running entry and appends the new one with the transition
    time 7 of the Created entry, so that the transition time of the Running
    condition changes although its status does not.  On the history holding
    only Created (transition time 1), a first Running condition built at
    time 5 is stored with transition time 1 instead of 5. *)
Theorem C7_getCondition_ignores_requested_type :
  (∀ st T, getCondition st T = last (Conditions st))
  ∧ getConditionByType (Conditions runningThenCreated) MXJobRunning
    = Some (liveCondition MXJobRunning mxJobRunningReason 1%Z)
  ∧ getCondition runningThenCreated MXJobRunning
    = Some (liveCondition MXJobCreated mxJobCreatedReason 7%Z)
  ∧ setConditionByType runningThenCreated
      (liveCondition MXJobRunning mxJobRunningReason 9%Z)
    = runningThenCreated
  ∧ Conditions (setCondition runningThenCreated
                  (liveCondition MXJobRunning mxJobRunningReason 9%Z))
    = [liveCondition MXJobCreated mxJobCreatedReason 7%Z;
       {| Type_ := MXJobRunning; Status := ConditionTrue;
          LastUpdateTime := 9%Z; LastTransitionTime := 7%Z;
          Reason := mxJobRunningReason; Message := "example" |}]
  ∧ Conditions (setConditionByType createdOnly
                  (liveCondition MXJobRunning mxJobRunningReason 5%Z))
    = [liveCondition MXJobCreated mxJobCreatedReason 1%Z;
       liveCondition MXJobRunning mxJobRunningReason 5%Z]
  ∧ Conditions (setCondition createdOnly
                  (liveCondition MXJobRunning mxJobRunningReason 5%Z))
    = [liveCondition MXJobCreated mxJobCreatedReason 1%Z;
       {| Type_ := MXJobRunning; Status := ConditionTrue;
          LastUpdateTime := 5%Z; LastTransitionTime := 1%Z;
          Reason := mxJobRunningReason; Message := "example" |}].
Proof.
  split; [exact getCondition_last|].
  repeat split; reflexivity.
Qed.

(** ** The branches of one call *)

Lemma updateStatusSingle_derived rtype replicas restart sc s key p rs :
  KeyFunc (mxjob s) = inl key →
  MXReplicaStatuses (JobStatus (mxjob s)) !! rtype = Some (Some p) →
  objects s !! p = Some rs →
  result (updateStatusSingle now KeyFunc rtype replicas restart sc) s = Ok None
  ∧ ∃ x, applies (Name (mxjob s)) (callVerdicts (mxjob s) rs rtype replicas restart sc)
           (withStart x (JobStatus (mxjob s)))
           (JobStatus (mxjob (exec (updateStatusSingle now KeyFunc rtype replicas restart sc) s))).
Proof.
  intros Hkey Hm Ho.
  pose proof (derefReplicaStatus_Some rtype s p rs Hm Ho) as Hd.
  destruct (updateStatusSingle_outcome rtype replicas restart sc s)
    as [err E _|key' _ E _|key' p' rs' x st' _ Hd' Ha Hr Hj _].
  - rewrite Hkey in E. discriminate E.
  - rewrite Hd in E. discriminate E.
  - rewrite Hd in Hd'. injection Hd' as <- <-.
    split; [exact Hr|]. exists x. rewrite Hj. exact Ha.
Qed.

Lemma topologyBranch_unmatched h rtype e r sc :
  topologyMatches h rtype = false → topologyBranch h rtype e r sc = [].
Proof.
  unfold topologyMatches, topologyBranch. destruct h; intros ->; reflexivity.
Qed.

Lemma failureBranch_none failed restart :
  (failed ≤ 0)%Z → failureBranch failed restart = [].
Proof.
  intros H. unfold failureBranch.
  destruct (0 <? failed)%Z eqn:E; [apply Z.ltb_lt in E; lia|reflexivity].
Qed.

Lemma failureBranch_some failed restart :
  (0 < failed)%Z →
  failureBranch failed restart = [if restart then ApplyRestarting else ApplyFailed].
Proof.
  intros H. unfold failureBranch. apply Z.ltb_lt in H. rewrite H.
  destruct restart; reflexivity.
Qed.

(** C8 (amended).  Unmatched replica type and topology: when the topology
    branch does not match the replica type (a type other than Scheduler in
    a job with a scheduler role, a type other than Worker and Tuner in a job
    without one), and the key lookup and the counters of the group are
    there, updateStatusSingle returns a nil error and the topology branch
    derives nothing: the status is the one the failure branch alone leaves
    after the start-time step; so with a failed count that is not positive
    the call is a no-op on the conditions list and on completionTime. *)
Theorem C8_unmatched_topology_derives_nothing rtype replicas restart sc s key p rs :
  KeyFunc (mxjob s) = inl key →
  MXReplicaStatuses (JobStatus (mxjob s)) !! rtype = Some (Some p) →
  objects s !! p = Some rs →
  topologyMatches (ContainSchedulerSpec (mxjob s)) rtype = false →
  let st := JobStatus (mxjob s) in
  let st' := JobStatus (mxjob (exec (updateStatusSingle now KeyFunc rtype replicas restart sc) s)) in
  result (updateStatusSingle now KeyFunc rtype replicas restart sc) s = Ok None
  ∧ (∃ x, applies (Name (mxjob s)) (failureBranch (Failed rs) restart) (withStart x st) st')
  ∧ ((Failed rs ≤ 0)%Z →
     Conditions st' = Conditions st ∧ CompletionTime st' = CompletionTime st).
Proof.
  intros Hkey Hm Ho Htop st st'.
  destruct (updateStatusSingle_derived rtype replicas restart sc s key p rs Hkey Hm Ho)
    as (Hr & x & Ha).
  fold st st' in Ha. unfold callVerdicts in Ha.
  rewrite (topologyBranch_unmatched _ _ _ _ _ Htop) in Ha. simpl in Ha.
  split; [exact Hr|]. split; [exists x; exact Ha|].
  intros Hf. rewrite (failureBranch_none _ restart Hf) in Ha.
  inversion Ha; subst.
  destruct (withStart_frame x st) as (-> & _ & ->). auto.
Qed.

Lemma hasCondition_range_snoc l c T :
  Type_ c = T → Status c = ConditionTrue → hasCondition_range (l ++ [c]) T = true.
Proof.
  intros <- H. rewrite hasCondition_range_app. simpl.
  rewrite String.eqb_refl, H. simpl. apply orb_true_r.
Qed.

(** A terminal verdict applied to a non-terminal history written by this
    controller is appended, and locks what follows. *)
Lemma applies_terminal_first name v vs x u t st st' :
  isTerminalVerdict v = true →
  isTerminal st = false → reasonsMatch (Conditions st) →
  applies name vs (stepStatus name v x u t st) st' →
  Conditions st' = Conditions (setCondition st (conditionAt v name u t))
  ∧ hasCondition st' (verdictType v) = true.
Proof.
  intros Hv Hnt Hwf Ha. apply applies_histories in Ha.
  rewrite stepStatus_Conditions in Ha.
  pose proof (reasonsMatch_lastLive _ v Hwf Hnt Hv) as Hl.
  pose proof (inserted_terminalVerdict (Conditions st) v name u t Hv Hl) as Ht.
  rewrite (histories_terminal _ _ _ _ Ha Ht), setCondition_Conditions.
  split; [reflexivity|].
  unfold hasCondition. rewrite (histories_terminal _ _ _ _ Ha Ht).
  rewrite inserted_conditionAt by assumption.
  destruct (stored_fields (Conditions st) (conditionAt v name u t)) as (HT & HS & _).
  apply hasCondition_range_snoc; [rewrite HT|rewrite HS]; reflexivity.
Qed.

(** C5.  Scheduler-less completion: in a job without a scheduler role, for
    the replica type Worker or Tuner (the key lookup and the counters of the
    group being there): if expected = replicas - succeeded is 0 or
    schedulerCompleted is true, updateStatusSingle sets completionTime if it
    is unset and applies a Succeeded condition, the failure branch running
    on the result; otherwise, if the active count is positive, it applies a
    Running condition.  With replicas 3, succeeded 3, active 0, failed 0 and
    an empty history the conditions become [Succeeded] and completionTime is
    set. *)
Theorem C5_schedulerless_completion rtype replicas restart sc s key p rs :
  KeyFunc (mxjob s) = inl key →
  MXReplicaStatuses (JobStatus (mxjob s)) !! rtype = Some (Some p) →
  objects s !! p = Some rs →
  ContainSchedulerSpec (mxjob s) = false →
  rtype = MXReplicaTypeWorker ∨ rtype = MXReplicaTypeTuner →
  let name := Name (mxjob s) in
  let expected := int64 (replicas - Succeeded rs) in
  let st := JobStatus (mxjob s) in
  let st' := JobStatus (mxjob (exec (updateStatusSingle now KeyFunc rtype replicas restart sc) s)) in
  (expected = 0%Z ∨ sc = true →
     (∃ x x' u t,
        applies name (failureBranch (Failed rs) restart)
          (setCondition (withCompletion ApplySucceeded x' (withStart x st))
             (conditionAt ApplySucceeded name u t))
          st')
     ∧ is_Some (CompletionTime st')
     ∧ (∀ ct, CompletionTime st = Some ct → CompletionTime st' = Some ct)
     ∧ (isTerminal st = false → reasonsMatch (Conditions st) →
        isSucceeded st' = true
        ∧ ∃ u t, Conditions st'
                 = Conditions (setCondition st (conditionAt ApplySucceeded name u t))))
  ∧ (expected ≠ 0%Z → sc = false → (0 < Active rs)%Z →
     (∃ x u t,
        applies name (failureBranch (Failed rs) restart)
          (setCondition (withStart x st) (conditionAt ApplyRunning name u t))
          st')
     ∧ ((Failed rs ≤ 0)%Z →
        CompletionTime st' = CompletionTime st
        ∧ ∃ u t, Conditions st'
                 = Conditions (setCondition st (conditionAt ApplyRunning name u t))))
  ∧ (replicas = 3%Z → Succeeded rs = 3%Z → Active rs = 0%Z → Failed rs = 0%Z →
     Conditions st = [] →
     (∃ u t, Conditions st' = [conditionAt ApplySucceeded name u t])
     ∧ is_Some (CompletionTime st')).
Proof.
  intros Hkey Hm Ho Hsched Hrtype name expected st st'.
  destruct (updateStatusSingle_derived rtype replicas restart sc s key p rs Hkey Hm Ho)
    as (_ & x & Ha).
  fold st st' name in Ha. unfold callVerdicts, topologyBranch in Ha.
  rewrite Hsched in Ha. fold expected in Ha.
  assert (String.eqb rtype MXReplicaTypeWorker || String.eqb rtype MXReplicaTypeTuner = true)
    as Hwt by (destruct Hrtype as [-> | ->]; reflexivity).
  rewrite Hwt in Ha.
  destruct (withStart_frame x st) as (Hc0 & Hm0 & Hk0).
  assert (Hcomplete : expected = 0%Z ∨ sc = true →
     (∃ x x' u t,
        applies name (failureBranch (Failed rs) restart)
          (setCondition (withCompletion ApplySucceeded x' (withStart x st))
             (conditionAt ApplySucceeded name u t))
          st')
     ∧ is_Some (CompletionTime st')
     ∧ (∀ ct, CompletionTime st = Some ct → CompletionTime st' = Some ct)
     ∧ (isTerminal st = false → reasonsMatch (Conditions st) →
        isSucceeded st' = true
        ∧ ∃ u t, Conditions st'
                 = Conditions (setCondition st (conditionAt ApplySucceeded name u t)))).
  { intros He.
    assert ((expected =? 0)%Z || sc = true) as Hb.
    { destruct He as [-> | ->]; [reflexivity|apply orb_true_r]. }
    rewrite Hb in Ha. simpl in Ha.
    split; [|split; [|split]].
    - inversion Ha as [|? ? x' u t ? ? Ha']; subst. exists x, x', u, t. exact Ha'.
    - eapply applies_CompletionTime_set; [exact Ha|reflexivity].
    - intros ct Hct. eapply applies_CompletionTime_kept; [exact Ha|].
      rewrite Hk0. exact Hct.
    - intros Hnt Hwf. inversion Ha as [|? ? x' u t ? ? Ha']; subst.
      destruct (applies_terminal_first name ApplySucceeded
                  (failureBranch (Failed rs) restart) x' u t (withStart x st) st')
        as [E1 E2]; try assumption; try reflexivity.
      + unfold isTerminal. rewrite Hc0. exact Hnt.
      + rewrite Hc0. exact Hwf.
      + split; [exact E2|]. exists u, t.
        rewrite E1, !setCondition_Conditions, Hc0. reflexivity. }
  split; [exact Hcomplete|]. split.
  - intros He Hsc Hact.
    assert ((expected =? 0)%Z || sc = false) as Hb.
    { rewrite Hsc, orb_false_r. apply Z.eqb_neq. exact He. }
    apply Z.ltb_lt in Hact. rewrite Hb, Hact in Ha. simpl in Ha.
    inversion Ha as [|? ? x' u t ? ? Ha']; subst.
    change (stepStatus name ApplyRunning x' u t (withStart x st))
      with (setCondition (withStart x st) (conditionAt ApplyRunning name u t)) in Ha'.
    split; [exists x, u, t; exact Ha'|].
    intros Hf. rewrite (failureBranch_none _ restart Hf) in Ha'.
    inversion Ha'; subst.
    destruct (setCondition_frame (withStart x st) (conditionAt ApplyRunning name u t))
      as (_ & _ & ->).
    split; [exact Hk0|]. exists u, t.
    rewrite !setCondition_Conditions, Hc0. reflexivity.
  - intros Hrep Hsucc Hact Hfail Hempty.
    assert (He : expected = 0%Z) by (unfold expected; rewrite Hrep, Hsucc; reflexivity).
    destruct (Hcomplete (or_introl He)) as (_ & Hset & _ & Hins).
    split; [|exact Hset].
    destruct Hins as (_ & u & t & E).
    + unfold isTerminal. rewrite Hempty. reflexivity.
    + rewrite Hempty. intros c Hc. inversion Hc.
    + exists u, t. rewrite E, setCondition_Conditions, Hempty. reflexivity.
Qed.

Lemma topologyBranch_lists h rtype e r sc :
  topologyBranch h rtype e r sc
  ∈ [ []; [ApplyRunning]; [ApplySucceeded]; [ApplyRunning; ApplySucceeded] ].
Proof.
  unfold topologyBranch.
  destruct h, (String.eqb rtype MXReplicaTypeScheduler),
    (String.eqb rtype MXReplicaTypeWorker || String.eqb rtype MXReplicaTypeTuner),
    (0 <? r)%Z, (e =? 0)%Z, sc; simpl;
    repeat first [apply list_elem_of_here | apply list_elem_of_further].
Qed.

(** When the inserted type is Succeeded or Failed, the Running entries that
    are kept have status false. *)
Lemma filterOutCondition_demotes l T d :
  T = MXJobSucceeded ∨ T = MXJobFailed →
  d ∈ filterOutCondition l T → Type_ d = MXJobRunning → Status d = ConditionFalse.
Proof.
  intros HT Hd HR. apply filterOutCondition_elem in Hd as (c & _ & _ & ->).
  rewrite demoted_Type in HR. unfold demoted. apply eqb_true in HR. rewrite HR.
  destruct HT as [-> | ->]; reflexivity.
Qed.

(** The topology branch with a Succeeded verdict, on a non-terminal history
    written by this controller, leaves a live Succeeded condition. *)
Lemma histories_topology_succeeded name top l l' :
  top = [ApplySucceeded] ∨ top = [ApplyRunning; ApplySucceeded] →
  terminalIn l = false → reasonsMatch l →
  histories name top l l' →
  hasCondition_range l' MXJobSucceeded = true.
Proof.
  intros Htop Hnt Hwf H.
  assert (Hstep : ∀ l0 u t,
            terminalIn l0 = false → lastLive mxJobSucceededReason l0 = false →
            hasCondition_range (inserted l0 (conditionAt ApplySucceeded name u t))
              MXJobSucceeded = true).
  { intros l0 u t H0 H1. rewrite inserted_conditionAt by assumption.
    destruct (stored_fields l0 (conditionAt ApplySucceeded name u t)) as (HT & HS & _).
    apply hasCondition_range_snoc; [rewrite HT|rewrite HS]; reflexivity. }
  destruct Htop as [-> | ->].
  - inversion H as [|? ? u t ? ? H']; subst. inversion H'; subst.
    apply Hstep; [exact Hnt|]. apply (reasonsMatch_lastLive l ApplySucceeded); auto.
  - inversion H as [|? ? u t ? ? H']; subst.
    inversion H' as [|? ? u' t' ? ? H'']; subst. inversion H''; subst.
    apply Hstep; [apply inserted_nonterminal; auto|].
    eapply lastLive_reason; [apply (inserted_lastLive l ApplyRunning); exact Hnt|].
    discriminate.
Qed.

Lemma applies_one name v mid st' :
  applies name [v] mid st' → ∃ x u t, st' = stepStatus name v x u t mid.
Proof.
  intros H. inversion H as [|? ? x u t ? ? H']; subst. inversion H'; subst.
  exists x, u, t. reflexivity.
Qed.

(** C6 (amended).  Failure branch: in every call with a positive failed
    count (the key lookup and the counters of the group being there) the
    failure branch is evaluated on the status the topology branch left.
    With restart true it applies Restarting and does not set completionTime;
    with restart false it sets completionTime if it is unset and applies
    Failed.  It overrides a Running condition applied earlier in the same
    call: Restarting removes it, Failed sets its status to false.  It does
    not override a Succeeded condition applied earlier in the same call:
    the status is then terminal and the failure branch leaves the
    conditions list as it is. *)
Theorem C6_failure_branch_after_topology rtype replicas restart sc s key p rs :
  KeyFunc (mxjob s) = inl key →
  MXReplicaStatuses (JobStatus (mxjob s)) !! rtype = Some (Some p) →
  objects s !! p = Some rs →
  (0 < Failed rs)%Z →
  let name := Name (mxjob s) in
  let st := JobStatus (mxjob s) in
  let st' := JobStatus (mxjob (exec (updateStatusSingle now KeyFunc rtype replicas restart sc) s)) in
  let top := topologyBranch (ContainSchedulerSpec (mxjob s)) rtype
               (int64 (replicas - Succeeded rs)) (Active rs) sc in
  ∃ x mid,
    applies name top (withStart x st) mid
    ∧ (restart = true →
       (∃ u t, st' = setCondition mid (conditionAt ApplyRestarting name u t))
       ∧ CompletionTime st' = CompletionTime mid)
    ∧ (restart = false →
       (∃ x' u t, st' = setCondition (withCompletion ApplyFailed x' mid)
                          (conditionAt ApplyFailed name u t))
       ∧ is_Some (CompletionTime st')
       ∧ (∀ ct, CompletionTime mid = Some ct → CompletionTime st' = Some ct))
    ∧ (isTerminal st = false → top = [ApplyRunning] →
       (restart = true →
        lastLive mxJobRestartingReason (Conditions st') = true
        ∧ ∀ d, d ∈ Conditions st' → Type_ d ≠ MXJobRunning)
       ∧ (restart = false →
          isFailed st' = true
          ∧ ∀ d, d ∈ Conditions st' → Type_ d = MXJobRunning → Status d = ConditionFalse))
    ∧ (isTerminal mid = true → Conditions st' = Conditions mid)
    ∧ (isTerminal st = false → reasonsMatch (Conditions st) → ApplySucceeded ∈ top →
       isSucceeded mid = true ∧ Conditions st' = Conditions mid).
Proof.
  intros Hkey Hm Ho Hfail name st st' top.
  destruct (updateStatusSingle_derived rtype replicas restart sc s key p rs Hkey Hm Ho)
    as (_ & x & Ha).
  fold st st' name in Ha. unfold callVerdicts in Ha. fold top in Ha.
  rewrite (failureBranch_some _ restart Hfail) in Ha.
  apply applies_app in Ha as (mid & Htop & Hf).
  exists x, mid. split; [exact Htop|].
  destruct (withStart_frame x st) as (Hc0 & _ & _).
  set (v := if restart then ApplyRestarting else ApplyFailed) in *.
  destruct (applies_one _ _ _ _ Hf) as (x' & u & t & Hst').
  assert (Hconds : Conditions st' = inserted (Conditions mid) (conditionAt v name u t))
    by (rewrite Hst'; apply stepStatus_Conditions).
  assert (Hlock : isTerminal mid = true → Conditions st' = Conditions mid).
  { intros Ht. rewrite Hconds. apply inserted_terminal, Ht. }
  split; [|split; [|split; [|split; [exact Hlock|]]]].
  - intros ->. subst v. split; [exists u, t; exact Hst'|].
    rewrite Hst'. destruct (stepStatus_frame name ApplyRestarting x' u t mid) as (_ & _ & ->).
    reflexivity.
  - intros ->. subst v. split; [exists x', u, t; exact Hst'|].
    assert (Hone : applies name [ApplyFailed] mid st').
    { econstructor. rewrite <- Hst'. constructor. }
    split.
    + eapply applies_CompletionTime_set; [exact Hone|reflexivity].
    + intros ct Hct. eapply applies_CompletionTime_kept; eauto.
  - intros Hnt Htop1. rewrite Htop1 in Htop.
    destruct (applies_one _ _ _ _ Htop) as (x1 & u1 & t1 & Hmid).
    rewrite Hmid, stepStatus_Conditions, Hc0 in Hconds.
    set (la := inserted (Conditions st) (conditionAt ApplyRunning name u1 t1)) in *.
    assert (Hla : terminalIn la = false) by (apply inserted_nonterminal; auto).
    assert (Hlla : lastLive mxJobRunningReason la = true)
      by (apply (inserted_lastLive _ ApplyRunning); exact Hnt).
    assert (Hlv : lastLive (verdictReason v) la = false).
    { eapply lastLive_reason; [exact Hlla|]. subst v. destruct restart; discriminate. }
    rewrite inserted_conditionAt in Hconds by assumption.
    destruct (stored_fields la (conditionAt v name u t)) as (HT & HS & HR & _).
    split.
    + intros ->. subst v. split.
      * rewrite Hconds, lastLive_snoc, HS, HR. reflexivity.
      * intros d Hd. rewrite Hconds in Hd. apply elem_of_app in Hd as [Hd|Hd].
        -- eapply filterOutCondition_exclusive; [|exact Hd]. auto.
        -- apply list_elem_of_singleton in Hd. subst d. rewrite HT. discriminate.
    + intros ->. subst v. split.
      * unfold isFailed, hasCondition. rewrite Hconds.
        apply hasCondition_range_snoc; [rewrite HT|rewrite HS]; reflexivity.
      * intros d Hd HdR. rewrite Hconds in Hd. apply elem_of_app in Hd as [Hd|Hd].
        -- eapply filterOutCondition_demotes; [|exact Hd|exact HdR]. auto.
        -- apply list_elem_of_singleton in Hd. subst d. rewrite HT in HdR.
           discriminate HdR.
  - intros Hnt Hwf Hin.
    assert (Hcases : top = [ApplySucceeded] ∨ top = [ApplyRunning; ApplySucceeded]).
    { pose proof (topologyBranch_lists (ContainSchedulerSpec (mxjob s)) rtype
                    (int64 (replicas - Succeeded rs)) (Active rs) sc) as Hl.
      fold top in Hl.
      apply elem_of_cons in Hl as [Hl|Hl]; [rewrite Hl in Hin; inversion Hin|].
      apply elem_of_cons in Hl as [Hl|Hl];
        [rewrite Hl in Hin; apply list_elem_of_singleton in Hin; discriminate Hin|].
      apply elem_of_cons in Hl as [Hl|Hl]; [left; exact Hl|].
      apply elem_of_cons in Hl as [Hl|Hl]; [right; exact Hl|inversion Hl]. }
    assert (HS : isSucceeded mid = true).
    { apply (histories_topology_succeeded name top (Conditions st)); auto.
      rewrite <- Hc0. apply applies_histories, Htop. }
    split; [exact HS|]. apply Hlock.
    unfold isTerminal, terminalIn. unfold isSucceeded, hasCondition in HS.
    rewrite HS. apply orb_true_r.
Qed.

Lemma derefReplicaStatus_inv rtype s p rs s' :
  derefReplicaStatus rtype s = (Ok (p, rs), s') →
  MXReplicaStatuses (JobStatus (mxjob s)) !! rtype = Some (Some p)
  ∧ objects s !! p = Some rs.
Proof.
  unfold derefReplicaStatus.
  destruct (MXReplicaStatuses (JobStatus (mxjob s)) !! rtype) as [[q|]|];
    [destruct (objects s !! q) eqn:E|..]; intros [= <- <- _] || intros [=]; auto.
Qed.

(** C4 (amended).  Timestamps are set at most once: a startTime
    (respectively completionTime) that is non-nil is not changed by any call
    of updateStatusSingle; startTime is assigned only when it is nil;
    completionTime is assigned only when it is nil and only in a call whose
    counters select the Succeeded or the Failed branch, and such a call, on
    a non-terminal status whose Succeeded and Failed reasons label only
    conditions of those types, leaves the status terminal. *)
Theorem C4_timestamps_set_at_most_once rtype replicas restart sc s :
  let st := JobStatus (mxjob s) in
  let st' := JobStatus (mxjob (exec (updateStatusSingle now KeyFunc rtype replicas restart sc) s)) in
  (∀ t, StartTime st = Some t → StartTime st' = Some t)
  ∧ (∀ ct, CompletionTime st = Some ct → CompletionTime st' = Some ct)
  ∧ (StartTime st' ≠ StartTime st → StartTime st = None)
  ∧ (CompletionTime st' ≠ CompletionTime st →
     CompletionTime st = None
     ∧ ∃ p rs,
         MXReplicaStatuses st !! rtype = Some (Some p)
         ∧ objects s !! p = Some rs
         ∧ existsb isTerminalVerdict
             (callVerdicts (mxjob s) rs rtype replicas restart sc) = true
         ∧ (isTerminal st = false → reasonsMatch (Conditions st) →
            isTerminal st' = true)).
Proof.
  intros st st'.
  assert (Hstart : ∀ t, StartTime st = Some t → StartTime st' = Some t).
  { intros t Ht. subst st'.
    destruct (updateStatusSingle_status rtype replicas restart sc s)
      as [->|(p & rs & x & _ & Ha & _)]; [exact Ht|].
    destruct (applies_frame _ _ _ _ Ha) as [_ ->].
    fold st. rewrite (withStart_kept x st t Ht). exact Ht. }
  assert (Hcompl : ∀ ct, CompletionTime st = Some ct → CompletionTime st' = Some ct).
  { intros ct Hct. subst st'.
    destruct (updateStatusSingle_status rtype replicas restart sc s)
      as [->|(p & rs & x & _ & Ha & _)]; [exact Hct|].
    eapply applies_CompletionTime_kept; [exact Ha|].
    destruct (withStart_frame x (JobStatus (mxjob s))) as (_ & _ & ->). exact Hct. }
  split; [exact Hstart|]. split; [exact Hcompl|]. split.
  - intros Hne. destruct (StartTime st) as [t|] eqn:E; [|reflexivity].
    exfalso. apply Hne. apply Hstart. reflexivity.
  - intros Hne.
    assert (Hnil : CompletionTime st = None).
    { destruct (CompletionTime st) as [ct|] eqn:E; [|reflexivity].
      exfalso. apply Hne. apply Hcompl. reflexivity. }
    split; [exact Hnil|]. subst st'.
    destruct (updateStatusSingle_status rtype replicas restart sc s)
      as [E|(p & rs & x & Hd & Ha & _)].
    { exfalso. apply Hne. rewrite E. reflexivity. }
    destruct (derefReplicaStatus_inv _ _ _ _ _ Hd) as [Hm Ho].
    destruct (withStart_frame x st) as (Hc0 & _ & Hk0). fold st in Ha.
    exists p, rs. split; [exact Hm|]. split; [exact Ho|].
    destruct (existsb isTerminalVerdict
                (callVerdicts (mxjob s) rs rtype replicas restart sc)) eqn:Hex.
    + split; [reflexivity|]. intros Hnt Hwf.
      eapply (histories_reach_terminal (Name (mxjob s))); [apply callVerdicts_lists| |
        apply applies_histories; exact Ha|exact Hex].
      rewrite Hc0. exact Hwf.
    + exfalso. apply Hne.
      rewrite (applies_CompletionTime_same _ _ _ _ Ha Hex). exact Hk0.
Qed.

End Properties.

(** * Witnesses and counterexamples *)

(** C1, witness: a succeeded job whose completion time is set. *)
Lemma C1_terminal_lock_witness :
  Conditions (JobStatus (mxjob (exec (updateStatusSingle tick namespaceKey
                                        MXReplicaTypeWorker 3 false false)
                                  (succeededState (Some 1%Z)))))
  = [liveCondition MXJobSucceeded mxJobSucceededReason 1%Z]
  ∧ CompletionTime (JobStatus (mxjob (exec (updateStatusSingle tick namespaceKey
                                              MXReplicaTypeWorker 3 false false)
                                        (succeededState (Some 1%Z)))))
    = Some 1%Z.
Proof.
  destruct (C1_terminal_lock tick namespaceKey MXReplicaTypeWorker 3 false false
              (succeededState (Some 1%Z))) as (H1 & H2 & _).
  - exists (liveCondition MXJobSucceeded mxJobSucceededReason 1%Z).
    split; [apply list_elem_of_here|]. split; [left|]; reflexivity.
  - split; [exact H1|]. apply H2. reflexivity.
Defined.

(** C1, counterexample to the claim as stated: the history holds a live
    Succeeded condition and completionTime is nil; a call for the worker
    group with all three replicas succeeded assigns completionTime. *)
Lemma C1_counterexample :
  (∃ c, c ∈ Conditions (JobStatus (mxjob (succeededState None)))
        ∧ Type_ c = MXJobSucceeded ∧ Status c = ConditionTrue)
  ∧ CompletionTime (JobStatus (mxjob (succeededState None))) = None
  ∧ CompletionTime (JobStatus (mxjob (exec (updateStatusSingle tick namespaceKey
                                              MXReplicaTypeWorker 3 false false)
                                        (succeededState None))))
    = Some 2%Z.
Proof.
  split; [|split; reflexivity].
  exists (liveCondition MXJobSucceeded mxJobSucceededReason 1%Z).
  split; [apply list_elem_of_here|]. split; reflexivity.
Qed.

(** C2, witness: a created job with one running pod and no failed pod,
    restart set; the second call changes nothing. *)
Lemma C2_idempotent_except_running_then_restarting_witness :
  reasonsMatch (Conditions (JobStatus (mxjob workersOnly)))
  ∧ JobStatus (mxjob
      (exec (updateStatusSingle tick namespaceKey MXReplicaTypeWorker 3 true false)
         (exec (updateStatusSingle tick namespaceKey MXReplicaTypeWorker 3 true false)
            workersOnly)))
    = JobStatus (mxjob
        (exec (updateStatusSingle tick namespaceKey MXReplicaTypeWorker 3 true false)
           workersOnly)).
Proof.
  assert (H : reasonsMatch (Conditions (JobStatus (mxjob workersOnly)))).
  { intros c Hc. apply list_elem_of_singleton in Hc. subst c.
    split; intros E; discriminate E. }
  split; [exact H|].
  apply (proj1 (C2_idempotent_except_running_then_restarting tick namespaceKey
                  MXReplicaTypeWorker 3 true false workersOnly H)).
  intros key p rs _ Hd. injection Hd as _ <-. reflexivity.
Defined.

(** C2, counterexample to the claim as stated: with running and failed pods
    and restart set, one call leaves a Restarting condition updated at the
    4th clock reading, two calls leave it updated at the 8th. *)
Lemma C2_counterexample :
  let once := exec (updateStatusSingle tick namespaceKey MXReplicaTypeWorker 3 true false)
                runningWithFailure in
  let twice := exec (updateStatusSingle tick namespaceKey MXReplicaTypeWorker 3 true false)
                 once in
  LastUpdateTime <$> last (Conditions (JobStatus (mxjob once))) = Some 4%Z
  ∧ LastUpdateTime <$> last (Conditions (JobStatus (mxjob twice))) = Some 8%Z
  ∧ JobStatus (mxjob twice) ≠ JobStatus (mxjob once).
Proof.
  split; [reflexivity|]. split; [reflexivity|].
  intros E. apply (f_equal (λ st, LastUpdateTime <$> last (Conditions st))) in E.
  vm_compute in E. discriminate E.
Qed.

(** The hypothesis of C2 on the reasons cannot be dropped: under a Created
    condition that carries the reason of Succeeded, the first call skips
    Succeeded and appends Restarting, and the second call appends
    Succeeded. *)
Example idempotence_needs_matching_reasons :
  Type_ <$> Conditions (JobStatus (mxjob
    (exec (updateStatusSingle tick namespaceKey MXReplicaTypeWorker 3 true false)
       mislabelledCreated)))
  = [MXJobCreated; MXJobRestarting]
  ∧ Type_ <$> Conditions (JobStatus (mxjob
      (exec (updateStatusSingle tick namespaceKey MXReplicaTypeWorker 3 true false)
         (exec (updateStatusSingle tick namespaceKey MXReplicaTypeWorker 3 true false)
            mislabelledCreated))))
    = [MXJobCreated; MXJobRestarting; MXJobSucceeded].
Proof. split; reflexivity. Qed.

(** C3, witness: Restarting inserted after Created and Running. *)
Lemma C3_running_restarting_exclusive_witness :
  setCondition createdRunning (liveCondition MXJobRestarting mxJobRestartingReason 2%Z)
    ≠ createdRunning
  ∧ ∀ d, d ∈ Conditions (setCondition createdRunning
                           (liveCondition MXJobRestarting mxJobRestartingReason 2%Z)) →
         Type_ d ≠ MXJobRunning.
Proof.
  assert (H : setCondition createdRunning
                (liveCondition MXJobRestarting mxJobRestartingReason 2%Z)
              ≠ createdRunning).
  { intros E. apply (f_equal Conditions) in E. vm_compute in E. discriminate E. }
  split; [exact H|].
  destruct (C3_running_restarting_exclusive createdRunning
              (liveCondition MXJobRestarting mxJobRestartingReason 2%Z) H)
    as (_ & Hexcl & _); [left; reflexivity|].
  apply Hexcl. reflexivity.
Defined.

(** C4, witness: on a fresh job whose workers all succeeded the call sets
    both times; a second call changes neither. *)
Lemma C4_timestamps_set_at_most_once_witness :
  StartTime (JobStatus (mxjob
    (exec (updateStatusSingle tick namespaceKey MXReplicaTypeWorker 3 false false)
       (exec (updateStatusSingle tick namespaceKey MXReplicaTypeWorker 3 false false)
          allWorkersSucceeded))))
  = Some 0%Z
  ∧ CompletionTime (JobStatus (mxjob
      (exec (updateStatusSingle tick namespaceKey MXReplicaTypeWorker 3 false false)
         (exec (updateStatusSingle tick namespaceKey MXReplicaTypeWorker 3 false false)
            allWorkersSucceeded))))
    = Some 1%Z.
Proof.
  destruct (C4_timestamps_set_at_most_once tick namespaceKey
              MXReplicaTypeWorker 3 false false
              (exec (updateStatusSingle tick namespaceKey MXReplicaTypeWorker 3 false false)
                 allWorkersSucceeded))
    as (Hstart & Hcompl & _).
  split; [apply Hstart|apply Hcompl]; reflexivity.
Defined.

(** C4, counterexample to the claim as stated: the history holds a live
    Succeeded condition and completionTime is nil; the call assigns
    completionTime although no transition takes place: the status was
    terminal before the call and the conditions list is unchanged. *)
Lemma C4_counterexample :
  isTerminal (JobStatus (mxjob (succeededState None))) = true
  ∧ CompletionTime (JobStatus (mxjob (succeededState None))) = None
  ∧ CompletionTime (JobStatus (mxjob
      (exec (updateStatusSingle tick namespaceKey MXReplicaTypeWorker 3 false false)
         (succeededState None))))
    = Some 2%Z
  ∧ Conditions (JobStatus (mxjob
      (exec (updateStatusSingle tick namespaceKey MXReplicaTypeWorker 3 false false)
         (succeededState None))))
    = Conditions (JobStatus (mxjob (succeededState None))).
Proof. repeat split; reflexivity. Qed.

(** C5, witness: scenario D on a fresh job. *)
Lemma C5_schedulerless_completion_witness :
  ContainSchedulerSpec (mxjob allWorkersSucceeded) = false
  ∧ (∃ u t, Conditions (JobStatus (mxjob
       (exec (updateStatusSingle tick namespaceKey MXReplicaTypeWorker 3 false false)
          allWorkersSucceeded)))
     = [conditionAt ApplySucceeded "job" u t])
  ∧ is_Some (CompletionTime (JobStatus (mxjob
       (exec (updateStatusSingle tick namespaceKey MXReplicaTypeWorker 3 false false)
          allWorkersSucceeded)))).
Proof.
  split; [reflexivity|].
  refine (proj2 (proj2
    (C5_schedulerless_completion tick namespaceKey MXReplicaTypeWorker 3 false false
       allWorkersSucceeded "default/job" 0%nat (counters 0 3 0) _ _ _ _ _))
    _ _ _ _ _); try reflexivity.
  left. reflexivity.
Defined.

(** Scenario D, evaluated: the start time is the first reading of the clock,
    the completion time the second, the condition's two times the third and
    the fourth. *)
Example scenario_D :
  JobStatus (mxjob (exec (updateStatusSingle tick namespaceKey
                            MXReplicaTypeWorker 3 false false) allWorkersSucceeded))
  = {| Conditions := [conditionAt ApplySucceeded "job" 2%Z 3%Z];
       MXReplicaStatuses := {[MXReplicaTypeWorker := Some 0%nat]};
       StartTime := Some 0%Z;
       CompletionTime := Some 1%Z |}.
Proof. reflexivity. Qed.

(** C6, witness: two workers running and one failed, restart set: Running is
    applied, then replaced by Restarting. *)
Lemma C6_failure_branch_after_topology_witness :
  (0 < Failed (counters 2 0 1))%Z
  ∧ ∀ d, d ∈ Conditions (JobStatus (mxjob
            (exec (updateStatusSingle tick namespaceKey MXReplicaTypeWorker 3 true false)
               workerFailedWhileRunning))) →
         Type_ d ≠ MXJobRunning.
Proof.
  split; [reflexivity|].
  destruct (C6_failure_branch_after_topology tick namespaceKey
              MXReplicaTypeWorker 3 true false workerFailedWhileRunning
              "default/job" 0%nat (counters 2 0 1))
    as (x & mid & _ & _ & _ & Hover & _); try reflexivity.
  destruct Hover as [Hrestart _]; try reflexivity.
  apply Hrestart. reflexivity.
Defined.

(** C6, counterexample to the claim as stated: all three workers have
    succeeded and one pod of the group has failed; the topology branch
    applies Succeeded and the failure branch, with restart unset or set,
    leaves it in place: no Failed and no Restarting condition is recorded. *)
Lemma C6_counterexample :
  (0 < Failed (counters 0 3 1))%Z
  ∧ Type_ <$> Conditions (JobStatus (mxjob
      (exec (updateStatusSingle tick namespaceKey MXReplicaTypeWorker 3 false false)
         workerFailedAllSucceeded)))
    = [MXJobSucceeded]
  ∧ isFailed (JobStatus (mxjob
      (exec (updateStatusSingle tick namespaceKey MXReplicaTypeWorker 3 false false)
         workerFailedAllSucceeded)))
    = false
  ∧ Type_ <$> Conditions (JobStatus (mxjob
      (exec (updateStatusSingle tick namespaceKey MXReplicaTypeWorker 3 true false)
         workerFailedAllSucceeded)))
    = [MXJobSucceeded].
Proof. repeat split; reflexivity. Qed.

(** C8, witness: the worker group of a job with a scheduler role, no failed
    pod. *)
Lemma C8_unmatched_topology_derives_nothing_witness :
  topologyMatches
    (ContainSchedulerSpec
       (mxjob (exampleState true [] None None MXReplicaTypeWorker (counters 2 1 0) 0)))
    MXReplicaTypeWorker = false
  ∧ result (updateStatusSingle tick namespaceKey MXReplicaTypeWorker 3 false false)
      (exampleState true [] None None MXReplicaTypeWorker (counters 2 1 0) 0)
    = Ok None
  ∧ Conditions (JobStatus (mxjob
      (exec (updateStatusSingle tick namespaceKey MXReplicaTypeWorker 3 false false)
         (exampleState true [] None None MXReplicaTypeWorker (counters 2 1 0) 0))))
    = [].
Proof.
  destruct (C8_unmatched_topology_derives_nothing tick namespaceKey
              MXReplicaTypeWorker 3 false false
              (exampleState true [] None None MXReplicaTypeWorker (counters 2 1 0) 0)
              "default/job" 0%nat (counters 2 1 0))
    as (Hr & _ & Hnoop); try reflexivity.
  split; [reflexivity|]. split; [exact Hr|].
  apply Hnoop. simpl. lia.
Defined.

(** C8, counterexample to the claim as stated: in a job with a scheduler
    role, the call for the worker group with one failed pod and restart
    unset appends a Failed condition and sets completionTime, although the
    topology branch does not match. *)
Lemma C8_counterexample :
  topologyMatches (ContainSchedulerSpec (mxjob schedulerJobFailedWorker))
    MXReplicaTypeWorker = false
  ∧ Conditions (JobStatus (mxjob schedulerJobFailedWorker)) = []
  ∧ CompletionTime (JobStatus (mxjob schedulerJobFailedWorker)) = None
  ∧ Type_ <$> Conditions (JobStatus (mxjob
      (exec (updateStatusSingle tick namespaceKey MXReplicaTypeWorker 3 false false)
         schedulerJobFailedWorker)))
    = [MXJobFailed]
  ∧ CompletionTime (JobStatus (mxjob
      (exec (updateStatusSingle tick namespaceKey MXReplicaTypeWorker 3 false false)
         schedulerJobFailedWorker)))
    = Some 1%Z.
Proof. repeat split; reflexivity. Qed.

(** C9, witness: a running pod of the worker group. *)
Lemma C9_observe_increments_one_counter_witness :
  objects (exec (updateMXJobReplicaStatuses MXReplicaTypeWorker (podInPhase PodRunning))
             workersOnly) !! 0%nat
  = Some (counters 2 0 0).
Proof.
  refine (proj1 (proj2 (proj2
    (C9_observe_increments_one_counter MXReplicaTypeWorker (podInPhase PodRunning)
       workersOnly 0%nat (counters 1 0 0) _ _ _)))).
  - reflexivity.
  - reflexivity.
  - unfold incrementable, MinInt32, MaxInt32. simpl. lia.
Defined.

(** C9, counterexample to the claim as stated: the replica status map has no
    entry for the Server group; for a running Server pod the call panics and
    no counter is incremented.  (Two more inputs outside the amended claim:
    a counter at the largest [int32] wraps around to the smallest, and a
    counter reached through two keys changes under both.) *)
Lemma C9_counterexample :
  MXReplicaStatuses (JobStatus (mxjob workersOnly)) !! MXReplicaTypeServer = None
  ∧ result (updateMXJobReplicaStatuses MXReplicaTypeServer (podInPhase PodRunning))
      workersOnly = Panicked
  ∧ exec (updateMXJobReplicaStatuses MXReplicaTypeServer (podInPhase PodRunning))
      workersOnly = workersOnly
  ∧ objects (exec (updateMXJobReplicaStatuses MXReplicaTypeWorker (podInPhase PodRunning))
               workersAtMaxInt32)
    = [counters MinInt32 0 0]
  ∧ result (let! (_, rs) := derefReplicaStatus MXReplicaTypeServer in ret (Active rs))
      sharedCounters = Ok 0%Z
  ∧ result (do! updateMXJobReplicaStatuses MXReplicaTypeWorker (podInPhase PodRunning) in
            let! (_, rs) := derefReplicaStatus MXReplicaTypeServer in ret (Active rs))
      sharedCounters = Ok 1%Z.
Proof. repeat split; reflexivity. Qed.

(** C10, witness: Succeeded inserted after Created and Restarting. *)
Lemma C10_terminal_insertion_keeps_restarting_witness :
  setCondition createdRestarting (liveCondition MXJobSucceeded mxJobSucceededReason 2%Z)
    ≠ createdRestarting
  ∧ liveCondition MXJobRestarting mxJobRestartingReason 1%Z
    ∈ Conditions (setCondition createdRestarting
                    (liveCondition MXJobSucceeded mxJobSucceededReason 2%Z)).
Proof.
  assert (H : setCondition createdRestarting
                (liveCondition MXJobSucceeded mxJobSucceededReason 2%Z)
              ≠ createdRestarting).
  { intros E. apply (f_equal Conditions) in E. vm_compute in E. discriminate E. }
  split; [exact H|].
  destruct (C10_terminal_insertion_keeps_restarting createdRestarting
              (liveCondition MXJobSucceeded mxJobSucceededReason 2%Z) H)
    as (_ & Hkeep & _); [left; reflexivity|].
  apply Hkeep; [apply list_elem_of_further, list_elem_of_here|left; reflexivity].
Defined.

(** * Further properties of the code *)

(** ** The aggregator: [initializeMXReplicaStatuses], [updateMXJobReplicaStatuses] *)

Lemma set_objects_id s : set_objects s (objects s) = s.
Proof. destruct s; reflexivity. Qed.

Lemma countPhase_nonneg phase pods : (0 ≤ countPhase phase pods)%Z.
Proof.
  induction pods as [|pod rest IH]; simpl; [lia|].
  destruct (String.eqb (Phase (Pod_Status pod)) phase); lia.
Qed.

(** One observation, when the counter of the pod's phase does not overflow. *)
Lemma updateMXJobReplicaStatuses_step rtype pod s p rs :
  MXReplicaStatuses (JobStatus (mxjob s)) !! rtype = Some (Some p) →
  objects s !! p = Some rs →
  countsFit rs [pod] →
  updateMXJobReplicaStatuses rtype pod s
  = (Ok tt, set_objects s (<[p := addCounts rs [pod]]> (objects s))).
Proof.
  intros Hm Ho Hfit.
  pose proof (derefReplicaStatus_Some rtype s p rs Hm Ho) as Hd.
  unfold countsFit, MinInt32, MaxInt32 in Hfit. simpl in Hfit.
  unfold updateMXJobReplicaStatuses, addCounts. simpl.
  destruct (String.eqb (Phase (Pod_Status pod)) PodRunning) eqn:E1.
  { apply String.eqb_eq in E1. rewrite E1 in *. simpl in *.
    rewrite (bind_run _ _ _ _ _ Hd), int32_incrementable
      by (unfold incrementable, MinInt32, MaxInt32; lia).
    unfold storeReplicaStatus, modify. rewrite !Z.add_0_r. reflexivity. }
  destruct (String.eqb (Phase (Pod_Status pod)) PodSucceeded) eqn:E2.
  { apply String.eqb_eq in E2. rewrite E2 in *. simpl in *.
    rewrite (bind_run _ _ _ _ _ Hd), int32_incrementable
      by (unfold incrementable, MinInt32, MaxInt32; lia).
    unfold storeReplicaStatus, modify. rewrite !Z.add_0_r. reflexivity. }
  destruct (String.eqb (Phase (Pod_Status pod)) PodFailed) eqn:E3.
  { apply String.eqb_eq in E3. rewrite E3 in *. simpl in *.
    rewrite (bind_run _ _ _ _ _ Hd), int32_incrementable
      by (unfold incrementable, MinInt32, MaxInt32; lia).
    unfold storeReplicaStatus, modify. rewrite !Z.add_0_r. reflexivity. }
  simpl. rewrite !Z.add_0_r.
  replace {| Active := Active rs; Succeeded := Succeeded rs; Failed := Failed rs |}
    with rs by (destruct rs; reflexivity).
  unfold ret. f_equal. rewrite <- (set_objects_id s) at 1. f_equal.
  symmetry. apply list_insert_id. exact Ho.
Qed.

Lemma addCounts_cons rs pod rest :
  addCounts (addCounts rs [pod]) rest = addCounts rs (pod :: rest).
Proof. unfold addCounts. simpl. f_equal; lia. Qed.

Lemma countsFit_cons rs pod rest :
  countsFit rs (pod :: rest) →
  countsFit rs [pod] ∧ countsFit (addCounts rs [pod]) rest.
Proof.
  unfold countsFit, addCounts. simpl.
  pose proof (countPhase_nonneg PodRunning rest).
  pose proof (countPhase_nonneg PodSucceeded rest).
  pose proof (countPhase_nonneg PodFailed rest).
  destruct (String.eqb (Phase (Pod_Status pod)) PodRunning),
    (String.eqb (Phase (Pod_Status pod)) PodSucceeded),
    (String.eqb (Phase (Pod_Status pod)) PodFailed); lia.
Qed.

Lemma observePods_run rtype pods : ∀ s p rs,
  MXReplicaStatuses (JobStatus (mxjob s)) !! rtype = Some (Some p) →
  objects s !! p = Some rs →
  countsFit rs pods →
  observePods rtype pods s
  = (Ok tt, set_objects s (<[p := addCounts rs pods]> (objects s))).
Proof.
  induction pods as [|pod rest IH]; intros s p rs Hm Ho Hfit.
  - simpl. unfold ret, addCounts. simpl. rewrite !Z.add_0_r.
    replace {| Active := Active rs; Succeeded := Succeeded rs; Failed := Failed rs |}
      with rs by (destruct rs; reflexivity).
    f_equal. rewrite <- (set_objects_id s) at 1. f_equal.
    symmetry. apply list_insert_id. exact Ho.
  - destruct (countsFit_cons _ _ _ Hfit) as [H1 H2].
    simpl. rewrite (bind_run _ _ _ _ _ (updateMXJobReplicaStatuses_step _ _ _ _ _ Hm Ho H1)).
    assert (Hp : p < length (objects s)) by (eapply lookup_lt_Some; exact Ho).
    rewrite (IH _ p (addCounts rs [pod])); [|exact Hm| |exact H2].
    + rewrite addCounts_cons. f_equal. unfold set_objects. cbn [mxjob objects clock WorkQueue].
      f_equal. apply list_insert_insert_eq.
    + cbn [set_objects objects]. apply list_lookup_insert_eq. exact Hp.
Qed.

Lemma countPhase_Permutation phase pods pods' :
  pods ≡ₚ pods' → countPhase phase pods = countPhase phase pods'.
Proof.
  induction 1 as [|pod l l' _ IH|pod pod' l|l l' l'' _ IH1 _ IH2]; simpl.
  - reflexivity.
  - rewrite IH. reflexivity.
  - lia.
  - congruence.
Qed.

Lemma countPhase_le_length phase pods :
  (countPhase phase pods ≤ Z.of_nat (length pods))%Z.
Proof.
  induction pods as [|pod rest IH]; simpl length; simpl countPhase; [lia|].
  destruct (String.eqb (Phase (Pod_Status pod)) phase); lia.
Qed.

Lemma initializeMXReplicaStatuses_run rtype s :
  initializeMXReplicaStatuses rtype s
  = (Ok tt,
     {| mxjob :=
          set_JobStatus (mxjob s)
            (set_MXReplicaStatuses (JobStatus (mxjob s))
               (<[rtype := Some (length (objects s))]>
                  (MXReplicaStatuses (JobStatus (mxjob s)))));
        objects := objects s ++ [zeroCounters];
        clock := clock s;
        WorkQueue := WorkQueue s |}).
Proof. reflexivity. Qed.

Lemma derefReplicaStatus_readable rtype s q rs s0 :
  derefReplicaStatus rtype s = (Ok (q, rs), s0) → q < length (objects s).
Proof.
  intros H. apply derefReplicaStatus_inv in H as [_ H].
  eapply lookup_lt_Some. exact H.
Qed.

(** X1.  [initializeMXReplicaStatuses] binds the replica type to a new object
    with all three counters zero, whatever the map held for it before: the
    counters of the type read as zero afterwards.  Every other replica type
    whose counters could be read before reads the same counters afterwards,
    through an object other than the new one; the conditions, the start and
    completion times, the name and the spec of the job are unchanged. *)
Theorem X1_initialize_binds_fresh_zero_counters rtype s :
  let s' := exec (initializeMXReplicaStatuses rtype) s in
  result (initializeMXReplicaStatuses rtype) s = Ok tt
  ∧ derefReplicaStatus rtype s' = (Ok (length (objects s), zeroCounters), s')
  ∧ (∀ r q rs, r ≠ rtype →
       derefReplicaStatus r s = (Ok (q, rs), s) →
       derefReplicaStatus r s' = (Ok (q, rs), s') ∧ q ≠ length (objects s))
  ∧ Conditions (JobStatus (mxjob s')) = Conditions (JobStatus (mxjob s))
  ∧ StartTime (JobStatus (mxjob s')) = StartTime (JobStatus (mxjob s))
  ∧ CompletionTime (JobStatus (mxjob s')) = CompletionTime (JobStatus (mxjob s))
  ∧ Name (mxjob s') = Name (mxjob s)
  ∧ Spec (mxjob s') = Spec (mxjob s).
Proof.
  intros s'. subst s'. unfold exec, result.
  rewrite initializeMXReplicaStatuses_run. cbn [fst snd].
  split; [reflexivity|]. split; [|split; [|repeat split]].
  - apply derefReplicaStatus_Some; cbn [mxjob objects JobStatus set_JobStatus
      MXReplicaStatuses set_MXReplicaStatuses].
    + apply lookup_insert_eq.
    + apply list_lookup_middle. reflexivity.
  - intros r q rs Hr Hd.
    pose proof (derefReplicaStatus_readable _ _ _ _ _ Hd) as Hq.
    apply derefReplicaStatus_inv in Hd as [Hm Ho].
    split; [|lia].
    apply derefReplicaStatus_Some; cbn [mxjob objects JobStatus set_JobStatus
      MXReplicaStatuses set_MXReplicaStatuses].
    + rewrite lookup_insert_ne by congruence. exact Hm.
    + rewrite lookup_app_l by exact Hq. exact Ho.
Qed.

(** X2.  Observing the pods of a group one after the other adds, to each
    counter of the group's object, the number of pods in the phase of that
    counter (Running to Active, Succeeded to Succeeded, Failed to Failed;
    pods in any other phase are not counted), provided the sums stay within
    [int32]; the call returns normally, and the job, the clock, the work
    queue and every other object are unchanged. *)
Theorem X2_observePods_adds_phase_counts rtype pods s p rs :
  MXReplicaStatuses (JobStatus (mxjob s)) !! rtype = Some (Some p) →
  objects s !! p = Some rs →
  countsFit rs pods →
  let s' := exec (observePods rtype pods) s in
  result (observePods rtype pods) s = Ok tt
  ∧ objects s' !! p = Some (addCounts rs pods)
  ∧ (∀ q, q ≠ p → objects s' !! q = objects s !! q)
  ∧ mxjob s' = mxjob s
  ∧ clock s' = clock s
  ∧ WorkQueue s' = WorkQueue s.
Proof.
  intros Hm Ho Hfit s'. subst s'. unfold exec, result.
  rewrite (observePods_run rtype pods s p rs Hm Ho Hfit). cbn [fst snd].
  assert (Hp : p < length (objects s)) by (eapply lookup_lt_Some; exact Ho).
  split; [reflexivity|]. split; [|split; [|auto]].
  - cbn [set_objects objects]. apply list_lookup_insert_eq. exact Hp.
  - intros q Hq. cbn [set_objects objects]. apply list_lookup_insert_ne. auto.
Qed.

(** X3.  The order in which the pods of a group are observed does not
    matter: two lists of pods that are permutations of each other leave the
    same state (the counters staying within [int32]). *)
Theorem X3_observation_order_is_irrelevant rtype pods pods' s p rs :
  MXReplicaStatuses (JobStatus (mxjob s)) !! rtype = Some (Some p) →
  objects s !! p = Some rs →
  countsFit rs pods →
  pods ≡ₚ pods' →
  exec (observePods rtype pods') s = exec (observePods rtype pods) s.
Proof.
  intros Hm Ho Hfit Hperm.
  assert (Hc : ∀ phase, countPhase phase pods' = countPhase phase pods)
    by (intros phase; symmetry; apply countPhase_Permutation; exact Hperm).
  assert (Hfit' : countsFit rs pods')
    by (unfold countsFit in *; rewrite !Hc; exact Hfit).
  unfold exec.
  rewrite (observePods_run rtype pods s p rs Hm Ho Hfit),
    (observePods_run rtype pods' s p rs Hm Ho Hfit').
  unfold addCounts. rewrite !Hc. reflexivity.
Qed.

Lemma countsFit_zero pods :
  (Z.of_nat (length pods) ≤ MaxInt32)%Z → countsFit zeroCounters pods.
Proof.
  intros H. unfold countsFit, zeroCounters, counters, MinInt32. simpl.
  pose proof (countPhase_le_length PodRunning pods).
  pose proof (countPhase_le_length PodSucceeded pods).
  pose proof (countPhase_le_length PodFailed pods).
  unfold MaxInt32 in *. lia.
Qed.

(** X4.  A group initialised and then observed pod by pod has exactly the
    phase counts of its pods as counters, whatever its counters were before
    and without a panic, for any number of pods up to the largest [int32];
    the counters of every other replica type that could be read before are
    read unchanged afterwards, also when the type shared its object with
    the group before. *)
Theorem X4_initialize_then_observe_counts_pods rtype pods s :
  (Z.of_nat (length pods) ≤ MaxInt32)%Z →
  let pass := (do! initializeMXReplicaStatuses rtype in observePods rtype pods) in
  let s' := exec pass s in
  result pass s = Ok tt
  ∧ derefReplicaStatus rtype s'
    = (Ok (length (objects s),
           {| Active := countPhase PodRunning pods;
              Succeeded := countPhase PodSucceeded pods;
              Failed := countPhase PodFailed pods |}), s')
  ∧ (∀ r q rs, r ≠ rtype →
       derefReplicaStatus r s = (Ok (q, rs), s) →
       derefReplicaStatus r s' = (Ok (q, rs), s')).
Proof.
  intros Hlen pass s'. subst s' pass. unfold exec, result.
  rewrite (bind_run _ _ _ _ _ (initializeMXReplicaStatuses_run rtype s)).
  set (s1 := {| mxjob := _; objects := objects s ++ [zeroCounters];
                clock := clock s; WorkQueue := WorkQueue s |}).
  assert (Hm1 : MXReplicaStatuses (JobStatus (mxjob s1)) !! rtype
                = Some (Some (length (objects s)))) by apply lookup_insert_eq.
  assert (Ho1 : objects s1 !! length (objects s) = Some zeroCounters)
    by (apply list_lookup_middle; reflexivity).
  rewrite (observePods_run rtype pods s1 _ _ Hm1 Ho1 (countsFit_zero pods Hlen)).
  cbn [fst snd]. split; [reflexivity|]. split.
  - apply derefReplicaStatus_Some; [exact Hm1|].
    cbn [set_objects objects]. rewrite list_lookup_insert_eq
      by (eapply lookup_lt_Some; exact Ho1).
    reflexivity.
  - intros r q rs Hr Hd.
    pose proof (derefReplicaStatus_readable _ _ _ _ _ Hd) as Hq.
    apply derefReplicaStatus_inv in Hd as [Hm Ho].
    apply derefReplicaStatus_Some.
    + cbn [set_objects mxjob]. subst s1.
      cbn [mxjob JobStatus set_JobStatus MXReplicaStatuses set_MXReplicaStatuses].
      rewrite lookup_insert_ne by congruence. exact Hm.
    + cbn [set_objects objects]. rewrite list_lookup_insert_ne by lia.
      subst s1. cbn [objects]. rewrite lookup_app_l by exact Hq. exact Ho.
Qed.

(** ** [updateStatusSingle]: how a call ends and what it leaves alone *)

Section Calls.

Variable now : nat -> Time.
Variable KeyFunc : MXJob -> string + error.

(** X5.  [updateStatusSingle] returns an error exactly when the key lookup
    fails, and then returns that error; it panics exactly when the key lookup
    succeeds and the counters of the replica type cannot be read (no entry or
    a nil entry in the map); in every other case it returns a nil error.
    When it does not return nil the state is left exactly as it was. *)
Theorem X5_updateStatusSingle_result rtype replicas restart sc s :
  result (updateStatusSingle now KeyFunc rtype replicas restart sc) s
  = match KeyFunc (mxjob s) with
    | inr err => Ok (Some err)
    | inl _ =>
        match fst (derefReplicaStatus rtype s) with
        | Ok _ => Ok None
        | Panicked => Panicked
        end
    end
  ∧ (result (updateStatusSingle now KeyFunc rtype replicas restart sc) s ≠ Ok None →
     exec (updateStatusSingle now KeyFunc rtype replicas restart sc) s = s).
Proof.
  destruct (updateStatusSingle_outcome now KeyFunc rtype replicas restart sc s)
    as [err Hk E|key Hk Hd E|key p rs x st' Hk Hd _ Hr _ _].
  - unfold result, exec. rewrite E, Hk. auto.
  - unfold result, exec. rewrite E, Hk, Hd. auto.
  - rewrite Hr, Hk, Hd. split; [reflexivity|]. intros H. contradiction.
Qed.

(** X6.  [updateStatusSingle] only reads the counters: whatever the inputs
    and however the call ends, the replica status map, every replica status
    object, and the namespace, name and spec of the job are unchanged. *)
Theorem X6_updateStatusSingle_leaves_counters_and_spec rtype replicas restart sc s :
  let s' := exec (updateStatusSingle now KeyFunc rtype replicas restart sc) s in
  MXReplicaStatuses (JobStatus (mxjob s')) = MXReplicaStatuses (JobStatus (mxjob s))
  ∧ objects s' = objects s
  ∧ Namespace (mxjob s') = Namespace (mxjob s)
  ∧ Name (mxjob s') = Name (mxjob s)
  ∧ Spec (mxjob s') = Spec (mxjob s)
  ∧ (∀ r, derefReplicaStatus r s' = (fst (derefReplicaStatus r s), s')).
Proof.
  intros s'.
  assert (H : MXReplicaStatuses (JobStatus (mxjob s')) = MXReplicaStatuses (JobStatus (mxjob s))
              ∧ objects s' = objects s
              ∧ Namespace (mxjob s') = Namespace (mxjob s)
              ∧ Name (mxjob s') = Name (mxjob s)
              ∧ Spec (mxjob s') = Spec (mxjob s)).
  { subst s'.
    destruct (updateStatusSingle_outcome now KeyFunc rtype replicas restart sc s)
      as [err _ E|key _ _ E|key p rs x st' _ _ Ha _ Hj Ho].
    - unfold exec. rewrite E. auto.
    - unfold exec. rewrite E. auto.
    - rewrite Hj, Ho. cbn [JobStatus set_JobStatus Namespace Name Spec].
      destruct (applies_frame _ _ _ _ Ha) as [-> _].
      destruct (withStart_frame x (JobStatus (mxjob s))) as (_ & -> & _). auto. }
  destruct H as (Hm & Ho & Hrest). repeat split; try tauto.
  intros r. unfold derefReplicaStatus. rewrite Hm, Ho.
  destruct (MXReplicaStatuses (JobStatus (mxjob s)) !! r) as [[q|]|];
    [destruct (objects s !! q)|..]; reflexivity.
Qed.

(** *** The start-time step *)

Lemma setStartTimeIfNil_run key s :
  exec (setStartTimeIfNil now key) s
  = match StartTime (JobStatus (mxjob s)) with
    | Some _ => s
    | None =>
        {| mxjob := set_JobStatus (mxjob s)
                      (set_StartTime (JobStatus (mxjob s)) (Some (now (clock s))));
           objects := objects s;
           clock := S (clock s);
           WorkQueue :=
             match ActiveDeadlineSeconds (Spec (mxjob s)) with
             | Some seconds => WorkQueue s ++ [(key, int64 (seconds * time_Second))]
             | None => WorkQueue s
             end |}
    end.
Proof.
  unfold exec, setStartTimeIfNil, bind, getStatus. simpl.
  destruct (StartTime (JobStatus (mxjob s))); [reflexivity|]. simpl.
  destruct (ActiveDeadlineSeconds (Spec (mxjob s))); reflexivity.
Qed.

Lemma applyCondition_queue name v s :
  WorkQueue (exec (applyCondition now name v) s) = WorkQueue s.
Proof.
  unfold exec, applyCondition, when, bind.
  destruct (isTerminalVerdict v); [|reflexivity].
  unfold setCompletionTimeIfNil, bind, getStatus. simpl.
  destruct (CompletionTime (JobStatus (mxjob s))); reflexivity.
Qed.

Lemma applyConditions_queue name vs s :
  WorkQueue (exec (applyConditions now name vs) s) = WorkQueue s.
Proof.
  revert s. induction vs as [|v vs IH]; intros s; [reflexivity|].
  rewrite exec_applyConditions_cons, IH. apply applyCondition_queue.
Qed.

(** A call that gets past the key lookup and the counters runs the start-time
    step and then the verdicts. *)
Lemma updateStatusSingle_exec rtype replicas restart sc s key p rs :
  KeyFunc (mxjob s) = inl key →
  derefReplicaStatus rtype s = (Ok (p, rs), s) →
  let s2 := exec (setStartTimeIfNil now key) s in
  exec (updateStatusSingle now KeyFunc rtype replicas restart sc) s
  = exec (applyConditions now (Name (mxjob s2))
            (callVerdicts (mxjob s2) rs rtype replicas restart sc)) s2.
Proof.
  intros Hkey Hd s2. unfold exec at 1.
  rewrite (updateStatusSingle_deriveAndApply now KeyFunc _ _ _ _ _ _ Hkey).
  unfold deriveAndApply. rewrite (bind_run _ _ _ _ _ Hd).
  rewrite (bind_run _ _ _ _ _ (setStartTimeIfNil_returns now _ _)).
  rewrite (bind_run get _ _ _ _ eq_refl). reflexivity.
Qed.

(** X7.  After a call that gets past the key lookup and reads the counters
    of the replica type, the start time is set: it is the one the job had,
    or, when the job had none, the first reading of the clock made by the
    call. *)
Theorem X7_start_time_is_the_first_reading rtype replicas restart sc s key p rs :
  KeyFunc (mxjob s) = inl key →
  MXReplicaStatuses (JobStatus (mxjob s)) !! rtype = Some (Some p) →
  objects s !! p = Some rs →
  StartTime (JobStatus (mxjob (exec (updateStatusSingle now KeyFunc rtype replicas restart sc) s)))
  = Some (default (now (clock s)) (StartTime (JobStatus (mxjob s)))).
Proof.
  intros Hkey Hm Ho.
  pose proof (derefReplicaStatus_Some rtype s p rs Hm Ho) as Hd.
  rewrite (updateStatusSingle_exec _ _ _ _ _ _ _ _ Hkey Hd).
  set (s2 := exec (setStartTimeIfNil now key) s).
  destruct (exec_applyConditions now (Name (mxjob s2))
              (callVerdicts (mxjob s2) rs rtype replicas restart sc) s2)
    as (st' & Ha & Hj & _).
  rewrite Hj. cbn [JobStatus set_JobStatus].
  destruct (applies_frame _ _ _ _ Ha) as [_ ->].
  subst s2. rewrite setStartTimeIfNil_run.
  destruct (StartTime (JobStatus (mxjob s))) as [t|] eqn:E; [exact E|reflexivity].
Qed.

(** X8.  A call puts at most one request on the work queue: exactly when it
    gets past the key lookup and the counters, the job has no start time yet
    and an ActiveDeadlineSeconds is configured, it appends a request for the
    job's key after that many seconds (the product with [time.Second], in
    nanoseconds, as an [int64]); in every other case the queue is unchanged.
    Up to 9223372036 seconds the product does not wrap. *)
Theorem X8_deadline_sync_enqueued_once rtype replicas restart sc s :
  WorkQueue (exec (updateStatusSingle now KeyFunc rtype replicas restart sc) s)
  = match KeyFunc (mxjob s), fst (derefReplicaStatus rtype s),
          StartTime (JobStatus (mxjob s)), ActiveDeadlineSeconds (Spec (mxjob s)) with
    | inl key, Ok _, None, Some seconds =>
        WorkQueue s ++ [(key, int64 (seconds * time_Second))]
    | _, _, _, _ => WorkQueue s
    end
  ∧ (∀ seconds, (0 ≤ seconds ≤ 9223372036)%Z →
       int64 (seconds * time_Second) = (seconds * 1000000000)%Z).
Proof.
  split.
  - destruct (updateStatusSingle_outcome now KeyFunc rtype replicas restart sc s)
      as [err Hk E|key Hk Hd E|key p rs x st' Hk Hd _ _ _ _].
    + unfold exec. rewrite E, Hk. reflexivity.
    + unfold exec. rewrite E, Hk, Hd. reflexivity.
    + rewrite (updateStatusSingle_exec _ _ _ _ _ _ _ _ Hk Hd), applyConditions_queue.
      rewrite Hk, Hd, setStartTimeIfNil_run. cbn [fst].
      destruct (StartTime (JobStatus (mxjob s))); [reflexivity|].
      destruct (ActiveDeadlineSeconds (Spec (mxjob s))); reflexivity.
  - intros seconds H. unfold int64, wrap, time_Second.
    change (2 ^ (64 - 1))%Z with 9223372036854775808%Z.
    change (2 ^ 64)%Z with 18446744073709551616%Z.
    rewrite Z.mod_small by lia. lia.
Qed.

End Calls.

(** ** The condition history: [hasCondition], [filterOutCondition], [setCondition] *)

(** X9.  [hasCondition] holds exactly when the history has an entry of the
    requested type whose status is True; an entry of that type with another
    status (False after a demotion, Unknown) does not count, and on the
    empty history it is false.  [isSucceeded] and [isFailed] are the cases
    of the types Succeeded and Failed. *)
Theorem X9_hasCondition_finds_live_entries st T :
  (hasCondition st T = true ↔
   ∃ c, c ∈ Conditions st ∧ Type_ c = T ∧ Status c = ConditionTrue)
  ∧ (hasCondition st T = false ↔
     ∀ c, c ∈ Conditions st → Type_ c = T → Status c ≠ ConditionTrue)
  ∧ isSucceeded st = hasCondition st MXJobSucceeded
  ∧ isFailed st = hasCondition st MXJobFailed
  ∧ (Conditions st = [] → hasCondition st T = false).
Proof.
  unfold hasCondition.
  split; [apply hasCondition_range_true|]. split; [|split; [reflexivity|split; [reflexivity|]]].
  - split.
    + intros H c Hc HT HS.
      assert (hasCondition_range (Conditions st) T = true); [|congruence].
      apply hasCondition_range_true. exists c. auto.
    + intros H. apply not_true_is_false. intros E.
      apply hasCondition_range_true in E as (c & Hc & HT & HS).
      exact (H c Hc HT HS).
  - intros ->. reflexivity.
Qed.

Lemma filterOutCondition_types l T x :
  x ∈ Type_ <$> filterOutCondition l T → x ∈ Type_ <$> l ∧ x ≠ T.
Proof.
  intros H. apply list_elem_of_fmap in H as (c' & -> & Hc').
  apply filterOutCondition_elem in Hc' as (c & Hc & Hk & ->).
  rewrite demoted_Type. split.
  - apply list_elem_of_fmap. exists c. auto.
  - unfold kept in Hk. apply andb_true_iff in Hk as [_ Hk].
    apply negb_true_iff, eqb_false in Hk. exact Hk.
Qed.

Lemma filterOutCondition_cons c rest T :
  filterOutCondition (c :: rest) T
  = if kept T c then demoted T c :: filterOutCondition rest T
    else filterOutCondition rest T.
Proof. rewrite !filterOutCondition_spec. simpl. destruct (kept T c); reflexivity. Qed.

Lemma filterOutCondition_NoDup l T :
  NoDup (Type_ <$> l) → NoDup (Type_ <$> filterOutCondition l T).
Proof.
  induction l as [|c rest IH]; intros H; [constructor|].
  rewrite fmap_cons in H. apply NoDup_cons in H as [Hc Hrest].
  rewrite filterOutCondition_cons. destruct (kept T c); [|apply IH, Hrest].
  rewrite fmap_cons, demoted_Type. apply NoDup_cons. split; [|apply IH, Hrest].
  intros Hin. apply filterOutCondition_types in Hin as [Hin _]. contradiction.
Qed.

Lemma kept_demoted T c : kept T (demoted T c) = kept T c.
Proof. unfold kept. rewrite demoted_Type. reflexivity. Qed.

Lemma demoted_demoted T c : demoted T (demoted T c) = demoted T c.
Proof.
  unfold demoted at 1. rewrite demoted_Type. unfold demoted.
  destruct ((String.eqb T MXJobFailed || String.eqb T MXJobSucceeded)
            && String.eqb (Type_ c) MXJobRunning); reflexivity.
Qed.

Lemma filterOutCondition_twice l T :
  filterOutCondition (filterOutCondition l T) T = filterOutCondition l T.
Proof.
  induction l as [|c rest IH]; [reflexivity|].
  rewrite filterOutCondition_cons. destruct (kept T c) eqn:E; [|exact IH].
  rewrite filterOutCondition_cons, kept_demoted, E, demoted_demoted, IH. reflexivity.
Qed.

Lemma filterOutCondition_sublist l T :
  (Type_ <$> filterOutCondition l T) `sublist_of` (Type_ <$> l).
Proof.
  induction l as [|c rest IH]; [constructor|].
  rewrite filterOutCondition_cons, fmap_cons. destruct (kept T c).
  - rewrite fmap_cons, demoted_Type. apply sublist_skip, IH.
  - apply sublist_cons, IH.
Qed.

(** X10.  [filterOutCondition] returns the entries it keeps in their order
    (the types of the result are a sublist of the types of the input), each
    either as it was or with the status False and nothing else changed; no
    entry of the filtered type is left; filtering a second time for the same
    type changes nothing. *)
Theorem X10_filterOutCondition_keeps_order_and_is_idempotent l T :
  (Type_ <$> filterOutCondition l T) `sublist_of` (Type_ <$> l)
  ∧ (∀ c', c' ∈ filterOutCondition l T →
       Type_ c' ≠ T
       ∧ ∃ c, c ∈ l ∧ (c' = c ∨ c' = set_Status c ConditionFalse))
  ∧ (length (filterOutCondition l T) ≤ length l)%nat
  ∧ filterOutCondition (filterOutCondition l T) T = filterOutCondition l T.
Proof.
  split; [apply filterOutCondition_sublist|]. split; [|split].
  - intros c' Hc'. split.
    + assert (H : Type_ c' ∈ Type_ <$> filterOutCondition l T)
        by (apply list_elem_of_fmap; exists c'; auto).
      apply filterOutCondition_types in H as [_ H]. exact H.
    + apply filterOutCondition_elem in Hc' as (c & Hc & _ & ->).
      exists c. split; [exact Hc|]. unfold demoted. destruct (_ && _); auto.
  - pose proof (sublist_length _ _ (filterOutCondition_sublist l T)) as H.
    rewrite !length_fmap in H. exact H.
  - apply filterOutCondition_twice.
Qed.

Lemma inserted_cases l c :
  inserted l c = l
  ∨ (skips l c = false
     ∧ inserted l c = filterOutCondition l (Type_ c) ++ [stored l c]).
Proof. unfold inserted. destruct (skips l c); auto. Qed.

Lemma inserted_types l c x :
  x ∈ Type_ <$> inserted l c → x ∈ Type_ <$> l ∨ x = Type_ c.
Proof.
  destruct (inserted_cases l c) as [->|[_ ->]]; [auto|].
  rewrite fmap_app. intros H. apply elem_of_app in H as [H|H].
  - left. apply filterOutCondition_types in H as [H _]. exact H.
  - right. simpl in H. apply list_elem_of_singleton in H.
    destruct (stored_fields l c) as (HT & _). congruence.
Qed.

Lemma inserted_NoDup l c :
  NoDup (Type_ <$> l) → NoDup (Type_ <$> inserted l c).
Proof.
  intros H. destruct (inserted_cases l c) as [->|[_ ->]]; [exact H|].
  rewrite fmap_app. apply NoDup_app. split; [apply filterOutCondition_NoDup, H|].
  split; [|apply NoDup_singleton].
  intros x Hx Hin. simpl in Hin. apply list_elem_of_singleton in Hin.
  apply filterOutCondition_types in Hx as [_ Hx].
  destruct (stored_fields l c) as (HT & _). congruence.
Qed.

Lemma inserted_exclusive l c :
  ¬ (MXJobRunning ∈ Type_ <$> l ∧ MXJobRestarting ∈ Type_ <$> l) →
  ¬ (MXJobRunning ∈ Type_ <$> inserted l c ∧ MXJobRestarting ∈ Type_ <$> inserted l c).
Proof.
  intros H [HR HRs].
  destruct (inserted_cases l c) as [E|[_ E]]; rewrite E in HR, HRs; [tauto|].
  destruct (stored_fields l c) as (HT & _).
  rewrite fmap_app in HR, HRs. simpl in HR, HRs. rewrite HT in HR, HRs.
  apply elem_of_app in HR as [HR|HR]; apply elem_of_app in HRs as [HRs|HRs].
  - apply filterOutCondition_types in HR as [HR _].
    apply filterOutCondition_types in HRs as [HRs _]. tauto.
  - apply list_elem_of_singleton in HRs.
    apply list_elem_of_fmap in HR as (d & Hd & Hin).
    destruct (filterOutCondition_exclusive l (Type_ c) d) as [Hn _]; auto.
  - apply list_elem_of_singleton in HR.
    apply list_elem_of_fmap in HRs as (d & Hd & Hin).
    destruct (filterOutCondition_exclusive l (Type_ c) d) as [_ Hn]; auto.
  - apply list_elem_of_singleton in HR, HRs. rewrite <- HR in HRs. discriminate HRs.
Qed.

Lemma terminalIn_snoc l c :
  terminalIn (l ++ [c])
  = terminalIn l
    || ((String.eqb (Type_ c) MXJobFailed || String.eqb (Type_ c) MXJobSucceeded)
        && String.eqb (Status c) ConditionTrue).
Proof.
  unfold terminalIn. rewrite !hasCondition_range_app. simpl.
  destruct (hasCondition_range l MXJobFailed), (hasCondition_range l MXJobSucceeded),
    (String.eqb (Type_ c) MXJobFailed), (String.eqb (Type_ c) MXJobSucceeded),
    (String.eqb (Status c) ConditionTrue); reflexivity.
Qed.

Lemma inserted_not_both l c :
  hasCondition_range l MXJobSucceeded && hasCondition_range l MXJobFailed = false →
  hasCondition_range (inserted l c) MXJobSucceeded
  && hasCondition_range (inserted l c) MXJobFailed = false.
Proof.
  intros H. destruct (terminalIn l) eqn:Ht.
  { rewrite inserted_terminal by exact Ht. exact H. }
  destruct (inserted_cases l c) as [->|[_ ->]]; [exact H|].
  pose proof (terminalIn_filterOutCondition l (Type_ c) Ht) as Hf.
  unfold terminalIn in Hf. apply orb_false_iff in Hf as [HF HS].
  rewrite !hasCondition_range_app, HF, HS. simpl.
  destruct (String.eqb (Type_ (stored l c)) MXJobSucceeded) eqn:E1;
    destruct (String.eqb (Type_ (stored l c)) MXJobFailed) eqn:E2;
    destruct (String.eqb (Status (stored l c)) ConditionTrue); try reflexivity.
  apply String.eqb_eq in E1, E2. rewrite E1 in E2. discriminate E2.
Qed.

Lemma filter_none {A} (f : A → bool) (l : list A) :
  (∀ x, x ∈ l → f x = false) → List.filter f l = [].
Proof.
  induction l as [|x l IH]; intros H; [reflexivity|]. simpl.
  rewrite (H x) by left. apply IH. intros y Hy. apply H. right. exact Hy.
Qed.

(** X11.  [setCondition] keeps a history in shape, whatever condition it is
    given: a history with at most one entry per type stays so; a history
    that does not hold both a Running and a Restarting entry stays so; a
    history that does not hold both a live Succeeded and a live Failed entry
    stays so; the start time, the completion time and the replica statuses
    are not touched.  And whenever it changes the status, the new history
    holds exactly one entry of the type of the given condition, its last
    one, also when the old history held several. *)
Theorem X11_setCondition_keeps_history_in_shape st c :
  (NoDup (Type_ <$> Conditions st) → NoDup (Type_ <$> Conditions (setCondition st c)))
  ∧ (¬ (MXJobRunning ∈ Type_ <$> Conditions st
        ∧ MXJobRestarting ∈ Type_ <$> Conditions st) →
     ¬ (MXJobRunning ∈ Type_ <$> Conditions (setCondition st c)
        ∧ MXJobRestarting ∈ Type_ <$> Conditions (setCondition st c)))
  ∧ (isSucceeded st && isFailed st = false →
     isSucceeded (setCondition st c) && isFailed (setCondition st c) = false)
  ∧ StartTime (setCondition st c) = StartTime st
  ∧ CompletionTime (setCondition st c) = CompletionTime st
  ∧ MXReplicaStatuses (setCondition st c) = MXReplicaStatuses st
  ∧ (setCondition st c ≠ st →
     ∃ c', last (Conditions (setCondition st c)) = Some c'
         ∧ Type_ c' = Type_ c ∧ Status c' = Status c ∧ Reason c' = Reason c
         ∧ Message c' = Message c ∧ LastUpdateTime c' = LastUpdateTime c
         ∧ List.filter (λ d, String.eqb (Type_ d) (Type_ c))
             (Conditions (setCondition st c)) = [c']).
Proof.
  destruct (setCondition_frame st c) as (Hm & Hs & Hc).
  unfold isSucceeded, isFailed, hasCondition. rewrite setCondition_Conditions.
  split; [apply inserted_NoDup|]. split; [apply inserted_exclusive|].
  split; [apply inserted_not_both|]. split; [exact Hs|]. split; [exact Hc|].
  split; [exact Hm|].
  intros Hne. destruct (setCondition_changes st c Hne) as [_ E].
  rewrite setCondition_Conditions in E. rewrite E.
  destruct (stored_fields (Conditions st) c) as (HT & HS & HR & HM & HU).
  exists (stored (Conditions st) c). split; [apply last_snoc|].
  repeat (split; [assumption|]).
  rewrite List.filter_app, filter_none.
  - simpl. rewrite HT, String.eqb_refl. reflexivity.
  - intros d Hd. apply eqb_false.
    assert (H : Type_ d ∈ Type_ <$> filterOutCondition (Conditions st) (Type_ c))
      by (apply list_elem_of_fmap; exists d; auto).
    apply filterOutCondition_types in H as [_ H]. exact H.
Qed.

(** X12.  [setCondition] makes a status terminal only by appending a live
    Succeeded or Failed condition: on a status that is not terminal, the
    result is terminal exactly when the call changes the status and the given
    condition has type Succeeded or Failed and status True.  (Removing or
    demoting entries never makes a status terminal.) *)
Theorem X12_setCondition_terminal_only_by_live_terminal_condition st c :
  isTerminal st = false →
  (isTerminal (setCondition st c) = true ↔
   setCondition st c ≠ st
   ∧ (Type_ c = MXJobSucceeded ∨ Type_ c = MXJobFailed)
   ∧ Status c = ConditionTrue).
Proof.
  intros Hnt.
  assert (Hshape : setCondition st c ≠ st →
            isTerminal (setCondition st c)
            = (String.eqb (Type_ c) MXJobFailed || String.eqb (Type_ c) MXJobSucceeded)
              && String.eqb (Status c) ConditionTrue).
  { intros Hne. destruct (setCondition_changes st c Hne) as [_ E].
    unfold isTerminal. rewrite E, terminalIn_snoc.
    rewrite (terminalIn_filterOutCondition _ _ Hnt).
    destruct (stored_fields (Conditions st) c) as (-> & -> & _). reflexivity. }
  split.
  - intros Ht.
    assert (Hne : setCondition st c ≠ st) by (intros E; rewrite E in Ht; congruence).
    split; [exact Hne|]. rewrite (Hshape Hne) in Ht.
    apply andb_true_iff in Ht as [HT HS]. apply eqb_true in HS. split; [|exact HS].
    apply orb_true_iff in HT as [HT|HT]; apply eqb_true in HT; auto.
  - intros (Hne & HT & HS). rewrite (Hshape Hne), HS.
    destruct HT as [-> | ->]; reflexivity.
Qed.

(** ** [updateStatusSingle] on the condition history *)

Lemma demoted_Reason T c : Reason (demoted T c) = Reason c.
Proof. unfold demoted. destruct (_ && _); reflexivity. Qed.

Lemma labelled_conditionAt v name u t : labelled (conditionAt v name u t).
Proof.
  unfold labelled, typeReasons. destruct v; simpl;
    repeat first [apply list_elem_of_here | apply list_elem_of_further].
Qed.

Lemma inserted_labelled l c :
  labelled c → (∀ d, d ∈ l → labelled d) → ∀ d, d ∈ inserted l c → labelled d.
Proof.
  intros Hc Hl d Hd. destruct (inserted_cases l c) as [E|[_ E]]; rewrite E in Hd; [auto|].
  apply elem_of_app in Hd as [Hd|Hd].
  - apply filterOutCondition_elem in Hd as (d0 & Hd0 & _ & ->).
    unfold labelled. rewrite demoted_Type, demoted_Reason. apply Hl, Hd0.
  - apply list_elem_of_singleton in Hd. subst d. unfold labelled.
    destruct (stored_fields l c) as (-> & _ & -> & _). exact Hc.
Qed.

Lemma historyInvariant_inserted l v name u t :
  historyInvariant l → historyInvariant (inserted l (conditionAt v name u t)).
Proof.
  intros (H1 & H2 & H3 & H4). split; [apply inserted_NoDup, H1|].
  split; [apply inserted_exclusive, H2|].
  split; [apply inserted_labelled; [apply labelled_conditionAt|exact H3]|].
  apply inserted_not_both, H4.
Qed.

Lemma histories_preserve (I : list MXJobCondition → Prop) name vs l l' :
  (∀ l0 v u t, I l0 → I (inserted l0 (conditionAt v name u t))) →
  histories name vs l l' → I l → I l'.
Proof.
  intros Hstep. induction 1 as [l|v vs u t l l' _ IH]; [auto|].
  intros Hl. apply IH, Hstep, Hl.
Qed.

Lemma histories_stay_nonterminal name vs l l' :
  histories name vs l l' → existsb isTerminalVerdict vs = false →
  terminalIn l = false → terminalIn l' = false.
Proof.
  induction 1 as [l|v vs u t l l' _ IH]; [auto|]. simpl.
  intros Hex Hnt. apply orb_false_iff in Hex as [Hv Hvs].
  apply IH; [exact Hvs|]. apply inserted_nonterminal; assumption.
Qed.

Lemma labelled_reasonsMatch l : (∀ c, c ∈ l → labelled c) → reasonsMatch l.
Proof.
  intros H c Hc. specialize (H c Hc). unfold labelled, typeReasons in H.
  repeat (apply elem_of_cons in H as [H|H]); try (inversion H; fail);
    injection H as HT HR; rewrite HT, HR; split; intros E;
    try reflexivity; discriminate E.
Qed.

Lemma callVerdicts_selectsTerminal j rs rtype replicas restart sc :
  existsb isTerminalVerdict (callVerdicts j rs rtype replicas restart sc)
  = selectsTerminal (ContainSchedulerSpec j) rtype
      (int64 (replicas - Succeeded rs)) (Failed rs) restart sc.
Proof.
  unfold callVerdicts, topologyBranch, failureBranch, selectsTerminal.
  destruct (ContainSchedulerSpec j), (String.eqb rtype MXReplicaTypeScheduler),
    (String.eqb rtype MXReplicaTypeWorker || String.eqb rtype MXReplicaTypeTuner),
    (0 <? Active rs)%Z, ((int64 (replicas - Succeeded rs) =? 0)%Z), sc,
    (0 <? Failed rs)%Z, restart; reflexivity.
Qed.

(** The history a run with a terminal verdict leaves: the terminal verdict
    was appended to a non-terminal history, and nothing came after. *)
Lemma histories_terminal_shape name vs l l' :
  vs ∈ verdictLists → reasonsMatch l → terminalIn l = false →
  histories name vs l l' → existsb isTerminalVerdict vs = true →
  ∃ la v u t,
    isTerminalVerdict v = true
    ∧ l' = filterOutCondition la (verdictType v) ++ [stored la (conditionAt v name u t)].
Proof.
  intros Hvs Hwf Hnt H Hex.
  assert (Hfirst : ∀ v vs' l0,
            histories name (v :: vs') l0 l' → isTerminalVerdict v = true →
            terminalIn l0 = false → lastLive (verdictReason v) l0 = false →
            ∃ la v u t,
              isTerminalVerdict v = true
              ∧ l' = filterOutCondition la (verdictType v)
                     ++ [stored la (conditionAt v name u t)]).
  { intros v vs' l0 H0 Hv Hn0 Hl0. inversion H0 as [|? ? u t ? ? H']; subst.
    pose proof (inserted_terminalVerdict l0 v name u t Hv Hl0) as Ht.
    rewrite (histories_terminal _ _ _ _ H' Ht).
    exists l0, v, u, t. split; [exact Hv|]. apply inserted_conditionAt; assumption. }
  assert (Hsecond : ∀ v vs',
            histories name (ApplyRunning :: v :: vs') l l' →
            isTerminalVerdict v = true →
            ∃ la v u t,
              isTerminalVerdict v = true
              ∧ l' = filterOutCondition la (verdictType v)
                     ++ [stored la (conditionAt v name u t)]).
  { intros v vs' H0 Hv. inversion H0 as [|? ? u t ? ? H1]; subst.
    eapply Hfirst; [exact H1|exact Hv|apply inserted_nonterminal; auto|].
    eapply lastLive_reason; [apply inserted_lastLive; exact Hnt|].
    destruct v; try discriminate Hv; discriminate. }
  unfold verdictLists in Hvs.
  repeat (apply elem_of_cons in Hvs as [->|Hvs]);
    try discriminate Hex;
    try (eapply Hfirst; [exact H|reflexivity|exact Hnt|
                         apply reasonsMatch_lastLive; auto]);
    try (eapply Hsecond; [exact H|reflexivity]).
  inversion Hvs.
Qed.

Section CallsOnHistory.

Variable now : nat -> Time.
Variable KeyFunc : MXJob -> string + error.

(** X13.  [updateStatusSingle] keeps the condition history in shape, whatever
    its inputs and however it ends: if before the call the history has one
    entry per condition type, does not hold both a Running and a Restarting
    entry, labels every entry with the reason of its type, and does not hold
    both a live Succeeded and a live Failed entry, then the same is true
    after the call. *)
Theorem X13_updateStatusSingle_keeps_history_invariant rtype replicas restart sc s :
  historyInvariant (Conditions (JobStatus (mxjob s))) →
  historyInvariant
    (Conditions (JobStatus (mxjob
       (exec (updateStatusSingle now KeyFunc rtype replicas restart sc) s)))).
Proof.
  intros H.
  destruct (updateStatusSingle_status now KeyFunc rtype replicas restart sc s)
    as [->|(p & rs & x & _ & Ha & _)]; [exact H|].
  apply applies_histories in Ha.
  destruct (withStart_frame x (JobStatus (mxjob s))) as (Hc0 & _). rewrite Hc0 in Ha.
  eapply (histories_preserve historyInvariant); [|exact Ha|exact H].
  intros l0 v u t. apply historyInvariant_inserted.
Qed.

Lemma call_terminal_iff rtype replicas restart sc s key p rs :
  KeyFunc (mxjob s) = inl key →
  MXReplicaStatuses (JobStatus (mxjob s)) !! rtype = Some (Some p) →
  objects s !! p = Some rs →
  isTerminal (JobStatus (mxjob s)) = false →
  reasonsMatch (Conditions (JobStatus (mxjob s))) →
  isTerminal (JobStatus (mxjob
    (exec (updateStatusSingle now KeyFunc rtype replicas restart sc) s)))
  = selectsTerminal (ContainSchedulerSpec (mxjob s)) rtype
      (int64 (replicas - Succeeded rs)) (Failed rs) restart sc.
Proof.
  intros Hkey Hm Ho Hnt Hwf.
  destruct (updateStatusSingle_derived now KeyFunc rtype replicas restart sc s key p rs
              Hkey Hm Ho) as (_ & x & Ha).
  apply applies_histories in Ha.
  destruct (withStart_frame x (JobStatus (mxjob s))) as (Hc0 & _). rewrite Hc0 in Ha.
  rewrite <- callVerdicts_selectsTerminal. unfold isTerminal.
  destruct (existsb isTerminalVerdict
              (callVerdicts (mxjob s) rs rtype replicas restart sc)) eqn:Hex.
  - eapply histories_reach_terminal; [apply callVerdicts_lists|exact Hwf|exact Ha|exact Hex].
  - eapply histories_stay_nonterminal; [exact Ha|exact Hex|exact Hnt].
Qed.

(** X14.  When a job becomes terminal: on a status that is not terminal and
    whose Succeeded and Failed reasons label only conditions of those types,
    a call (past the key lookup, the counters being there) leaves the status
    terminal exactly when its tests select a Succeeded condition (scheduler
    group with expected = 0 in a job with a scheduler role; Worker or Tuner
    group with expected = 0 or schedulerCompleted in a job without one) or a
    Failed condition (failed > 0 without restart); in every other case the
    status stays non-terminal. *)
Theorem X14_terminal_exactly_when_selected rtype replicas restart sc s key p rs :
  KeyFunc (mxjob s) = inl key →
  MXReplicaStatuses (JobStatus (mxjob s)) !! rtype = Some (Some p) →
  objects s !! p = Some rs →
  isTerminal (JobStatus (mxjob s)) = false →
  reasonsMatch (Conditions (JobStatus (mxjob s))) →
  isTerminal (JobStatus (mxjob
    (exec (updateStatusSingle now KeyFunc rtype replicas restart sc) s)))
  = selectsTerminal (ContainSchedulerSpec (mxjob s)) rtype
      (int64 (replicas - Succeeded rs)) (Failed rs) restart sc.
Proof. apply call_terminal_iff. Qed.

(** X15.  What a terminal transition leaves: when a call takes a status that
    is not terminal (its Succeeded and Failed reasons labelling only
    conditions of those types) to a terminal one, the last entry of the
    history is a live Succeeded or Failed condition, every Running entry of
    the history has status False, and the completion time is set. *)
Theorem X15_terminal_transition_demotes_running rtype replicas restart sc s key p rs :
  KeyFunc (mxjob s) = inl key →
  MXReplicaStatuses (JobStatus (mxjob s)) !! rtype = Some (Some p) →
  objects s !! p = Some rs →
  isTerminal (JobStatus (mxjob s)) = false →
  reasonsMatch (Conditions (JobStatus (mxjob s))) →
  let st' := JobStatus (mxjob (exec (updateStatusSingle now KeyFunc rtype replicas restart sc) s)) in
  isTerminal st' = true →
  (∃ c, last (Conditions st') = Some c
        ∧ Status c = ConditionTrue
        ∧ (Type_ c = MXJobSucceeded ∨ Type_ c = MXJobFailed))
  ∧ (∀ d, d ∈ Conditions st' → Type_ d = MXJobRunning → Status d = ConditionFalse)
  ∧ is_Some (CompletionTime st').
Proof.
  intros Hkey Hm Ho Hnt Hwf st' Ht. subst st'.
  rewrite (call_terminal_iff _ _ _ _ _ _ _ _ Hkey Hm Ho Hnt Hwf) in Ht.
  rewrite <- callVerdicts_selectsTerminal in Ht.
  destruct (updateStatusSingle_derived now KeyFunc rtype replicas restart sc s key p rs
              Hkey Hm Ho) as (_ & x & Ha).
  split; [|split; [|eapply applies_CompletionTime_set; eauto]].
  - apply applies_histories in Ha.
    destruct (withStart_frame x (JobStatus (mxjob s))) as (Hc0 & _). rewrite Hc0 in Ha.
    destruct (histories_terminal_shape _ _ _ _ (callVerdicts_lists _ _ _ _ _ _)
                Hwf Hnt Ha Ht) as (la & v & u & t & Hv & ->).
    destruct (stored_fields la (conditionAt v (Name (mxjob s)) u t)) as (HT & HS & _).
    exists (stored la (conditionAt v (Name (mxjob s)) u t)).
    split; [apply last_snoc|]. split; [exact HS|]. rewrite HT.
    destruct v; try discriminate Hv; auto.
  - apply applies_histories in Ha.
    destruct (withStart_frame x (JobStatus (mxjob s))) as (Hc0 & _). rewrite Hc0 in Ha.
    destruct (histories_terminal_shape _ _ _ _ (callVerdicts_lists _ _ _ _ _ _)
                Hwf Hnt Ha Ht) as (la & v & u & t & Hv & ->).
    destruct (stored_fields la (conditionAt v (Name (mxjob s)) u t)) as (HT & _).
    intros d Hd HR. apply elem_of_app in Hd as [Hd|Hd].
    + eapply filterOutCondition_demotes; [|exact Hd|exact HR].
      destruct v; try discriminate Hv; auto.
    + apply list_elem_of_singleton in Hd. subst d. rewrite HT in HR.
      destruct v; discriminate.
Qed.

End CallsOnHistory.

(** ** The scheduler group, and a whole pass over a group *)

Section Passes.

Variable now : nat -> Time.
Variable KeyFunc : MXJob -> string + error.

Lemma setStartTimeIfNil_Spec key s :
  Spec (mxjob (exec (setStartTimeIfNil now key) s)) = Spec (mxjob s)
  ∧ Name (mxjob (exec (setStartTimeIfNil now key) s)) = Name (mxjob s).
Proof.
  destruct (exec_setStartTimeIfNil now key s) as (x & -> & _). auto.
Qed.

Lemma updateStatusSingle_ignores_flag_with_scheduler replicas restart sc sc' s :
  ContainSchedulerSpec (mxjob s) = true →
  updateStatusSingle now KeyFunc MXReplicaTypeScheduler replicas restart sc' s
  = updateStatusSingle now KeyFunc MXReplicaTypeScheduler replicas restart sc s.
Proof.
  intros Hsched.
  destruct (KeyFunc (mxjob s)) as [key|err] eqn:Hkey.
  2:{ unfold updateStatusSingle. rewrite !(bind_run get _ s s s eq_refl), Hkey.
      reflexivity. }
  rewrite !(updateStatusSingle_deriveAndApply now KeyFunc _ _ _ _ _ _ Hkey).
  unfold deriveAndApply.
  destruct (derefReplicaStatus MXReplicaTypeScheduler s) as [[[p rs]|] s1] eqn:Hd.
  2:{ rewrite !(bind_panic _ _ _ _ Hd). reflexivity. }
  rewrite !(bind_run _ _ _ _ _ Hd).
  rewrite !(bind_run _ _ _ _ _ (setStartTimeIfNil_returns now _ _)).
  rewrite !(bind_run get _ _ _ _ eq_refl).
  pose proof (derefReplicaStatus_state _ _ _ _ Hd) as ->.
  assert (E : ContainSchedulerSpec (mxjob (exec (setStartTimeIfNil now key) s)) = true).
  { unfold ContainSchedulerSpec in *.
    destruct (setStartTimeIfNil_Spec key s) as [-> _]. exact Hsched. }
  unfold topologyBranch. rewrite E. reflexivity.
Qed.

(** X16.  The scheduler group of a job with a scheduler role (the key lookup
    and the counters of the group being there): with expected = replicas -
    succeeded equal to 0 the call sets the completion time and, on a status
    that is not terminal (its Succeeded and Failed reasons labelling only
    conditions of those types), leaves a live Succeeded condition, whether
    or not pods are active or failed; with expected not 0, an active pod and
    no failed pod it applies Running and leaves the completion time alone;
    with expected not 0 and neither active nor failed pods it changes
    neither the conditions nor the completion time.  The schedulerCompleted
    flag is not consulted. *)
Theorem X16_scheduler_group_with_scheduler_role replicas restart sc s key p rs :
  KeyFunc (mxjob s) = inl key →
  MXReplicaStatuses (JobStatus (mxjob s)) !! MXReplicaTypeScheduler = Some (Some p) →
  objects s !! p = Some rs →
  ContainSchedulerSpec (mxjob s) = true →
  let name := Name (mxjob s) in
  let expected := int64 (replicas - Succeeded rs) in
  let st := JobStatus (mxjob s) in
  let st' := JobStatus (mxjob (exec (updateStatusSingle now KeyFunc
                                       MXReplicaTypeScheduler replicas restart sc) s)) in
  (expected = 0%Z →
     is_Some (CompletionTime st')
     ∧ (isTerminal st = false → reasonsMatch (Conditions st) → isSucceeded st' = true))
  ∧ (expected ≠ 0%Z → (0 < Active rs)%Z → (Failed rs ≤ 0)%Z →
     CompletionTime st' = CompletionTime st
     ∧ ∃ u t, Conditions st'
              = Conditions (setCondition st (conditionAt ApplyRunning name u t)))
  ∧ (expected ≠ 0%Z → (Active rs ≤ 0)%Z → (Failed rs ≤ 0)%Z →
     Conditions st' = Conditions st ∧ CompletionTime st' = CompletionTime st)
  ∧ (∀ sc',
       updateStatusSingle now KeyFunc MXReplicaTypeScheduler replicas restart sc' s
       = updateStatusSingle now KeyFunc MXReplicaTypeScheduler replicas restart sc s).
Proof.
  intros Hkey Hm Ho Hsched name expected st st'.
  destruct (updateStatusSingle_derived now KeyFunc MXReplicaTypeScheduler replicas
              restart sc s key p rs Hkey Hm Ho) as (_ & x & Ha).
  fold st st' name in Ha. unfold callVerdicts, topologyBranch in Ha.
  rewrite Hsched in Ha. fold expected in Ha.
  change (String.eqb MXReplicaTypeScheduler MXReplicaTypeScheduler) with true in Ha.
  cbv iota in Ha.
  destruct (withStart_frame x st) as (Hc0 & _ & Hk0).
  split; [|split; [|split]].
  - intros He. rewrite He in Ha. simpl (0 =? 0)%Z in Ha. cbv iota in Ha.
    split.
    + eapply applies_CompletionTime_set; [exact Ha|].
      rewrite !existsb_app. simpl. rewrite orb_true_r. reflexivity.
    + intros Hnt Hwf. apply applies_app in Ha as (mid & Htop & Hf).
      assert (HS : hasCondition_range (Conditions mid) MXJobSucceeded = true).
      { apply (histories_topology_succeeded name
                 ((if (0 <? Active rs)%Z then [ApplyRunning] else []) ++ [ApplySucceeded])
                 (Conditions st)); auto.
        - destruct (0 <? Active rs)%Z; auto.
        - rewrite <- Hc0. apply applies_histories, Htop. }
      apply applies_histories in Hf.
      unfold isSucceeded, hasCondition.
      rewrite (histories_terminal _ _ _ _ Hf); [exact HS|].
      unfold terminalIn. rewrite HS. apply orb_true_r.
  - intros He Hact Hf.
    apply Z.eqb_neq in He. apply Z.ltb_lt in Hact.
    rewrite He, Hact, (failureBranch_none _ restart Hf) in Ha. simpl in Ha.
    destruct (applies_one _ _ _ _ Ha) as (x' & u & t & ->).
    destruct (stepStatus_frame name ApplyRunning x' u t (withStart x st)) as (_ & _ & ->).
    split; [exact Hk0|]. exists u, t.
    rewrite stepStatus_Conditions, setCondition_Conditions, Hc0. reflexivity.
  - intros He Hact Hf.
    apply Z.eqb_neq in He.
    assert ((0 <? Active rs)%Z = false) as Hact' by (apply Z.ltb_ge; exact Hact).
    rewrite He, Hact', (failureBranch_none _ restart Hf) in Ha. simpl in Ha.
    inversion Ha; subst. auto.
  - intros sc'. apply updateStatusSingle_ignores_flag_with_scheduler, Hsched.
Qed.

(** The three calls of a pass over one group. *)
Lemma pass_run rtype pods replicas restart sc s :
  (Z.of_nat (length pods) ≤ MaxInt32)%Z →
  ∃ s2,
    (do! initializeMXReplicaStatuses rtype in
     do! observePods rtype pods in
     updateStatusSingle now KeyFunc rtype replicas restart sc) s
    = updateStatusSingle now KeyFunc rtype replicas restart sc s2
    ∧ MXReplicaStatuses (JobStatus (mxjob s2)) !! rtype = Some (Some (length (objects s)))
    ∧ objects s2 !! length (objects s) = Some (addCounts zeroCounters pods)
    ∧ Conditions (JobStatus (mxjob s2)) = Conditions (JobStatus (mxjob s))
    ∧ Spec (mxjob s2) = Spec (mxjob s).
Proof.
  intros Hlen.
  rewrite (bind_run _ _ _ _ _ (initializeMXReplicaStatuses_run rtype s)).
  set (s1 := {| mxjob := _; objects := objects s ++ [zeroCounters];
                clock := clock s; WorkQueue := WorkQueue s |}).
  assert (Hm1 : MXReplicaStatuses (JobStatus (mxjob s1)) !! rtype
                = Some (Some (length (objects s)))) by apply lookup_insert_eq.
  assert (Ho1 : objects s1 !! length (objects s) = Some zeroCounters)
    by (apply list_lookup_middle; reflexivity).
  rewrite (bind_run _ _ _ _ _
             (observePods_run rtype pods s1 _ _ Hm1 Ho1 (countsFit_zero pods Hlen))).
  eexists. split; [reflexivity|]. split; [exact Hm1|]. split; [|split; reflexivity].
  cbn [set_objects objects]. apply list_lookup_insert_eq.
  eapply lookup_lt_Some. exact Ho1.
Qed.

(** X17.  A whole pass over a Worker or Tuner group of a job without a
    scheduler role (initialise the group, observe its pods, update the
    status), when as many pods have succeeded as the group has replicas:
    for every job the pass returns a nil error and the completion time is
    set afterwards; and a status that was not terminal (its Succeeded and
    Failed reasons labelling only conditions of those types) holds a live
    Succeeded condition afterwards, whatever the restart flag and also when
    other pods of the group have failed.  This includes the group of zero
    replicas without pods. *)
Theorem X17_pass_over_succeeded_group_completes_job rtype pods replicas restart sc s :
  (∀ j, ∃ key, KeyFunc j = inl key) →
  ContainSchedulerSpec (mxjob s) = false →
  rtype = MXReplicaTypeWorker ∨ rtype = MXReplicaTypeTuner →
  (Z.of_nat (length pods) ≤ MaxInt32)%Z →
  countPhase PodSucceeded pods = replicas →
  let pass := (do! initializeMXReplicaStatuses rtype in
               do! observePods rtype pods in
               updateStatusSingle now KeyFunc rtype replicas restart sc) in
  result pass s = Ok None
  ∧ is_Some (CompletionTime (JobStatus (mxjob (exec pass s))))
  ∧ (isTerminal (JobStatus (mxjob s)) = false →
     reasonsMatch (Conditions (JobStatus (mxjob s))) →
     isSucceeded (JobStatus (mxjob (exec pass s))) = true).
Proof.
  intros Hkeys Hsched Hrtype Hlen Hcount pass. subst pass.
  destruct (pass_run rtype pods replicas restart sc s Hlen)
    as (s2 & Hrun & Hm2 & Ho2 & Hc2 & HSpec2).
  unfold result, exec. rewrite Hrun.
  destruct (Hkeys (mxjob s2)) as [key Hkey].
  destruct (updateStatusSingle_derived now KeyFunc rtype replicas restart sc s2 key _ _
              Hkey Hm2 Ho2) as (Hr & x & Ha).
  unfold result, exec in Hr, Ha.
  set (st' := JobStatus (mxjob (snd (updateStatusSingle now KeyFunc rtype replicas
                                       restart sc s2)))) in *.
  split; [exact Hr|].
  unfold callVerdicts, topologyBranch, ContainSchedulerSpec in Ha.
  rewrite HSpec2 in Ha. fold (ContainSchedulerSpec (mxjob s)) in Ha. rewrite Hsched in Ha.
  assert (String.eqb rtype MXReplicaTypeWorker || String.eqb rtype MXReplicaTypeTuner = true)
    as Hwt by (destruct Hrtype as [-> | ->]; reflexivity).
  rewrite Hwt in Ha.
  assert (He : int64 (replicas - Succeeded (addCounts zeroCounters pods)) = 0%Z).
  { unfold addCounts, zeroCounters, counters. cbn [Succeeded]. rewrite Hcount.
    replace (replicas - (0 + replicas))%Z with 0%Z by lia. reflexivity. }
  rewrite He in Ha. simpl in Ha.
  destruct (withStart_frame x (JobStatus (mxjob s2))) as (Hc0 & _).
  split.
  - eapply applies_CompletionTime_set; [exact Ha|reflexivity].
  - intros Hnt Hwf.
    inversion Ha as [|? ? x' u t ? ? Ha']; subst.
    destruct (applies_terminal_first (Name (mxjob s2)) ApplySucceeded
                (failureBranch (Failed (addCounts zeroCounters pods)) restart)
                x' u t (withStart x (JobStatus (mxjob s2))) st')
      as [_ E]; try assumption; try reflexivity.
    + unfold isTerminal. rewrite Hc0, Hc2. exact Hnt.
    + rewrite Hc0, Hc2. exact Hwf.
Qed.

End Passes.

(** ** The time stamps of a condition *)

Section Stamps.

Variable now : nat -> Time.

Lemma updateMXJobConditions_run T reason message s :
  updateMXJobConditions now T reason message s
  = (Ok None,
     {| mxjob := set_JobStatus (mxjob s)
                   (setCondition (JobStatus (mxjob s))
                      {| Type_ := T; Status := ConditionTrue;
                         LastUpdateTime := now (clock s);
                         LastTransitionTime := now (S (clock s));
                         Reason := reason; Message := message |});
        objects := objects s;
        clock := S (S (clock s));
        WorkQueue := WorkQueue s |}).
Proof. reflexivity. Qed.

Lemma skips_live l c :
  Status c = ConditionTrue →
  skips l c = terminalIn l || lastLive (Reason c) l.
Proof. intros HS. unfold skips, lastLive. rewrite HS. reflexivity. Qed.

Lemma setCondition_unchanged st c :
  Status c = ConditionTrue →
  setCondition st c = st ↔ isTerminal st = true ∨ lastLive (Reason c) (Conditions st) = true.
Proof.
  intros HS. rewrite setCondition_eq. unfold isTerminal.
  rewrite <- orb_true_iff, <- (skips_live _ _ HS).
  split.
  - intros E. apply (f_equal Conditions) in E. cbn [set_Conditions Conditions] in E.
    destruct (skips (Conditions st) c) eqn:Hs; [reflexivity|].
    exfalso. unfold inserted in E. rewrite Hs in E.
    rewrite (skips_live _ _ HS) in Hs. apply orb_false_iff in Hs as [_ Hl].
    unfold lastLive in Hl. rewrite <- E, last_snoc in Hl.
    destruct (stored_fields (Conditions st) c) as (_ & HS' & HR' & _).
    rewrite HS', HR', HS, !String.eqb_refl in Hl. discriminate Hl.
  - intros H. unfold inserted. rewrite H. destruct st; reflexivity.
Qed.

(** X18.  [updateMXJobConditions] returns a nil error and reads the clock
    exactly twice, also when the condition it builds is then dropped.  It
    leaves the status as it was exactly when the job is terminal or the last
    entry of the history is live with the given reason.  Otherwise the last
    entry of the new history is the new condition: live, with the given
    type, reason and message, its update time the first of the two clock
    readings, and its transition time that of the old last entry when that
    entry was live (whatever its type), else the second clock reading. *)
Theorem X18_updateMXJobConditions_stamps T reason message s :
  let s' := exec (updateMXJobConditions now T reason message) s in
  let st := JobStatus (mxjob s) in
  let st' := JobStatus (mxjob s') in
  result (updateMXJobConditions now T reason message) s = Ok None
  ∧ clock s' = S (S (clock s))
  ∧ objects s' = objects s
  ∧ WorkQueue s' = WorkQueue s
  ∧ (st' = st ↔ isTerminal st = true ∨ lastLive reason (Conditions st) = true)
  ∧ (st' ≠ st →
     ∃ c, last (Conditions st') = Some c
        ∧ Type_ c = T ∧ Status c = ConditionTrue
        ∧ Reason c = reason ∧ Message c = message
        ∧ LastUpdateTime c = now (clock s)
        ∧ LastTransitionTime c
          = match last (Conditions st) with
            | Some cur =>
                if String.eqb (Status cur) ConditionTrue
                then LastTransitionTime cur
                else now (S (clock s))
            | None => now (S (clock s))
            end).
Proof.
  intros s' st st'. subst s' st'. unfold result, exec.
  rewrite updateMXJobConditions_run. cbn [fst snd mxjob objects clock WorkQueue].
  cbn [set_JobStatus JobStatus]. fold st.
  set (c0 := {| Type_ := T; Status := ConditionTrue;
                LastUpdateTime := now (clock s);
                LastTransitionTime := now (S (clock s));
                Reason := reason; Message := message |}).
  repeat (split; [reflexivity|]).
  split.
  - apply (setCondition_unchanged st c0). reflexivity.
  - intros Hne. destruct (setCondition_changes st c0 Hne) as [_ ->].
    exists (stored (Conditions st) c0). split; [apply last_snoc|].
    unfold stored. destruct (last (Conditions st)) as [cur|]; [|repeat split].
    cbn [Status c0].
    destruct (String.eqb (Status cur) ConditionTrue); repeat split.
Qed.

End Stamps.

(** * Witnesses of the further properties *)

(** X2, witness: the worker group with one active pod observes two running
    pods and a failed one. *)
Lemma X2_observePods_adds_phase_counts_witness :
  result (observePods MXReplicaTypeWorker threePods) workersOnly = Ok tt
  ∧ objects (exec (observePods MXReplicaTypeWorker threePods) workersOnly) !! 0%nat
    = Some (counters 3 0 1).
Proof.
  destruct (X2_observePods_adds_phase_counts MXReplicaTypeWorker threePods workersOnly
              0%nat (counters 1 0 0)) as (H1 & H2 & _).
  - reflexivity.
  - reflexivity.
  - repeat split; vm_compute; congruence.
  - split; [exact H1 | exact H2].
Defined.

(** X3, witness: the three pods observed in two orders. *)
Lemma X3_observation_order_is_irrelevant_witness :
  exec (observePods MXReplicaTypeWorker threePodsReordered) workersOnly
  = exec (observePods MXReplicaTypeWorker threePods) workersOnly.
Proof.
  apply (X3_observation_order_is_irrelevant MXReplicaTypeWorker threePods
           threePodsReordered workersOnly 0%nat (counters 1 0 0)).
  - reflexivity.
  - reflexivity.
  - repeat split; vm_compute; congruence.
  - apply perm_swap.
Defined.

(** X4, witness: a job without counters, its worker group initialised and
    three pods observed. *)
Lemma X4_initialize_then_observe_counts_pods_witness :
  result (do! initializeMXReplicaStatuses MXReplicaTypeWorker in
          observePods MXReplicaTypeWorker threePods) freshJob = Ok tt
  ∧ derefReplicaStatus MXReplicaTypeWorker
      (exec (do! initializeMXReplicaStatuses MXReplicaTypeWorker in
             observePods MXReplicaTypeWorker threePods) freshJob)
    = (Ok (0%nat, counters 2 0 1),
       exec (do! initializeMXReplicaStatuses MXReplicaTypeWorker in
             observePods MXReplicaTypeWorker threePods) freshJob).
Proof.
  destruct (X4_initialize_then_observe_counts_pods MXReplicaTypeWorker threePods freshJob)
    as (H1 & H2 & _).
  - vm_compute. congruence.
  - split; [exact H1 | exact H2].
Defined.

(** X7, witness: the first call on a job without start time, the clock
    never read before. *)
Lemma X7_start_time_is_the_first_reading_witness :
  StartTime (JobStatus (mxjob (exec (updateStatusSingle tick namespaceKey
                                       MXReplicaTypeWorker 3 false false)
                                 allWorkersSucceeded)))
  = Some 0%Z.
Proof.
  exact (X7_start_time_is_the_first_reading tick namespaceKey MXReplicaTypeWorker 3
           false false allWorkersSucceeded "default/job" 0%nat (counters 0 3 0)
           eq_refl eq_refl eq_refl).
Defined.

(** X12, witness: a live Succeeded condition set on a running job. *)
Lemma X12_setCondition_terminal_only_by_live_terminal_condition_witness :
  isTerminal createdRunning = false
  ∧ isTerminal (setCondition createdRunning
                  (liveCondition MXJobSucceeded mxJobSucceededReason 2%Z)) = true.
Proof.
  split; [reflexivity|].
  apply (X12_setCondition_terminal_only_by_live_terminal_condition createdRunning
           (liveCondition MXJobSucceeded mxJobSucceededReason 2%Z)).
  - reflexivity.
  - split; [|split; [left|]; reflexivity].
    intros E. apply (f_equal (λ st, length (Conditions st))) in E.
    vm_compute in E. discriminate E.
Defined.

(** X13, witness: a created job with two running pods and a failed one. *)
Lemma X13_updateStatusSingle_keeps_history_invariant_witness :
  historyInvariant (Conditions (JobStatus (mxjob runningWithFailure)))
  ∧ historyInvariant
      (Conditions (JobStatus (mxjob
         (exec (updateStatusSingle tick namespaceKey MXReplicaTypeWorker 3 false false)
            runningWithFailure)))).
Proof.
  assert (H : historyInvariant (Conditions (JobStatus (mxjob runningWithFailure)))).
  { split; [|split; [|split]].
    - apply NoDup_singleton.
    - intros [E _]. apply list_elem_of_singleton in E. discriminate E.
    - intros c Hc. apply list_elem_of_singleton in Hc. subst c.
      apply list_elem_of_here.
    - reflexivity. }
  split; [exact H|].
  exact (X13_updateStatusSingle_keeps_history_invariant tick namespaceKey
           MXReplicaTypeWorker 3 false false runningWithFailure H).
Defined.

(** X14, witness: a fresh job whose three workers have all succeeded. *)
Lemma X14_terminal_exactly_when_selected_witness :
  isTerminal (JobStatus (mxjob
    (exec (updateStatusSingle tick namespaceKey MXReplicaTypeWorker 3 false false)
       allWorkersSucceeded)))
  = true.
Proof.
  apply (X14_terminal_exactly_when_selected tick namespaceKey MXReplicaTypeWorker 3
           false false allWorkersSucceeded "default/job" 0%nat (counters 0 3 0));
    try reflexivity.
  intros c Hc. apply elem_of_nil in Hc. destruct Hc.
Defined.

(** X15, witness: the running job with a scheduler role whose scheduler pod
    has succeeded. *)
Lemma X15_terminal_transition_demotes_running_witness :
  (∃ c, last (Conditions (JobStatus (mxjob
           (exec (updateStatusSingle tick namespaceKey MXReplicaTypeScheduler 1 false false)
              schedulerSucceeded)))) = Some c
        ∧ Status c = ConditionTrue
        ∧ (Type_ c = MXJobSucceeded ∨ Type_ c = MXJobFailed))
  ∧ (∀ d, d ∈ Conditions (JobStatus (mxjob
            (exec (updateStatusSingle tick namespaceKey MXReplicaTypeScheduler 1 false false)
               schedulerSucceeded))) →
          Type_ d = MXJobRunning → Status d = ConditionFalse)
  ∧ is_Some (CompletionTime (JobStatus (mxjob
       (exec (updateStatusSingle tick namespaceKey MXReplicaTypeScheduler 1 false false)
          schedulerSucceeded)))).
Proof.
  apply (X15_terminal_transition_demotes_running tick namespaceKey MXReplicaTypeScheduler 1
           false false schedulerSucceeded "default/job" 0%nat (counters 0 1 0));
    try reflexivity.
  intros c Hc.
  apply elem_of_cons in Hc as [-> | Hc]; [split; intros E; discriminate E|].
  apply list_elem_of_singleton in Hc. subst c. split; intros E; discriminate E.
Defined.

(** X16, witness: the same job; the call for the scheduler group completes
    it. *)
Lemma X16_scheduler_group_with_scheduler_role_witness :
  is_Some (CompletionTime (JobStatus (mxjob
    (exec (updateStatusSingle tick namespaceKey MXReplicaTypeScheduler 1 false false)
       schedulerSucceeded))))
  ∧ isSucceeded (JobStatus (mxjob
      (exec (updateStatusSingle tick namespaceKey MXReplicaTypeScheduler 1 false false)
         schedulerSucceeded))) = true.
Proof.
  destruct (X16_scheduler_group_with_scheduler_role tick namespaceKey 1 false false
              schedulerSucceeded "default/job" 0%nat (counters 0 1 0)
              eq_refl eq_refl eq_refl eq_refl) as (H & _).
  destruct (H eq_refl) as [H1 H2].
  split; [exact H1|]. apply H2; [reflexivity|].
  intros c Hc.
  apply elem_of_cons in Hc as [-> | Hc]; [split; intros E; discriminate E|].
  apply list_elem_of_singleton in Hc. subst c. split; intros E; discriminate E.
Defined.

(** X17, witness: a pass over the worker group of a job first seen, all
    three pods succeeded. *)
Lemma X17_pass_over_succeeded_group_completes_job_witness :
  result (do! initializeMXReplicaStatuses MXReplicaTypeWorker in
          do! observePods MXReplicaTypeWorker succeededPods in
          updateStatusSingle tick namespaceKey MXReplicaTypeWorker 3 false false)
    freshJob = Ok None
  ∧ isSucceeded (JobStatus (mxjob
      (exec (do! initializeMXReplicaStatuses MXReplicaTypeWorker in
             do! observePods MXReplicaTypeWorker succeededPods in
             updateStatusSingle tick namespaceKey MXReplicaTypeWorker 3 false false)
         freshJob))) = true.
Proof.
  destruct (X17_pass_over_succeeded_group_completes_job tick namespaceKey
              MXReplicaTypeWorker succeededPods 3 false false freshJob)
    as (H1 & _ & H2).
  - intros j. eexists. reflexivity.
  - reflexivity.
  - left. reflexivity.
  - vm_compute. congruence.
  - reflexivity.
  - split; [exact H1|]. apply H2; [reflexivity|].
    intros c Hc. apply list_elem_of_singleton in Hc. subst c.
    split; intros E; discriminate E.
Defined.
